(** * react-native-audio: entities, coordinators and formatting helpers

    A shallow embedding of the TypeScript sources of the package:
    the two state entities ([AudioRecording], [AudioPlayback]), the two
    instance-based coordinators built on them ([AudioRecordingService],
    [AudioPlaybackService]), the older static services, and the duration
    formatters of [audio.utils.ts].

    Conventions of the embedding.
    - A JavaScript [number] is NaN or a finite value, and a finite value is
      an exact rational ([Q]).  NaN behaves as in JavaScript: [Math.max] and
      [Math.min] return it when an argument is NaN, every comparison with it
      is false, and it is falsy.  The infinities, the sign of zero and the
      rounding of doubles are outside the model: a quotient or a product is
      the exact one.
    - A method that mutates [this] and may throw is a computation in the
      monad [M St A := St -> completion A * St]: the mutations made before a
      [throw] are kept, as in JavaScript, and [try_catch] resumes from them.
    - The native module (expo-av) is external.  Every awaited native call
      takes its outcome as an argument of type [native A] (the promise
      resolves with a value or rejects with a thrown value); the calls a
      coordinator makes are recorded in a log.
    - An [async] method runs to completion as one step: the model describes
      a caller that awaits each call before it issues the next one.  Calls
      that overlap (a second call, or a timer callback, running inside a
      pending [await]) are not modelled, and no property below is claimed
      for them. *)

From Stdlib Require Import ZArith QArith Qminmax Qround.
From Stdlib Require Import String Ascii List Bool Lia.
From Stdlib Require Import DecimalString.
Import ListNotations.

Local Open Scope string_scope.

(** ** JavaScript values and control flow *)

(** A number: NaN or a finite value. *)
Inductive number :=
| NaN
| Finite (q : Q).

Coercion Finite : Q >-> number.

(** [x === y] and [x <= y] on numbers: false when an operand is NaN. *)
Definition Number_eqb (x y : number) : bool :=
  match x, y with
  | Finite a, Finite b => Qeq_bool a b
  | _, _ => false
  end.

Definition Number_leb (x y : number) : bool :=
  match x, y with
  | Finite a, Finite b => Qle_bool a b
  | _, _ => false
  end.

(** The same comparisons as propositions. *)
Definition Number_eq (x y : number) : Prop :=
  match x, y with
  | Finite a, Finite b => a == b
  | _, _ => False
  end.

Definition Number_le (x y : number) : Prop :=
  match x, y with
  | Finite a, Finite b => a <= b
  | _, _ => False
  end.

(** Truthiness of a number: NaN and zero are falsy. *)
Definition truthy_number (x : number) : bool :=
  match x with
  | NaN => false
  | Finite q => negb (Qeq_bool q 0)
  end.

(** [x / d] for a finite divisor [d] other than zero (a constant of the
    source, or a value the source has tested against zero). *)
Definition divided_by (d : Q) (x : number) : number :=
  match x with
  | NaN => NaN
  | Finite q => Finite (q / d)
  end.

(** [x * k] for a finite constant [k]. *)
Definition times (k : Q) (x : number) : number :=
  match x with
  | NaN => NaN
  | Finite q => Finite (q * k)
  end.

(** The value of [Math.floor]: an integer, or NaN ([None]). *)
Definition integer := option Z.

Definition Math_floor (x : number) : integer :=
  match x with
  | NaN => None
  | Finite q => Some (Qfloor q)
  end.

(** [Math.floor(n / k)] and [n % k] for an integer or NaN [n] and a positive
    integer constant [k]: [%] takes the sign of [n]. *)
Definition floor_quotient (n : integer) (k : Z) : integer :=
  option_map (fun z => (z / k)%Z) n.

Definition remainder (n : integer) (k : Z) : integer :=
  option_map (fun z => Z.rem z k) n.

(** [new Error(message)] *)
Record Error := mkError { message : string }.

(** What a [throw] or a rejected promise carries: an [Error] object or any
    other value. *)
Inductive thrown :=
| ThrownError (e : Error)
| ThrownOther.

(** [error instanceof Error ? error : new Error(fallback)] *)
Definition instanceof_Error_or (fallback : string) (error : thrown) : Error :=
  match error with
  | ThrownError e => e
  | ThrownOther => mkError fallback
  end.

(** How a call ends. *)
Inductive completion (A : Type) :=
| Returns (a : A)
| Throws (v : thrown).
Arguments Returns {A} a.
Arguments Throws {A} v.

(** The outcome of an awaited native promise. *)
Inductive native (A : Type) :=
| Resolves (a : A)
| Rejects (v : thrown).
Arguments Resolves {A} a.
Arguments Rejects {A} v.

Definition M (St A : Type) : Type := St -> completion A * St.

Definition ret {St A} (a : A) : M St A := fun s => (Returns a, s).

Definition bind {St A B} (c : M St A) (k : A -> M St B) : M St B :=
  fun s =>
    match c s with
    | (Returns a, s') => k a s'
    | (Throws v, s') => (Throws v, s')
    end.

Definition throw {St A} (v : thrown) : M St A := fun s => (Throws v, s).

(** [try { body } catch (error) { handler error }] *)
Definition try_catch {St A} (body : M St A) (handler : thrown -> M St A) : M St A :=
  fun s =>
    match body s with
    | (Returns a, s') => (Returns a, s')
    | (Throws v, s') => handler v s'
    end.

Definition gets {St A} (f : St -> A) : M St A := fun s => (Returns (f s), s).

Definition modify {St} (f : St -> St) : M St unit := fun s => (Returns tt, f s).

(** [await p] for a native promise whose outcome is [p]. *)
Definition await {St A} (p : native A) : M St A :=
  match p with
  | Resolves a => ret a
  | Rejects v => throw v
  end.

Definition when {St} (b : bool) (c : M St unit) : M St unit :=
  if b then c else ret tt.

Declare Scope js_scope.
Delimit Scope js_scope with js.
Notation "x <- c1 ;; c2" := (bind c1 (fun x => c2))
  (at level 61, c1 at next level, right associativity) : js_scope.
Notation "c1 ;; c2" := (bind c1 (fun _ => c2))
  (at level 61, right associativity) : js_scope.

(** The state a computation leaves behind, whatever its completion. *)
Definition exec {St A} (c : M St A) (s : St) : St := snd (c s).
Definition result {St A} (c : M St A) (s : St) : completion A := fst (c s).

(** Truthiness of the values the sources test. *)
Definition truthy_string (s : string) : bool := negb (String.eqb s "").

Definition truthy_opt_string (o : option string) : bool :=
  match o with
  | Some s => truthy_string s
  | None => false
  end.

(** [x || 0] for an optional number: [undefined], [0] and NaN are falsy. *)
Definition or_zero (o : option number) : number :=
  match o with
  | Some x => if truthy_number x then x else 0%Q
  | None => 0%Q
  end.

(** [x || ''] for an optional string. *)
Definition or_empty (o : option string) : string :=
  match o with
  | Some s => if truthy_string s then s else ""
  | None => ""
  end.

(** [Math.max(a, b)] and [Math.min(a, b)]: NaN when an argument is NaN. *)
Definition Math_max (a b : number) : number :=
  match a, b with
  | Finite x, Finite y => Finite (Qmax x y)
  | _, _ => NaN
  end.

Definition Math_min (a b : number) : number :=
  match a, b with
  | Finite x, Finite y => Finite (Qmin x y)
  | _, _ => NaN
  end.

(** ** domain/types/AudioTypes.ts *)

Module AudioTypes.

Module AudioRecordingState.
Inductive t :=
| IDLE | PREPARING | RECORDING | PAUSED | STOPPING | STOPPED | ERROR.

Definition eqb (a b : t) : bool :=
  match a, b with
  | IDLE, IDLE | PREPARING, PREPARING | RECORDING, RECORDING
  | PAUSED, PAUSED | STOPPING, STOPPING | STOPPED, STOPPED
  | ERROR, ERROR => true
  | _, _ => false
  end.
End AudioRecordingState.

Module AudioPlaybackState.
Inductive t :=
| IDLE | LOADING | READY | PLAYING | PAUSED | STOPPED | COMPLETED | ERROR.

Definition eqb (a b : t) : bool :=
  match a, b with
  | IDLE, IDLE | LOADING, LOADING | READY, READY | PLAYING, PLAYING
  | PAUSED, PAUSED | STOPPED, STOPPED | COMPLETED, COMPLETED
  | ERROR, ERROR => true
  | _, _ => false
  end.
End AudioPlaybackState.

Inductive AudioQuality := LOW | MEDIUM | HIGH | MAX.
Inductive AudioFormat := AAC | MP3 | WAV | MPEG4.
Inductive AudioChannel := MONO | STEREO.
Inductive AudioExtension := EXT_AAC | EXT_MP3 | EXT_WAV | EXT_M4A.

Record RecordingStatus := {
  rs_durationMillis : number
}.

Record PlaybackStatus := {
  ps_didJustFinish : bool;
  ps_durationMillis : number;
  ps_isBuffering : bool;
  ps_isLoaded : bool;
  ps_isLooping : bool;
  ps_isPlaying : bool;
  ps_isMuted : bool;
  ps_positionMillis : number;
  ps_playbackRate : number;
  ps_volume : number
}.

Record AudioRecordingConfig := {
  quality : AudioQuality;
  format : AudioFormat;
  channel : AudioChannel;
  bitRate : number;
  sampleRate : number;
  extension : AudioExtension;
  maxDurationSeconds : option number
}.

Record AudioPlaybackOptions := {
  shouldPlay : bool;
  volume : number;
  isLooping : bool;
  isMuted : bool;
  playbackRate : number;
  progressUpdateIntervalMillis : number;
  positionUpdateIntervalMillis : number
}.

(** A [Date] is a timestamp in milliseconds. *)
Definition Date := Z.

Record AudioMetadata := {
  md_uri : string;
  md_duration : number;
  md_format : option AudioFormat;
  md_createdAt : option Date;
  md_modifiedAt : option Date
}.

Record RecordingResult := {
  rr_uri : string;
  rr_duration : number;
  rr_status : AudioRecordingState.t
}.

Record PlaybackResult := {
  pr_uri : string;
  pr_duration : number;
  pr_position : number;
  pr_status : AudioPlaybackState.t
}.

(** The values of the string enums. *)
Definition AudioFormat_value (f : AudioFormat) : string :=
  match f with
  | AAC => "aac"
  | MP3 => "mp3"
  | WAV => "wav"
  | MPEG4 => "mpeg4"
  end.

Definition AudioChannel_value (c : AudioChannel) : string :=
  match c with
  | MONO => "mono"
  | STEREO => "stereo"
  end.

Definition AudioExtension_value (e : AudioExtension) : string :=
  match e with
  | EXT_AAC => ".aac"
  | EXT_MP3 => ".mp3"
  | EXT_WAV => ".wav"
  | EXT_M4A => ".m4a"
  end.

End AudioTypes.
Import AudioTypes.

(** ** domain/constants/AudioConstants.ts *)

Module AudioConstants.

Definition DEFAULT_RECORDING_CONFIG : AudioRecordingConfig :=
  {| quality := MEDIUM; format := AAC; channel := MONO;
     bitRate := 128000; sampleRate := 44100; extension := EXT_AAC;
     maxDurationSeconds := None |}.

Definition DEFAULT_PLAYBACK_OPTIONS : AudioPlaybackOptions :=
  {| shouldPlay := false; volume := 1; isLooping := false; isMuted := false;
     playbackRate := 1; progressUpdateIntervalMillis := 500;
     positionUpdateIntervalMillis := 500 |}.

Definition VOLUME_MIN : number := 0.
Definition VOLUME_MAX : number := 1.
Definition PLAYBACK_RATE_MIN : number := 1 # 2.
Definition PLAYBACK_RATE_MAX : number := 2.

End AudioConstants.

(** ** domain/entities/AudioRecording.ts *)

Module AudioRecording.

Record t := {
  _state : AudioRecordingState.t;
  _config : AudioRecordingConfig;
  _uri : option string;
  _duration : number;
  _error : option Error;
  _status : option RecordingStatus
}.

Definition new (config : AudioRecordingConfig) : t :=
  {| _state := AudioRecordingState.IDLE;
     _config := config;
     _uri := None;
     _duration := 0;
     _error := None;
     _status := None |}.

Definition state (r : t) := _state r.
Definition config (r : t) := _config r.
Definition uri (r : t) := _uri r.
Definition duration (r : t) := _duration r.
Definition error (r : t) := _error r.
Definition status (r : t) := _status r.

Definition isRecording (r : t) : bool :=
  AudioRecordingState.eqb (_state r) AudioRecordingState.RECORDING.

Definition isPaused (r : t) : bool :=
  AudioRecordingState.eqb (_state r) AudioRecordingState.PAUSED.

Definition isStopped (r : t) : bool :=
  AudioRecordingState.eqb (_state r) AudioRecordingState.STOPPED.

Definition hasError (r : t) : bool :=
  AudioRecordingState.eqb (_state r) AudioRecordingState.ERROR.

Definition canRecord (r : t) : bool :=
  AudioRecordingState.eqb (_state r) AudioRecordingState.IDLE
  || AudioRecordingState.eqb (_state r) AudioRecordingState.STOPPED.

Definition canPause (r : t) : bool :=
  AudioRecordingState.eqb (_state r) AudioRecordingState.RECORDING.

Definition canStop (r : t) : bool :=
  AudioRecordingState.eqb (_state r) AudioRecordingState.RECORDING
  || AudioRecordingState.eqb (_state r) AudioRecordingState.PAUSED.

Definition canResume (r : t) : bool :=
  AudioRecordingState.eqb (_state r) AudioRecordingState.PAUSED.

Definition setState (st : AudioRecordingState.t) (r : t) : t :=
  {| _state := st; _config := _config r; _uri := _uri r;
     _duration := _duration r; _error := _error r; _status := _status r |}.

Definition setUri (u : string) (r : t) : t :=
  {| _state := _state r; _config := _config r; _uri := Some u;
     _duration := _duration r; _error := _error r; _status := _status r |}.

Definition setDuration (d : number) (r : t) : t :=
  {| _state := _state r; _config := _config r; _uri := _uri r;
     _duration := d; _error := _error r; _status := _status r |}.

Definition setError (e : Error) (r : t) : t :=
  {| _state := AudioRecordingState.ERROR; _config := _config r; _uri := _uri r;
     _duration := _duration r; _error := Some e; _status := _status r |}.

Definition setStatus (st : RecordingStatus) (r : t) : t :=
  {| _state := _state r; _config := _config r; _uri := _uri r;
     _duration := _duration r; _error := _error r; _status := Some st |}.

Definition clearError (r : t) : t :=
  {| _state := _state r; _config := _config r; _uri := _uri r;
     _duration := _duration r; _error := None; _status := _status r |}.

Definition reset (r : t) : t :=
  {| _state := AudioRecordingState.IDLE; _config := _config r; _uri := None;
     _duration := 0; _error := None; _status := None |}.

Definition no_uri : Error := mkError "No recording URI available".

(** [toResult()]: the guard [!this._uri] holds for [null] and for the
    empty string. *)
Definition toResult : M t RecordingResult :=
  (u <- gets _uri ;;
   match u with
   | Some s =>
       if negb (truthy_string s) then throw (ThrownError no_uri)
       else
         d <- gets _duration ;;
         st <- gets _state ;;
         ret {| rr_uri := s; rr_duration := d; rr_status := st |}
   | None => throw (ThrownError no_uri)
   end)%js.

(** [toMetadata()]; the two [new Date()] readings are arguments. *)
Definition toMetadata (createdAt modifiedAt : Date) : M t AudioMetadata :=
  (u <- gets _uri ;;
   match u with
   | Some s =>
       if negb (truthy_string s) then throw (ThrownError no_uri)
       else
         d <- gets _duration ;;
         c <- gets _config ;;
         ret {| md_uri := s; md_duration := d;
                md_format := Some (format c);
                md_createdAt := Some createdAt;
                md_modifiedAt := Some modifiedAt |}
   | None => throw (ThrownError no_uri)
   end)%js.

Definition fromMetadata (metadata : AudioMetadata) (config : AudioRecordingConfig) : t :=
  {| _state := AudioRecordingState.STOPPED;
     _config := config;
     _uri := Some (md_uri metadata);
     _duration := md_duration metadata;
     _error := None;
     _status := None |}.

End AudioRecording.

(** ** domain/entities/AudioPlayback.ts *)

Module AudioPlayback.

Record t := {
  _state : AudioPlaybackState.t;
  _uri : option string;
  _options : AudioPlaybackOptions;
  _duration : number;
  _position : number;
  _error : option Error;
  _status : option PlaybackStatus
}.

Definition new (options : AudioPlaybackOptions) : t :=
  {| _state := AudioPlaybackState.IDLE;
     _uri := None;
     _options := options;
     _duration := 0;
     _position := 0;
     _error := None;
     _status := None |}.

Definition state (p : t) := _state p.
Definition uri (p : t) := _uri p.
Definition options (p : t) := _options p.
Definition duration (p : t) := _duration p.
Definition position (p : t) := _position p.
Definition volume (p : t) := AudioTypes.volume (_options p).
Definition playbackRate (p : t) := AudioTypes.playbackRate (_options p).
Definition isLooping (p : t) := AudioTypes.isLooping (_options p).
Definition isMuted (p : t) := AudioTypes.isMuted (_options p).
Definition error (p : t) := _error p.
Definition status (p : t) := _status p.

Definition has_uri (p : t) : bool :=
  match _uri p with Some _ => true | None => false end.

Definition isPlaying (p : t) : bool :=
  AudioPlaybackState.eqb (_state p) AudioPlaybackState.PLAYING.

Definition canPlay (p : t) : bool :=
  has_uri p
  && (AudioPlaybackState.eqb (_state p) AudioPlaybackState.IDLE
      || AudioPlaybackState.eqb (_state p) AudioPlaybackState.READY
      || AudioPlaybackState.eqb (_state p) AudioPlaybackState.PAUSED
      || AudioPlaybackState.eqb (_state p) AudioPlaybackState.STOPPED
      || AudioPlaybackState.eqb (_state p) AudioPlaybackState.COMPLETED).

Definition canPause (p : t) : bool :=
  AudioPlaybackState.eqb (_state p) AudioPlaybackState.PLAYING.

Definition canStop (p : t) : bool :=
  AudioPlaybackState.eqb (_state p) AudioPlaybackState.PLAYING
  || AudioPlaybackState.eqb (_state p) AudioPlaybackState.PAUSED
  || AudioPlaybackState.eqb (_state p) AudioPlaybackState.LOADING.

Definition canSeek (p : t) : bool :=
  has_uri p
  && (AudioPlaybackState.eqb (_state p) AudioPlaybackState.READY
      || AudioPlaybackState.eqb (_state p) AudioPlaybackState.PLAYING
      || AudioPlaybackState.eqb (_state p) AudioPlaybackState.PAUSED
      || AudioPlaybackState.eqb (_state p) AudioPlaybackState.STOPPED
      || AudioPlaybackState.eqb (_state p) AudioPlaybackState.COMPLETED).

Definition progress (p : t) : number :=
  if Number_eqb (_duration p) 0%Q then 0%Q
  else
    match _duration p with
    | Finite d => divided_by d (_position p)
    | NaN => NaN
    end.

Definition setState (st : AudioPlaybackState.t) (p : t) : t :=
  {| _state := st; _uri := _uri p; _options := _options p;
     _duration := _duration p; _position := _position p;
     _error := _error p; _status := _status p |}.

Definition setUri (u : string) (p : t) : t :=
  {| _state := _state p; _uri := Some u; _options := _options p;
     _duration := _duration p; _position := _position p;
     _error := _error p; _status := _status p |}.

Definition setDuration (d : number) (p : t) : t :=
  {| _state := _state p; _uri := _uri p; _options := _options p;
     _duration := d; _position := _position p;
     _error := _error p; _status := _status p |}.

Definition setPosition (pos : number) (p : t) : t :=
  {| _state := _state p; _uri := _uri p; _options := _options p;
     _duration := _duration p;
     _position := Math_max 0 (Math_min pos (_duration p));
     _error := _error p; _status := _status p |}.

Definition with_options (f : AudioPlaybackOptions -> AudioPlaybackOptions) (p : t) : t :=
  {| _state := _state p; _uri := _uri p; _options := f (_options p);
     _duration := _duration p; _position := _position p;
     _error := _error p; _status := _status p |}.

Definition setVolume (v : number) : t -> t :=
  with_options (fun o =>
    {| shouldPlay := shouldPlay o; AudioTypes.volume := v;
       AudioTypes.isLooping := AudioTypes.isLooping o;
       AudioTypes.isMuted := AudioTypes.isMuted o;
       AudioTypes.playbackRate := AudioTypes.playbackRate o;
       progressUpdateIntervalMillis := progressUpdateIntervalMillis o;
       positionUpdateIntervalMillis := positionUpdateIntervalMillis o |}).

Definition setPlaybackRate (r : number) : t -> t :=
  with_options (fun o =>
    {| shouldPlay := shouldPlay o; AudioTypes.volume := AudioTypes.volume o;
       AudioTypes.isLooping := AudioTypes.isLooping o;
       AudioTypes.isMuted := AudioTypes.isMuted o;
       AudioTypes.playbackRate := r;
       progressUpdateIntervalMillis := progressUpdateIntervalMillis o;
       positionUpdateIntervalMillis := positionUpdateIntervalMillis o |}).

Definition setLooping (b : bool) : t -> t :=
  with_options (fun o =>
    {| shouldPlay := shouldPlay o; AudioTypes.volume := AudioTypes.volume o;
       AudioTypes.isLooping := b;
       AudioTypes.isMuted := AudioTypes.isMuted o;
       AudioTypes.playbackRate := AudioTypes.playbackRate o;
       progressUpdateIntervalMillis := progressUpdateIntervalMillis o;
       positionUpdateIntervalMillis := positionUpdateIntervalMillis o |}).

Definition setMuted (b : bool) : t -> t :=
  with_options (fun o =>
    {| shouldPlay := shouldPlay o; AudioTypes.volume := AudioTypes.volume o;
       AudioTypes.isLooping := AudioTypes.isLooping o;
       AudioTypes.isMuted := b;
       AudioTypes.playbackRate := AudioTypes.playbackRate o;
       progressUpdateIntervalMillis := progressUpdateIntervalMillis o;
       positionUpdateIntervalMillis := positionUpdateIntervalMillis o |}).

Definition setError (e : Error) (p : t) : t :=
  {| _state := AudioPlaybackState.ERROR; _uri := _uri p; _options := _options p;
     _duration := _duration p; _position := _position p;
     _error := Some e; _status := _status p |}.

Definition setStatus (st : PlaybackStatus) (p : t) : t :=
  {| _state := _state p; _uri := _uri p; _options := _options p;
     _duration := _duration p; _position := _position p;
     _error := _error p; _status := Some st |}.

Definition clearError (p : t) : t :=
  {| _state := _state p; _uri := _uri p; _options := _options p;
     _duration := _duration p; _position := _position p;
     _error := None; _status := _status p |}.

Definition reset (p : t) : t :=
  {| _state := AudioPlaybackState.IDLE; _uri := None; _options := _options p;
     _duration := 0; _position := 0; _error := None; _status := None |}.

Definition isPaused (p : t) : bool :=
  AudioPlaybackState.eqb (_state p) AudioPlaybackState.PAUSED.

Definition isStopped (p : t) : bool :=
  AudioPlaybackState.eqb (_state p) AudioPlaybackState.STOPPED.

Definition isCompleted (p : t) : bool :=
  AudioPlaybackState.eqb (_state p) AudioPlaybackState.COMPLETED.

Definition hasError (p : t) : bool :=
  AudioPlaybackState.eqb (_state p) AudioPlaybackState.ERROR.

Definition no_uri : Error := mkError "No playback URI available".

(** [toResult()]: the guard is [!this._uri]. *)
Definition toResult : M t PlaybackResult :=
  (u <- gets _uri ;;
   match u with
   | Some s =>
       if negb (truthy_string s) then throw (ThrownError no_uri)
       else
         d <- gets _duration ;;
         pos <- gets _position ;;
         st <- gets _state ;;
         ret {| pr_uri := s; pr_duration := d; pr_position := pos; pr_status := st |}
   | None => throw (ThrownError no_uri)
   end)%js.

Definition fromMetadata (metadata : AudioMetadata) (options : AudioPlaybackOptions) : t :=
  {| _state := AudioPlaybackState.READY;
     _uri := Some (md_uri metadata);
     _options := options;
     _duration := md_duration metadata;
     _position := 0;
     _error := None;
     _status := None |}.

End AudioPlayback.

(** ** The part of the JavaScript runtime the coordinators use: interval timers *)

Module Timers.

(** The intervals created by [setInterval] and not yet cleared, and the
    identifier the next [setInterval] returns (identifiers are non-zero,
    hence truthy). *)
Record t := {
  active : list nat;
  next : nat
}.

Definition init : t := {| active := []; next := 1 |}.

Definition setInterval (tm : t) : nat * t :=
  (next tm, {| active := next tm :: active tm; next := S (next tm) |}).

Definition clearInterval (id : nat) (tm : t) : t :=
  {| active := filter (fun i => negb (Nat.eqb i id)) (active tm); next := next tm |}.

Definition is_active (id : nat) (tm : t) : bool :=
  existsb (Nat.eqb id) (active tm).

End Timers.

(** ** infrastructure/services/AudioRecordingService.ts (instance-based coordinator) *)

Module AudioRecordingService.

(** An [Audio.Recording] object: its identity, and the property
    [_statusUpdateInterval] the service attaches to it. *)
Record Recording := {
  object_id : nat;
  _statusUpdateInterval : option nat
}.

(** The status expo-av reports for a recording. *)
Record ExpoRecordingStatus := {
  canRecord : bool;
  isRecording : bool;
  isDoneRecording : bool;
  durationMillis : option number;
  uri : option string
}.

(** The native calls the service makes, each on the object it names. *)
Inductive native_call :=
| new_Recording (id : nat)
| prepareToRecordAsync (id : nat)
| startAsync (id : nat)
| getStatusAsync (id : nat)
| pauseAsync (id : nat)
| stopAndUnloadAsync (id : nat).

Record t := {
  recordingInstance : option Recording;
  recording : AudioRecording.t;
  timers : Timers.t;
  next_object : nat;
  calls : list native_call
}.

Definition new (recording : AudioRecording.t) : t :=
  {| recordingInstance := None;
     recording := recording;
     timers := Timers.init;
     next_object := 0;
     calls := [] |}.

Definition recordingEntity (s : t) : AudioRecording.t := recording s.

(** Field updates. *)
Definition set_recordingInstance (o : option Recording) (s : t) : t :=
  {| recordingInstance := o; recording := recording s; timers := timers s;
     next_object := next_object s; calls := calls s |}.

Definition on_recording (f : AudioRecording.t -> AudioRecording.t) (s : t) : t :=
  {| recordingInstance := recordingInstance s; recording := f (recording s);
     timers := timers s; next_object := next_object s; calls := calls s |}.

Definition on_timers (f : Timers.t -> Timers.t) (s : t) : t :=
  {| recordingInstance := recordingInstance s; recording := recording s;
     timers := f (timers s); next_object := next_object s; calls := calls s |}.

Definition called (c : native_call) (s : t) : t :=
  {| recordingInstance := recordingInstance s; recording := recording s;
     timers := timers s; next_object := next_object s;
     calls := calls s ++ [c] |}.

(** [new Audio.Recording()] *)
Definition construct_Recording : M t Recording :=
  fun s =>
    let obj := {| object_id := next_object s; _statusUpdateInterval := None |} in
    (Returns obj,
     {| recordingInstance := recordingInstance s; recording := recording s;
        timers := timers s; next_object := S (next_object s);
        calls := calls s ++ [new_Recording (next_object s)] |}).

(** An awaited method of the held object: the call is logged, then the
    promise settles. *)
Definition call {A} (c : nat -> native_call) (obj : Recording) (p : native A) : M t A :=
  (modify (called (c (object_id obj))) ;; await p)%js.

(** The [catch] block every operation shares. *)
Definition capture {A} (fallback : string) (error : thrown) : M t A :=
  (let err := instanceof_Error_or fallback error in
   modify (on_recording (AudioRecording.setError err)) ;;
   throw (ThrownError err))%js.

Definition startStatusUpdate : M t unit :=
  fun s =>
    match recordingInstance s with
    | None => (Returns tt, s)
    | Some obj =>
        let (interval, tm) := Timers.setInterval (timers s) in
        (Returns tt,
         {| recordingInstance :=
              Some {| object_id := object_id obj;
                      _statusUpdateInterval := Some interval |};
            recording := recording s; timers := tm;
            next_object := next_object s; calls := calls s |})
    end.

Definition stopStatusUpdate : M t unit :=
  fun s =>
    match recordingInstance s with
    | Some obj =>
        match _statusUpdateInterval obj with
        | Some interval =>
            (Returns tt,
             {| recordingInstance :=
                  Some {| object_id := object_id obj;
                          _statusUpdateInterval := None |};
                recording := recording s;
                timers := Timers.clearInterval interval (timers s);
                next_object := next_object s; calls := calls s |})
        | None => (Returns tt, s)
        end
    | None => (Returns tt, s)
    end.

Definition prepare (r_prepare : native unit) : M t unit :=
  try_catch
    (modify (on_recording (AudioRecording.setState AudioRecordingState.PREPARING)) ;;
     obj <- construct_Recording ;;
     modify (set_recordingInstance (Some obj)) ;;
     call prepareToRecordAsync obj r_prepare ;;
     modify (on_recording (AudioRecording.setState AudioRecordingState.IDLE)))%js
    (capture "Failed to prepare recording").

Definition start (r_start : native unit) (r_status : native ExpoRecordingStatus)
  : M t string :=
  try_catch
    (inst <- gets recordingInstance ;;
     match inst with
     | None => throw (ThrownError (mkError "Recording not prepared. Call prepare() first."))
     | Some obj =>
         modify (on_recording (AudioRecording.setState AudioRecordingState.RECORDING)) ;;
         call startAsync obj r_start ;;
         status <- call getStatusAsync obj r_status ;;
         modify (on_recording (AudioRecording.setDuration (or_zero (durationMillis status)))) ;;
         match uri status with
         | Some u => when (truthy_string u) (modify (on_recording (AudioRecording.setUri u)))
         | None => ret tt
         end ;;
         startStatusUpdate ;;
         ret (or_empty (uri status))
     end)%js
    (capture "Failed to start recording").

Definition pause (r_pause : native unit) : M t unit :=
  try_catch
    (inst <- gets recordingInstance ;;
     canPause <- gets (fun s => AudioRecording.canPause (recording s)) ;;
     match inst with
     | Some obj =>
         if negb canPause then throw (ThrownError (mkError "Cannot pause recording"))
         else
           modify (on_recording (AudioRecording.setState AudioRecordingState.PAUSED)) ;;
           call pauseAsync obj r_pause
     | None => throw (ThrownError (mkError "Cannot pause recording"))
     end)%js
    (capture "Failed to pause recording").

Definition stop (r_stop : native ExpoRecordingStatus) : M t unit :=
  try_catch
    (inst <- gets recordingInstance ;;
     canStop <- gets (fun s => AudioRecording.canStop (recording s)) ;;
     match inst with
     | Some obj =>
         if negb canStop then throw (ThrownError (mkError "Cannot stop recording"))
         else
           modify (on_recording (AudioRecording.setState AudioRecordingState.STOPPING)) ;;
           status <- call stopAndUnloadAsync obj r_stop ;;
           match uri status with
           | Some u => when (truthy_string u) (modify (on_recording (AudioRecording.setUri u)))
           | None => ret tt
           end ;;
           modify (on_recording (AudioRecording.setDuration (or_zero (durationMillis status)))) ;;
           modify (on_recording (AudioRecording.setState AudioRecordingState.STOPPED)) ;;
           modify (set_recordingInstance None)
     | None => throw (ThrownError (mkError "Cannot stop recording"))
     end)%js
    (capture "Failed to stop recording").

Definition cancel (r_stop : native ExpoRecordingStatus) : M t unit :=
  try_catch
    (inst <- gets recordingInstance ;;
     match inst with
     | Some obj =>
         call stopAndUnloadAsync obj r_stop ;;
         modify (set_recordingInstance None)
     | None => ret tt
     end ;;
     modify (on_recording AudioRecording.reset))%js
    (capture "Failed to cancel recording").

(** The callback [startStatusUpdate] hands to [setInterval], for the timer
    [interval] it created; it runs only while that timer is active. *)
Definition tick (interval : nat) (r_status : native ExpoRecordingStatus) : M t unit :=
  (active <- gets (fun s => Timers.is_active interval (timers s)) ;;
   if negb active then ret tt
   else
     inst <- gets recordingInstance ;;
     match inst with
     | None => modify (on_timers (Timers.clearInterval interval))
     | Some obj =>
         try_catch
           (status <- call getStatusAsync obj r_status ;;
            modify (on_recording (AudioRecording.setStatus
                      {| rs_durationMillis := or_zero (durationMillis status) |})) ;;
            modify (on_recording (AudioRecording.setDuration (or_zero (durationMillis status)))) ;;
            when (negb (isRecording status))
                 (modify (on_timers (Timers.clearInterval interval))))
           (fun _ => modify (on_timers (Timers.clearInterval interval)))
     end)%js.

Definition dispose : M t unit :=
  (stopStatusUpdate ;;
   modify (set_recordingInstance None) ;;
   modify (on_recording AudioRecording.reset))%js.

(** One step of a client: an operation together with the outcomes of the
    native calls it may await. *)
Inductive op :=
| Prepare (r_prepare : native unit)
| Start (r_start : native unit) (r_status : native ExpoRecordingStatus)
| Pause (r_pause : native unit)
| Stop (r_stop : native ExpoRecordingStatus)
| Cancel (r_stop : native ExpoRecordingStatus)
| Dispose
| Tick (interval : nat) (r_status : native ExpoRecordingStatus).

(** The state after an operation; a thrown error is the caller's to
    handle and does not stop the sequence. *)
Definition step (s : t) (o : op) : t :=
  match o with
  | Prepare r => exec (prepare r) s
  | Start r1 r2 => exec (start r1 r2) s
  | Pause r => exec (pause r) s
  | Stop r => exec (stop r) s
  | Cancel r => exec (cancel r) s
  | Dispose => exec dispose s
  | Tick i r => exec (tick i r) s
  end.

(** The state after a sequence of operations, each awaited before the next
    one is issued. *)
Definition run (ops : list op) (s : t) : t := fold_left step ops s.

(** What the specification says of the uri, as functions of the state an
    operation finds and of the operation. *)






(** How an operation ends, its value dropped. *)
Definition outcome (s : t) (o : op) : completion unit :=
  match o with
  | Prepare r => result (prepare r) s
  | Start r1 r2 =>
      match result (start r1 r2) s with
      | Returns _ => Returns tt
      | Throws v => Throws v
      end
  | Pause r => result (pause r) s
  | Stop r => result (stop r) s
  | Cancel r => result (cancel r) s
  | Dispose => result dispose s
  | Tick i r => result (tick i r) s
  end.

(** The states an operation can leave the session in. *)
Definition at_rest (st : AudioRecordingState.t) : bool :=
  match st with
  | AudioRecordingState.PREPARING | AudioRecordingState.STOPPING => false
  | _ => true
  end.

End AudioRecordingService.

(** ** infrastructure/services/AudioPlaybackService.ts (instance-based coordinator) *)

Module AudioPlaybackService.

(** An [Audio.Sound] object, by identity. *)
Record Sound := { object_id : nat }.

(** The status expo-av reports for a loaded sound. *)
Record AVPlaybackStatusSuccess := {
  didJustFinish : bool;
  durationMillis : option number;
  isBuffering : bool;
  isLooping : bool;
  isPlaying : bool;
  isMuted : bool;
  positionMillis : number;
  rate : number;
  volume : number;
  shouldPlay : bool
}.

(** [AVPlaybackStatus]: [isLoaded] discriminates the two shapes. *)
Inductive AVPlaybackStatus :=
| NotLoaded (error : option string)
| Loaded (status : AVPlaybackStatusSuccess).

Inductive native_call :=
| createAsync (id : nat) (uri : string) (initialStatus : AudioPlaybackOptions)
| getStatusAsync (id : nat)
| playAsync (id : nat)
| pauseAsync (id : nat)
| stopAsync (id : nat)
| setPositionAsync (id : nat) (position : number)
| setVolumeAsync (id : nat) (volume : number)
| setRateAsync (id : nat) (rate : number) (shouldCorrectPitch : bool)
| setIsLoopingAsync (id : nat) (isLooping : bool)
| setIsMutedAsync (id : nat) (isMuted : bool)
| unloadAsync (id : nat).

Record t := {
  soundInstance : option Sound;
  playback : AudioPlayback.t;
  statusUpdateInterval : option nat;
  timers : Timers.t;
  next_object : nat;
  calls : list native_call
}.

Definition new (playback : AudioPlayback.t) : t :=
  {| soundInstance := None;
     playback := playback;
     statusUpdateInterval := None;
     timers := Timers.init;
     next_object := 0;
     calls := [] |}.

Definition playbackEntity (s : t) : AudioPlayback.t := playback s.

Definition set_soundInstance (o : option Sound) (s : t) : t :=
  {| soundInstance := o; playback := playback s;
     statusUpdateInterval := statusUpdateInterval s; timers := timers s;
     next_object := next_object s; calls := calls s |}.

Definition on_playback (f : AudioPlayback.t -> AudioPlayback.t) (s : t) : t :=
  {| soundInstance := soundInstance s; playback := f (playback s);
     statusUpdateInterval := statusUpdateInterval s; timers := timers s;
     next_object := next_object s; calls := calls s |}.

Definition called (c : native_call) (s : t) : t :=
  {| soundInstance := soundInstance s; playback := playback s;
     statusUpdateInterval := statusUpdateInterval s; timers := timers s;
     next_object := next_object s; calls := calls s ++ [c] |}.

Definition call {A} (c : native_call) (p : native A) : M t A :=
  (modify (called c) ;; await p)%js.

(** [Audio.Sound.createAsync({ uri }, initialStatus)]: when the promise
    resolves it carries a new sound object. *)
Definition Sound_createAsync (uri : string) (initialStatus : AudioPlaybackOptions)
    (p : native unit) : M t Sound :=
  fun s =>
    let s' :=
      {| soundInstance := soundInstance s; playback := playback s;
         statusUpdateInterval := statusUpdateInterval s; timers := timers s;
         next_object := S (next_object s);
         calls := calls s ++ [createAsync (next_object s) uri initialStatus] |} in
    match p with
    | Resolves _ => (Returns {| object_id := next_object s |}, s')
    | Rejects v => (Throws v, s')
    end.

Definition capture {A} (fallback : string) (error : thrown) : M t A :=
  (let err := instanceof_Error_or fallback error in
   modify (on_playback (AudioPlayback.setError err)) ;;
   throw (ThrownError err))%js.

Definition stopStatusUpdate : M t unit :=
  fun s =>
    match statusUpdateInterval s with
    | Some interval =>
        (Returns tt,
         {| soundInstance := soundInstance s; playback := playback s;
            statusUpdateInterval := None;
            timers := Timers.clearInterval interval (timers s);
            next_object := next_object s; calls := calls s |})
    | None => (Returns tt, s)
    end.

Definition startStatusUpdate : M t unit :=
  fun s =>
    match soundInstance s with
    | None => (Returns tt, s)
    | Some _ =>
        let (interval, tm) := Timers.setInterval (timers s) in
        (Returns tt,
         {| soundInstance := soundInstance s; playback := playback s;
            statusUpdateInterval := Some interval; timers := tm;
            next_object := next_object s; calls := calls s |})
    end.

Definition unload (r_unload : native unit) : M t unit :=
  try_catch
    (inst <- gets soundInstance ;;
     match inst with
     | Some sound =>
         call (unloadAsync (object_id sound)) r_unload ;;
         modify (set_soundInstance None)
     | None => ret tt
     end ;;
     stopStatusUpdate ;;
     modify (on_playback AudioPlayback.reset))%js
    (capture "Failed to unload audio").

Definition load (uri : string) (r_unload r_create : native unit)
    (r_status : native AVPlaybackStatus) : M t unit :=
  try_catch
    (modify (on_playback (AudioPlayback.setState AudioPlaybackState.LOADING)) ;;
     inst <- gets soundInstance ;;
     match inst with
     | Some _ => unload r_unload
     | None => ret tt
     end ;;
     options <- gets (fun s => AudioPlayback.options (playback s)) ;;
     sound <- Sound_createAsync uri options r_create ;;
     modify (set_soundInstance (Some sound)) ;;
     modify (on_playback (AudioPlayback.setUri uri)) ;;
     status <- call (getStatusAsync (object_id sound)) r_status ;;
     match status with
     | Loaded st =>
         modify (on_playback (AudioPlayback.setDuration (or_zero (durationMillis st)))) ;;
         modify (on_playback (AudioPlayback.setPosition (or_zero (Some (positionMillis st))))) ;;
         modify (on_playback (AudioPlayback.setState AudioPlaybackState.READY))
     | NotLoaded _ => ret tt
     end ;;
     startStatusUpdate)%js
    (capture "Failed to load audio").

(** The shape shared by [play], [pause], [stop] and [seek]: a guard on the
    handle and on a [can*] getter, then the body. *)
Definition guarded {A} (can : AudioPlayback.t -> bool) (refusal : string)
    (body : Sound -> M t A) : M t A :=
  (inst <- gets soundInstance ;;
   allowed <- gets (fun s => can (playback s)) ;;
   match inst with
   | Some sound =>
       if negb allowed then throw (ThrownError (mkError refusal))
       else body sound
   | None => throw (ThrownError (mkError refusal))
   end)%js.

Definition play (r_play : native unit) : M t unit :=
  try_catch
    (guarded AudioPlayback.canPlay "Cannot play audio" (fun sound =>
       modify (on_playback (AudioPlayback.setState AudioPlaybackState.PLAYING)) ;;
       call (playAsync (object_id sound)) r_play))%js
    (capture "Failed to play audio").

Definition pause (r_pause : native unit) : M t unit :=
  try_catch
    (guarded AudioPlayback.canPause "Cannot pause audio" (fun sound =>
       modify (on_playback (AudioPlayback.setState AudioPlaybackState.PAUSED)) ;;
       call (pauseAsync (object_id sound)) r_pause))%js
    (capture "Failed to pause audio").

Definition stop (r_stop : native unit) : M t unit :=
  try_catch
    (guarded AudioPlayback.canStop "Cannot stop audio" (fun sound =>
       modify (on_playback (AudioPlayback.setState AudioPlaybackState.STOPPED)) ;;
       call (stopAsync (object_id sound)) r_stop ;;
       modify (on_playback (AudioPlayback.setPosition 0))))%js
    (capture "Failed to stop audio").

Definition seek (position : number) (r_seek : native unit) : M t unit :=
  try_catch
    (guarded AudioPlayback.canSeek "Cannot seek audio" (fun sound =>
       call (setPositionAsync (object_id sound) position) r_seek ;;
       modify (on_playback (AudioPlayback.setPosition position))))%js
    (capture "Failed to seek audio").

(** The shape shared by the four setters: a guard on the handle only. *)
Definition loaded {A} (body : Sound -> M t A) : M t A :=
  (inst <- gets soundInstance ;;
   match inst with
   | Some sound => body sound
   | None => throw (ThrownError (mkError "No sound loaded"))
   end)%js.

Definition setVolume (volume : number) (r_set : native unit) : M t unit :=
  try_catch
    (loaded (fun sound =>
       call (setVolumeAsync (object_id sound) volume) r_set ;;
       modify (on_playback (AudioPlayback.setVolume volume))))%js
    (capture "Failed to set volume").

Definition setPlaybackRate (playbackRate : number) (shouldCorrectPitch : bool)
    (r_set : native unit) : M t unit :=
  try_catch
    (loaded (fun sound =>
       call (setRateAsync (object_id sound) playbackRate shouldCorrectPitch) r_set ;;
       modify (on_playback (AudioPlayback.setPlaybackRate playbackRate))))%js
    (capture "Failed to set playback rate").

Definition setLooping (isLooping : bool) (r_set : native unit) : M t unit :=
  try_catch
    (loaded (fun sound =>
       call (setIsLoopingAsync (object_id sound) isLooping) r_set ;;
       modify (on_playback (AudioPlayback.setLooping isLooping))))%js
    (capture "Failed to set looping").

Definition setMuted (isMuted : bool) (r_set : native unit) : M t unit :=
  try_catch
    (loaded (fun sound =>
       call (setIsMutedAsync (object_id sound) isMuted) r_set ;;
       modify (on_playback (AudioPlayback.setMuted isMuted))))%js
    (capture "Failed to set muted").

(** The callback [startStatusUpdate] hands to [setInterval], for the timer
    [interval] it created; it runs only while that timer is active. *)
Definition tick (interval : nat) (r_status : native AVPlaybackStatus) : M t unit :=
  (active <- gets (fun s => Timers.is_active interval (timers s)) ;;
   if negb active then ret tt
   else
     inst <- gets soundInstance ;;
     match inst with
     | None => stopStatusUpdate
     | Some sound =>
         try_catch
           (status <- call (getStatusAsync (object_id sound)) r_status ;;
            match status with
            | NotLoaded _ => stopStatusUpdate
            | Loaded st =>
                let playbackStatus :=
                  {| ps_didJustFinish := didJustFinish st;
                     ps_durationMillis := or_zero (durationMillis st);
                     ps_isBuffering := isBuffering st;
                     ps_isLoaded := true;
                     ps_isLooping := isLooping st;
                     ps_isPlaying := isPlaying st;
                     ps_isMuted := isMuted st;
                     ps_positionMillis := or_zero (Some (positionMillis st));
                     ps_playbackRate := rate st;
                     ps_volume := volume st |} in
                modify (on_playback (AudioPlayback.setStatus playbackStatus)) ;;
                modify (on_playback (AudioPlayback.setDuration (or_zero (durationMillis st)))) ;;
                modify (on_playback (AudioPlayback.setPosition (or_zero (Some (positionMillis st))))) ;;
                looping <- gets (fun s => AudioPlayback.isLooping (playback s)) ;;
                if didJustFinish st && negb looping then
                  modify (on_playback (AudioPlayback.setState AudioPlaybackState.COMPLETED)) ;;
                  stopStatusUpdate
                else ret tt
            end)
           (fun _ => stopStatusUpdate)
     end)%js.

Definition dispose : M t unit :=
  (stopStatusUpdate ;;
   modify (set_soundInstance None) ;;
   modify (on_playback AudioPlayback.reset))%js.

Inductive op :=
| Load (uri : string) (r_unload r_create : native unit) (r_status : native AVPlaybackStatus)
| Play (r : native unit)
| Pause (r : native unit)
| Stop (r : native unit)
| Seek (position : number) (r : native unit)
| SetVolume (volume : number) (r : native unit)
| SetPlaybackRate (playbackRate : number) (shouldCorrectPitch : bool) (r : native unit)
| SetLooping (isLooping : bool) (r : native unit)
| SetMuted (isMuted : bool) (r : native unit)
| Unload (r : native unit)
| Dispose
| Tick (interval : nat) (r_status : native AVPlaybackStatus).

Definition step (s : t) (o : op) : t :=
  match o with
  | Load u r1 r2 r3 => exec (load u r1 r2 r3) s
  | Play r => exec (play r) s
  | Pause r => exec (pause r) s
  | Stop r => exec (stop r) s
  | Seek p r => exec (seek p r) s
  | SetVolume v r => exec (setVolume v r) s
  | SetPlaybackRate x c r => exec (setPlaybackRate x c r) s
  | SetLooping b r => exec (setLooping b r) s
  | SetMuted b r => exec (setMuted b r) s
  | Unload r => exec (unload r) s
  | Dispose => exec dispose s
  | Tick i r => exec (tick i r) s
  end.

(** The state after a sequence of operations, each awaited before the next
    one is issued. *)
Definition run (ops : list op) (s : t) : t := fold_left step ops s.

(** The documented ranges of the two numeric options. *)
Definition volume_in_range (v : number) : Prop :=
  Number_le AudioConstants.VOLUME_MIN v /\ Number_le v AudioConstants.VOLUME_MAX.

Definition rate_in_range (r : number) : Prop :=
  Number_le AudioConstants.PLAYBACK_RATE_MIN r
  /\ Number_le r AudioConstants.PLAYBACK_RATE_MAX.

Definition options_in_range (s : t) : Prop :=
  volume_in_range (AudioPlayback.volume (playback s))
  /\ rate_in_range (AudioPlayback.playbackRate (playback s)).

(** The arguments a caller passes to the two numeric setters. *)
Definition argument_in_range (o : op) : Prop :=
  match o with
  | SetVolume v _ => volume_in_range v
  | SetPlaybackRate x _ _ => rate_in_range x
  | _ => True
  end.

(** The volume and the playback rate the specification gives the session
    after one operation: the argument of a [setVolume] (of a
    [setPlaybackRate]) that found a sound and whose native call resolved, and
    the value held before in every other case. *)
Definition volume_after (s : t) (o : op) : number :=
  match o, soundInstance s with
  | SetVolume v (Resolves _), Some _ => v
  | _, _ => AudioPlayback.volume (playback s)
  end.

Definition rate_after (s : t) (o : op) : number :=
  match o, soundInstance s with
  | SetPlaybackRate x _ (Resolves _), Some _ => x
  | _, _ => AudioPlayback.playbackRate (playback s)
  end.

(** The native call the specification has a numeric setter forward: the
    argument itself, to the sound that is held. *)
Definition forwarded (s : t) (o : op) : list native_call :=
  match o, soundInstance s with
  | SetVolume v _, Some sound => [setVolumeAsync (object_id sound) v]
  | SetPlaybackRate x c _, Some sound => [setRateAsync (object_id sound) x c]
  | _, _ => []
  end.

(** Whether an operation is one of the two numeric setters. *)
Definition numeric_setter (o : op) : bool :=
  match o with
  | SetVolume _ _ | SetPlaybackRate _ _ _ => true
  | _ => false
  end.

(** How an operation ends. *)
Definition outcome (s : t) (o : op) : completion unit :=
  match o with
  | Load u r1 r2 r3 => result (load u r1 r2 r3) s
  | Play r => result (play r) s
  | Pause r => result (pause r) s
  | Stop r => result (stop r) s
  | Seek p r => result (seek p r) s
  | SetVolume v r => result (setVolume v r) s
  | SetPlaybackRate x c r => result (setPlaybackRate x c r) s
  | SetLooping b r => result (setLooping b r) s
  | SetMuted b r => result (setMuted b r) s
  | Unload r => result (unload r) s
  | Dispose => result dispose s
  | Tick i r => result (tick i r) s
  end.

(** The position lies inside the clip: between 0 and the duration, and at 0
    when the duration is not positive. *)
Definition position_in_clip (p : AudioPlayback.t) : Prop :=
  Number_le 0%Q (AudioPlayback.position p)
  /\ Number_le (AudioPlayback.position p) (Math_max 0%Q (AudioPlayback.duration p)).

(** A [seek] whose argument is NaN is set apart: it stores NaN. *)
Definition seeks_a_number (o : op) : Prop :=
  match o with
  | Seek p _ => p <> NaN
  | _ => True
  end.

End AudioPlaybackService.

(** ** The older static services (domain/entities/Audio.ts and the services on it) *)

Module Static.

(** [PlaybackState] of domain/entities/Audio.ts *)
Record PlaybackState := {
  isLoaded : bool;
  isPlaying : bool;
  isBuffering : bool;
  isMuted : bool;
  volume : number;
  rate : number;
  shouldPlay : bool;
  positionMillis : number;
  durationMillis : number;
  didJustFinish : bool;
  error : option string
}.

Inductive AudioPermission := GRANTED | DENIED | UNDETERMINED.

Module AudioPlaybackService.

(** The static field of the class that the queries read. *)
Record t := {
  sound : option AudioPlaybackService.Sound
}.

Definition mapStatusToState (status : AudioPlaybackService.AVPlaybackStatus)
  : option PlaybackState :=
  match status with
  | AudioPlaybackService.NotLoaded err =>
      Some {| isLoaded := false; isPlaying := false; isBuffering := false;
              isMuted := false; volume := 0; rate := 1; shouldPlay := false;
              positionMillis := 0; durationMillis := 0; didJustFinish := false;
              error := err |}
  | AudioPlaybackService.Loaded st =>
      Some {| isLoaded := true;
              isPlaying := AudioPlaybackService.isPlaying st;
              isBuffering := AudioPlaybackService.isBuffering st;
              isMuted := AudioPlaybackService.isMuted st;
              volume := AudioPlaybackService.volume st;
              rate := AudioPlaybackService.rate st;
              shouldPlay := AudioPlaybackService.shouldPlay st;
              positionMillis := AudioPlaybackService.positionMillis st;
              durationMillis := or_zero (AudioPlaybackService.durationMillis st);
              didJustFinish := AudioPlaybackService.didJustFinish st;
              error := None |}
  end.

Definition getStatus (r_status : native AudioPlaybackService.AVPlaybackStatus) : M t (option PlaybackState) :=
  try_catch
    (held <- gets sound ;;
     match held with
     | None => ret None
     | Some _ =>
         status <- await r_status ;;
         ret (mapStatusToState status)
     end)%js
    (fun _ => ret None).

End AudioPlaybackService.

Module AudioRecordingService.

(** The static field of the class. *)
Record t := {
  recording : option AudioRecordingService.Recording
}.

(** [Audio.PermissionStatus] arrives as a string. *)
Definition mapPermissionStatus (status : string) : AudioPermission :=
  if String.eqb status "granted" then GRANTED
  else if String.eqb status "denied" then DENIED
  else UNDETERMINED.

Definition requestPermission (r_permission : native string) : M t AudioPermission :=
  try_catch
    (status <- await r_permission ;;
     ret (mapPermissionStatus status))%js
    (fun _ => ret DENIED).

Definition getPermissionStatus (r_permission : native string) : M t AudioPermission :=
  try_catch
    (status <- await r_permission ;;
     ret (mapPermissionStatus status))%js
    (fun _ => ret DENIED).

End AudioRecordingService.

End Static.

(** ** infrastructure/utils/audio.utils.ts *)

Module AudioUtils.

Local Open Scope Z_scope.

(** [Number.prototype.toString()] on an integer. *)
Definition toString (n : Z) : string := NilZero.string_of_int (Z.to_int n).

(** [k] characters of [pad] repeated, starting at its [i]-th character. *)
Fixpoint filler (k : nat) (pad : string) (i : nat) : string :=
  match k with
  | O => ""
  | S k' =>
      match String.get (i mod String.length pad) pad with
      | Some c => String c (filler k' pad (S i))
      | None => ""
      end
  end.

(** [String.prototype.padStart(targetLength, padString)] *)
Definition padStart (targetLength : nat) (padString : string) (s : string) : string :=
  if (targetLength <=? String.length s)%nat then s
  else if (String.length padString =? 0)%nat then s
  else filler (targetLength - String.length s) padString 0 ++ s.

(** [toString()] on the value of [Math.floor]. *)
Definition integer_toString (n : integer) : string :=
  match n with
  | Some z => toString z
  | None => "NaN"
  end.

(** [n > 0] *)
Definition positive (n : integer) : bool :=
  match n with
  | Some z => 0 <? z
  | None => false
  end.

Definition formatDuration (milliseconds : number) : string :=
  let totalSeconds := Math_floor (divided_by 1000 milliseconds) in
  let minutes := floor_quotient totalSeconds 60 in
  let seconds := remainder totalSeconds 60 in
  padStart 2 "0" (integer_toString minutes)
    ++ ":" ++ padStart 2 "0" (integer_toString seconds).

Definition formatDurationLong (milliseconds : number) : string :=
  let totalSeconds := Math_floor (divided_by 1000 milliseconds) in
  let hours := floor_quotient totalSeconds 3600 in
  let minutes := floor_quotient (remainder totalSeconds 3600) 60 in
  let seconds := remainder totalSeconds 60 in
  if positive hours then
    padStart 2 "0" (integer_toString hours)
      ++ ":" ++ padStart 2 "0" (integer_toString minutes)
      ++ ":" ++ padStart 2 "0" (integer_toString seconds)
  else
    padStart 2 "0" (integer_toString minutes)
      ++ ":" ++ padStart 2 "0" (integer_toString seconds).

(** The renderings the specification names, digit by digit. *)
Definition digit (d : Z) : ascii := ascii_of_nat (48 + Z.to_nat d).

Definition two_digits (n : Z) : string :=
  String (digit (n / 10)) (String (digit (n mod 10)) "").

Definition MM_SS (totalSeconds : Z) : string :=
  two_digits (totalSeconds / 60) ++ ":" ++ two_digits (totalSeconds mod 60).

Definition HH_MM_SS (totalSeconds : Z) : string :=
  two_digits (totalSeconds / 3600) ++ ":"
    ++ two_digits ((totalSeconds mod 3600) / 60) ++ ":"
    ++ two_digits (totalSeconds mod 60).

(** [x || d] on numbers and on strings. *)
Definition number_or (x d : number) : number := if truthy_number x then x else d.

Definition string_or (x d : string) : string := if truthy_string x then x else d.

(** What [toExpoRecordingConfig] builds: [Audio.RecordingOptions]. *)
Record AndroidOptions := {
  android_extension : string;
  android_outputFormat : number;
  android_audioEncoder : number;
  android_sampleRate : number;
  android_numberOfChannels : number;
  android_bitRate : number;
  android_maxFileSize : option number
}.

Record IOSOptions := {
  ios_extension : string;
  ios_outputFormat : string;
  ios_audioQuality : number;
  ios_sampleRate : number;
  ios_numberOfChannels : number;
  ios_bitRate : number;
  ios_linearPCMBitDepth : number;
  ios_linearPCMIsBigEndian : bool;
  ios_linearPCMIsFloat : bool
}.

Record WebOptions := {
  web_mimeType : string;
  web_bitsPerSecond : number
}.

Record RecordingOptions := {
  android : AndroidOptions;
  ios : IOSOptions;
  web : WebOptions
}.

Definition getAndroidOutputFormat (format : AudioFormat) : number :=
  let formatMap (f : AudioFormat) : number :=
    match f with
    | AAC => Finite 65536%Q
    | MP3 => Finite 0%Q
    | WAV => Finite 0%Q
    | MPEG4 => Finite 65536%Q
    end in
  number_or (formatMap format) 65536%Q.

Definition getIOSOutputFormat (format : AudioFormat) : string :=
  let formatMap (f : AudioFormat) : string :=
    match f with
    | AAC => ".aac"
    | MP3 => ".mp3"
    | WAV => ".wav"
    | MPEG4 => ".m4a"
    end in
  string_or (formatMap format) ".aac".

Definition getAndroidAudioEncoder (format : AudioFormat) : number :=
  let encoderMap (f : AudioFormat) : number :=
    match f with
    | AAC => Finite 32768%Q
    | MP3 => Finite 0%Q
    | WAV => Finite 0%Q
    | MPEG4 => Finite 32768%Q
    end in
  number_or (encoderMap format) 32768%Q.

Definition getIOSAudioEncoding (format : AudioFormat) : number :=
  let qualityMap (f : AudioFormat) : number :=
    match f with
    | AAC => Finite 192%Q
    | MP3 => Finite 192%Q
    | WAV => Finite 192%Q
    | MPEG4 => Finite 192%Q
    end in
  number_or (qualityMap format) 192%Q.

Definition numberOfChannels (config : AudioRecordingConfig) : number :=
  if String.eqb (AudioChannel_value (channel config)) "stereo" then 2%Q else 1%Q.

Definition toExpoRecordingConfig (config : AudioRecordingConfig) : RecordingOptions :=
  let androidOutputFormat := getAndroidOutputFormat (format config) in
  let iosOutputFormat := getIOSOutputFormat (format config) in
  let androidAudioEncoder := getAndroidAudioEncoder (format config) in
  let iosAudioEncoding := getIOSAudioEncoding (format config) in
  {| android :=
       {| android_extension := AudioExtension_value (extension config);
          android_outputFormat := androidOutputFormat;
          android_audioEncoder := androidAudioEncoder;
          android_sampleRate := sampleRate config;
          android_numberOfChannels := numberOfChannels config;
          android_bitRate := bitRate config;
          android_maxFileSize :=
            match maxDurationSeconds config with
            | Some seconds =>
                if truthy_number seconds then Some (times 1000000 seconds) else None
            | None => None
            end |};
     ios :=
       {| ios_extension := AudioExtension_value (extension config);
          ios_outputFormat := iosOutputFormat;
          ios_audioQuality := iosAudioEncoding;
          ios_sampleRate := sampleRate config;
          ios_numberOfChannels := numberOfChannels config;
          ios_bitRate := bitRate config;
          ios_linearPCMBitDepth := 16%Q;
          ios_linearPCMIsBigEndian := false;
          ios_linearPCMIsFloat := false |};
     web :=
       {| web_mimeType := "audio/" ++ AudioFormat_value (format config);
          web_bitsPerSecond := bitRate config |} |}.

(** [uri.length > 0] (the [typeof] test holds for every string). *)
Definition isValidUri (uri : string) : bool := (0 <? String.length uri)%nat.





Definition clamp (value min max : number) : number :=
  Math_min (Math_max value min) max.

Definition isValidVolume (volume : number) : bool :=
  Number_leb 0%Q volume && Number_leb volume 1%Q.

Definition isValidPlaybackRate (rate : number) : bool :=
  Number_leb (1 # 2)%Q rate && Number_leb rate 2%Q.

End AudioUtils.

(** ** domain/entities/Audio.ts (the entities of the static services) *)

Module Audio.

Inductive AudioQuality := LOW | HIGH.

(** [AudioRecordingOptions]; only [quality] is read. *)
Record AudioRecordingOptions := {
  quality : option AudioQuality
}.

(** [AudioPlaybackOptions], every field optional. *)
Record AudioPlaybackOptions := {
  shouldPlay : option bool;
  rate : option number;
  volume : option number;
  isMuted : option bool;
  isLooping : option bool;
  progressUpdateIntervalMillis : option number
}.

Record RecordingInfo := {
  uri : string;
  duration : number;
  canRecord : bool;
  isRecording : bool;
  isDoneRecording : bool
}.

Module AUDIO_CONSTANTS.
Definition DEFAULT_BIT_RATE : number := 128000%Q.
Definition DEFAULT_VOLUME : number := 1%Q.
Definition DEFAULT_RATE : number := 1%Q.
Definition MAX_RECORDING_DURATION : number := 3600000%Q.
Definition PROGRESS_UPDATE_INTERVAL : number := 500%Q.
End AUDIO_CONSTANTS.

(** [o?.f] *)
Definition optional {A B} (f : A -> option B) (o : option A) : option B :=
  match o with
  | Some a => f a
  | None => None
  end.

(** [a ?? b] *)
Definition nullish {A} (a : option A) (b : A) : A :=
  match a with
  | Some x => x
  | None => b
  end.

(** The static class [AudioUtils]. *)
Module AudioUtils.

Definition formatDuration (millis : number) : string :=
  let totalSeconds := Math_floor (divided_by 1000 millis) in
  let minutes := floor_quotient totalSeconds 60 in
  let seconds := remainder totalSeconds 60 in
  AudioUtils.padStart 2 "0" (AudioUtils.integer_toString minutes)
    ++ ":" ++ AudioUtils.padStart 2 "0" (AudioUtils.integer_toString seconds).

Definition isWithinDurationLimit (durationMs : number) : bool :=
  Number_leb durationMs AUDIO_CONSTANTS.MAX_RECORDING_DURATION.

Definition validateVolume (volume : number) : number :=
  Math_min (Math_max volume 0%Q) 1%Q.

Definition validateRate (rate : number) : number :=
  Math_min (Math_max rate (1 # 2)%Q) 2%Q.

End AudioUtils.

End Audio.

(** ** The static services, with the native calls they make *)

Module StaticServices.

Module AudioPlaybackService.

(** The initial status handed to [Audio.Sound.createAsync]. *)
Record InitialStatus := {
  shouldPlay : bool;
  rate : number;
  volume : number;
  isMuted : bool;
  isLooping : bool;
  progressUpdateIntervalMillis : number
}.

Inductive native_call :=
| createAsync (id : nat) (uri : string) (initialStatus : InitialStatus)
| playAsync (id : nat)
| pauseAsync (id : nat)
| setPositionAsync (id : nat) (position : number)
| setVolumeAsync (id : nat) (volume : number)
| setRateAsync (id : nat) (rate : number) (shouldCorrectPitch : bool)
| setIsMutedAsync (id : nat) (isMuted : bool)
| setIsLoopingAsync (id : nat) (isLooping : bool)
| unloadAsync (id : nat).

(** The static field [sound], the identity of the next sound object and the
    native calls made so far. *)
Record t := {
  sound : option AudioPlaybackService.Sound;
  next_object : nat;
  calls : list native_call
}.

Definition init : t := {| sound := None; next_object := 0; calls := [] |}.

Definition set_sound (o : option AudioPlaybackService.Sound) (s : t) : t :=
  {| sound := o; next_object := next_object s; calls := calls s |}.

Definition called (c : native_call) (s : t) : t :=
  {| sound := sound s; next_object := next_object s; calls := (calls s ++ [c])%list |}.

Definition call {A} (c : native_call) (p : native A) : M t A :=
  (modify (called c) ;; await p)%js.

Definition Sound_createAsync (uri : string) (initialStatus : InitialStatus)
    (p : native unit) : M t AudioPlaybackService.Sound :=
  fun s =>
    let s' :=
      {| sound := sound s; next_object := S (next_object s);
         calls := (calls s ++ [createAsync (next_object s) uri initialStatus])%list |} in
    match p with
    | Resolves _ => (Returns {| AudioPlaybackService.object_id := next_object s |}, s')
    | Rejects v => (Throws v, s')
    end.

Definition unloadAudio (r_unload : native unit) : M t bool :=
  try_catch
    (held <- gets sound ;;
     match held with
     | Some snd =>
         call (unloadAsync (AudioPlaybackService.object_id snd)) r_unload ;;
         modify (set_sound None)
     | None => ret tt
     end ;;
     ret true)%js
    (fun _ => ret false).

Definition loadAudio (uri : string) (options : option Audio.AudioPlaybackOptions)
    (r_unload r_create : native unit) : M t bool :=
  try_catch
    (unloadAudio r_unload ;;
     snd <- Sound_createAsync uri
              {| shouldPlay :=
                   Audio.nullish (Audio.optional Audio.shouldPlay options) false;
                 rate :=
                   Audio.nullish (Audio.optional Audio.rate options)
                     Audio.AUDIO_CONSTANTS.DEFAULT_RATE;
                 volume :=
                   Audio.nullish (Audio.optional Audio.volume options)
                     Audio.AUDIO_CONSTANTS.DEFAULT_VOLUME;
                 isMuted := Audio.nullish (Audio.optional Audio.isMuted options) false;
                 isLooping := Audio.nullish (Audio.optional Audio.isLooping options) false;
                 progressUpdateIntervalMillis :=
                   Audio.nullish (Audio.optional Audio.progressUpdateIntervalMillis options)
                     Audio.AUDIO_CONSTANTS.PROGRESS_UPDATE_INTERVAL |}
              r_create ;;
     modify (set_sound (Some snd)) ;;
     ret true)%js
    (fun _ => ret false).

(** The shape shared by the transport and the setters: [false] without a
    sound, else the native calls, [true] when they resolve and [false] when
    one rejects. *)
Definition with_sound (body : AudioPlaybackService.Sound -> M t unit) : M t bool :=
  try_catch
    (held <- gets sound ;;
     match held with
     | None => ret false
     | Some snd => body snd ;; ret true
     end)%js
    (fun _ => ret false).

Definition play (r : native unit) : M t bool :=
  with_sound (fun snd => call (playAsync (AudioPlaybackService.object_id snd)) r).

Definition pause (r : native unit) : M t bool :=
  with_sound (fun snd => call (pauseAsync (AudioPlaybackService.object_id snd)) r).

Definition stop (r_pause r_seek : native unit) : M t bool :=
  with_sound (fun snd =>
    call (pauseAsync (AudioPlaybackService.object_id snd)) r_pause ;;
    call (setPositionAsync (AudioPlaybackService.object_id snd) 0%Q) r_seek)%js.

Definition seekTo (positionMillis : number) (r : native unit) : M t bool :=
  with_sound (fun snd =>
    call (setPositionAsync (AudioPlaybackService.object_id snd) positionMillis) r).

Definition setVolume (volume : number) (r : native unit) : M t bool :=
  with_sound (fun snd =>
    let validVolume := Math_min (Math_max volume 0%Q) 1%Q in
    call (setVolumeAsync (AudioPlaybackService.object_id snd) validVolume) r).

Definition setRate (rate : number) (r : native unit) : M t bool :=
  with_sound (fun snd =>
    let validRate := Math_min (Math_max rate (1 # 2)%Q) 2%Q in
    call (setRateAsync (AudioPlaybackService.object_id snd) validRate true) r).

Definition setMuted (isMuted : bool) (r : native unit) : M t bool :=
  with_sound (fun snd =>
    call (setIsMutedAsync (AudioPlaybackService.object_id snd) isMuted) r).

Definition setLooping (isLooping : bool) (r : native unit) : M t bool :=
  with_sound (fun snd =>
    call (setIsLoopingAsync (AudioPlaybackService.object_id snd) isLooping) r).

(** The operations that need a loaded sound, with their native outcomes. *)
Inductive op :=
| Play (r : native unit)
| Pause (r : native unit)
| Stop (r_pause r_seek : native unit)
| SeekTo (positionMillis : number) (r : native unit)
| SetVolume (volume : number) (r : native unit)
| SetRate (rate : number) (r : native unit)
| SetMuted (isMuted : bool) (r : native unit)
| SetLooping (isLooping : bool) (r : native unit).

Definition perform (o : op) : M t bool :=
  match o with
  | Play r => play r
  | Pause r => pause r
  | Stop r1 r2 => stop r1 r2
  | SeekTo p r => seekTo p r
  | SetVolume v r => setVolume v r
  | SetRate x r => setRate x r
  | SetMuted b r => setMuted b r
  | SetLooping b r => setLooping b r
  end.

(** Whether every native call the operation would make resolves. *)
Definition natives_resolve (o : op) : bool :=
  let ok (r : native unit) := match r with Resolves _ => true | Rejects _ => false end in
  match o with
  | Play r | Pause r | SeekTo _ r | SetVolume _ r | SetRate _ r
  | SetMuted _ r | SetLooping _ r => ok r
  | Stop r1 r2 => ok r1 && ok r2
  end.

End AudioPlaybackService.

Module AudioRecordingService.

Inductive AudioModeField := allowsRecordingIOS | playsInSilentModeIOS.

Inductive RecordingPreset := HIGH_QUALITY | LOW_QUALITY.

Inductive native_call :=
| requestPermissionsAsync
| setAudioModeAsync (mode : list (AudioModeField * bool))
| Recording_createAsync (id : nat) (options : RecordingPreset)
| stopAndUnloadAsync (id : nat)
| getURI (id : nat)
| getStatusAsync (id : nat)
| pauseAsync (id : nat)
| startAsync (id : nat).

Record t := {
  recording : option nat;
  next_object : nat;
  calls : list native_call
}.

Definition init : t := {| recording := None; next_object := 0; calls := [] |}.

Definition set_recording (o : option nat) (s : t) : t :=
  {| recording := o; next_object := next_object s; calls := calls s |}.

Definition called (c : native_call) (s : t) : t :=
  {| recording := recording s; next_object := next_object s;
     calls := (calls s ++ [c])%list |}.

Definition call {A} (c : native_call) (p : native A) : M t A :=
  (modify (called c) ;; await p)%js.

Definition mapRecordingOptions (options : option Audio.AudioRecordingOptions)
  : RecordingPreset :=
  match options with
  | None => HIGH_QUALITY
  | Some o =>
      match Audio.quality o with
      | Some Audio.HIGH => HIGH_QUALITY
      | _ => LOW_QUALITY
      end
  end.

Definition requestPermission (r_permission : native string) : M t Static.AudioPermission :=
  try_catch
    (status <- call requestPermissionsAsync r_permission ;;
     ret (Static.AudioRecordingService.mapPermissionStatus status))%js
    (fun _ => ret Static.DENIED).

Definition Recording_create (options : RecordingPreset) (p : native unit) : M t nat :=
  fun s =>
    let s' :=
      {| recording := recording s; next_object := S (next_object s);
         calls := (calls s ++ [Recording_createAsync (next_object s) options])%list |} in
    match p with
    | Resolves _ => (Returns (next_object s), s')
    | Rejects v => (Throws v, s')
    end.

Definition startRecording (options : option Audio.AudioRecordingOptions)
    (r_permission : native string) (r_mode r_create : native unit) : M t bool :=
  try_catch
    (permission <- requestPermission r_permission ;;
     match permission with
     | Static.GRANTED =>
         call (setAudioModeAsync [(allowsRecordingIOS, true); (playsInSilentModeIOS, true)])
              r_mode ;;
         let recordingOptions := mapRecordingOptions options in
         rec <- Recording_create recordingOptions r_create ;;
         modify (set_recording (Some rec)) ;;
         ret true
     | _ => ret false
     end)%js
    (fun _ => ret false).

Definition stopRecording (r_stop r_mode : native unit) (r_uri : option string)
    (r_status : native AudioRecordingService.ExpoRecordingStatus)
  : M t (option Audio.RecordingInfo) :=
  try_catch
    (held <- gets recording ;;
     match held with
     | None => ret None
     | Some rec =>
         call (stopAndUnloadAsync rec) r_stop ;;
         call (setAudioModeAsync [(allowsRecordingIOS, false)]) r_mode ;;
         modify (called (getURI rec)) ;;
         let uri := or_empty r_uri in
         status <- call (getStatusAsync rec) r_status ;;
         let info :=
           {| Audio.uri := uri;
              Audio.duration := or_zero (AudioRecordingService.durationMillis status);
              Audio.canRecord := AudioRecordingService.canRecord status;
              Audio.isRecording := AudioRecordingService.isRecording status;
              Audio.isDoneRecording := AudioRecordingService.isDoneRecording status |} in
         modify (set_recording None) ;;
         ret (Some info)
     end)%js
    (fun _ => modify (set_recording None) ;; ret None)%js.

Definition pauseRecording (r : native unit) : M t bool :=
  try_catch
    (held <- gets recording ;;
     match held with
     | None => ret false
     | Some rec => call (pauseAsync rec) r ;; ret true
     end)%js
    (fun _ => ret false).

Definition resumeRecording (r : native unit) : M t bool :=
  try_catch
    (held <- gets recording ;;
     match held with
     | None => ret false
     | Some rec => call (startAsync rec) r ;; ret true
     end)%js
    (fun _ => ret false).

Definition getRecordingStatus
    (r_status : native AudioRecordingService.ExpoRecordingStatus) (r_uri : option string)
  : M t (option Audio.RecordingInfo) :=
  try_catch
    (held <- gets recording ;;
     match held with
     | None => ret None
     | Some rec =>
         status <- call (getStatusAsync rec) r_status ;;
         modify (called (getURI rec)) ;;
         let uri := or_empty r_uri in
         ret (Some {| Audio.uri := uri;
                      Audio.duration := or_zero (AudioRecordingService.durationMillis status);
                      Audio.canRecord := AudioRecordingService.canRecord status;
                      Audio.isRecording := AudioRecordingService.isRecording status;
                      Audio.isDoneRecording :=
                        AudioRecordingService.isDoneRecording status |})
     end)%js
    (fun _ => ret None).

End AudioRecordingService.

End StaticServices.

(** ** infrastructure/utils/permission.utils.ts *)

Module PermissionUtils.

Inductive PermissionStatus := GRANTED | DENIED | UNDETERMINED.

Definition PermissionStatus_eqb (a b : PermissionStatus) : bool :=
  match a, b with
  | GRANTED, GRANTED | DENIED, DENIED | UNDETERMINED, UNDETERMINED => true
  | _, _ => false
  end.

(** What expo-av answers to a permission query or request. *)
Record PermissionResponse := {
  status : string;
  granted : bool
}.

Record AudioMode := {
  allowsRecordingIOS : bool;
  playsInSilentModeIOS : bool;
  staysActiveInBackground : bool;
  playThroughEarpieceAndroid : bool
}.

Inductive native_call :=
| getPermissionsAsync
| requestPermissionsAsync
| setAudioModeAsync (mode : AudioMode).

(** The functions keep no state; the state of a computation is the list of
    native calls made so far. *)
Definition t := list native_call.

Definition call {A} (c : native_call) (p : native A) : M t A :=
  (modify (fun calls : t => (calls ++ [c])%list) ;; await p)%js.

Definition PERMISSION_DENIED : string := "PERMISSION_DENIED".
Definition DEVICE_NOT_AVAILABLE : string := "DEVICE_NOT_AVAILABLE".

Section WithAudioErrorClass.

(** [new AudioErrorClass(code, message, details)] as a thrown value; the
    class is declared outside the files at hand. *)
Variable AudioErrorClass : string -> string -> option thrown -> thrown.

Definition requestAudioPermission (r_request : native PermissionResponse)
  : M t PermissionStatus :=
  try_catch
    (response <- call requestPermissionsAsync r_request ;;
     if String.eqb (status response) "granted" then ret GRANTED else ret DENIED)%js
    (fun error =>
       throw (AudioErrorClass PERMISSION_DENIED "Failed to request audio permission"
                (Some error))).

Definition getAudioPermissionStatus (r_get : native PermissionResponse)
  : M t PermissionStatus :=
  try_catch
    (response <- call getPermissionsAsync r_get ;;
     if negb (granted response) then ret DENIED else ret GRANTED)%js
    (fun _ => ret UNDETERMINED).

Definition hasAudioPermission (r_get : native PermissionResponse) : M t bool :=
  (permission <- getAudioPermissionStatus r_get ;;
   ret (PermissionStatus_eqb permission GRANTED))%js.

Definition ensureAudioPermission (r_get r_request : native PermissionResponse)
  : M t unit :=
  (hasPermission <- hasAudioPermission r_get ;;
   if negb hasPermission then
     permission <- requestAudioPermission r_request ;;
     if negb (PermissionStatus_eqb permission GRANTED) then
       throw (AudioErrorClass PERMISSION_DENIED "Audio permission not granted" None)
     else ret tt
   else ret tt)%js.

(** Both parameters default to [true] when omitted. *)
Definition setupAudioMode (allowsRecording playsInSilentMode : option bool)
    (r_mode : native unit) : M t unit :=
  try_catch
    (call (setAudioModeAsync
             {| allowsRecordingIOS := Audio.nullish allowsRecording true;
                playsInSilentModeIOS := Audio.nullish playsInSilentMode true;
                staysActiveInBackground := false;
                playThroughEarpieceAndroid := false |}) r_mode)
    (fun error =>
       throw (AudioErrorClass DEVICE_NOT_AVAILABLE "Failed to setup audio mode"
                (Some error))).

Definition isAudioModeSet (r_mode : native unit) : M t bool :=
  try_catch
    (call (setAudioModeAsync
             {| allowsRecordingIOS := true;
                playsInSilentModeIOS := true;
                staysActiveInBackground := false;
                playThroughEarpieceAndroid := false |}) r_mode ;;
     ret true)%js
    (fun _ => ret false).

End WithAudioErrorClass.

End PermissionUtils.

(** * Scenarios

    Concrete sessions and operation sequences used below. *)

(** [padStart(2, '0')] of the decimal rendering, as the formatters apply it. *)
Definition pad2 (n : Z) : string := AudioUtils.padStart 2 "0" (AudioUtils.toString n).

Definition pad2_agrees (n : nat) : bool :=
  String.eqb (pad2 (Z.of_nat n)) (AudioUtils.two_digits (Z.of_nat n)).

(** The session whose uri was set to the empty string. *)
Definition empty_uri_recording : AudioRecording.t :=
  AudioRecording.setUri "" (AudioRecording.new AudioConstants.DEFAULT_RECORDING_CONFIG).

(** A recording coordinator on a fresh session. *)
Definition fresh_recorder : AudioRecordingService.t :=
  AudioRecordingService.new (AudioRecording.new AudioConstants.DEFAULT_RECORDING_CONFIG).

(** The native status of a recording in progress, written to a file. *)
Definition recording_to_file : AudioRecordingService.ExpoRecordingStatus :=
  {| AudioRecordingService.canRecord := true;
     AudioRecordingService.isRecording := true;
     AudioRecordingService.isDoneRecording := false;
     AudioRecordingService.durationMillis := Some (Finite 0);
     AudioRecordingService.uri := Some "file:///rec.m4a" |}.

(** A prepared recorder: [prepare()] resolved. *)
Definition prepared_recorder : AudioRecordingService.t :=
  AudioRecordingService.run [AudioRecordingService.Prepare (Resolves tt)] fresh_recorder.


(** [prepare()], [start()], then [prepare()] again. *)
Definition prepare_twice_trace : list AudioRecordingService.op :=
  [ AudioRecordingService.Prepare (Resolves tt);
    AudioRecordingService.Start (Resolves tt) (Resolves recording_to_file);
    AudioRecordingService.Prepare (Resolves tt) ].

(** A playback coordinator on a fresh session with the default options. *)
Definition fresh_player : AudioPlaybackService.t :=
  AudioPlaybackService.new (AudioPlayback.new AudioConstants.DEFAULT_PLAYBACK_OPTIONS).

(** The native status of a loaded ten-second sound that just finished. *)
Definition finished_sound : AudioPlaybackService.AVPlaybackStatusSuccess :=
  {| AudioPlaybackService.didJustFinish := true;
     AudioPlaybackService.durationMillis := Some (Finite 10000);
     AudioPlaybackService.isBuffering := false;
     AudioPlaybackService.isLooping := false;
     AudioPlaybackService.isPlaying := false;
     AudioPlaybackService.isMuted := false;
     AudioPlaybackService.positionMillis := 10000%Q;
     AudioPlaybackService.rate := 1%Q;
     AudioPlaybackService.volume := 1%Q;
     AudioPlaybackService.shouldPlay := false |}.

(** The native status of the same sound right after loading. *)
Definition loaded_sound : AudioPlaybackService.AVPlaybackStatusSuccess :=
  {| AudioPlaybackService.didJustFinish := false;
     AudioPlaybackService.durationMillis := Some (Finite 10000);
     AudioPlaybackService.isBuffering := false;
     AudioPlaybackService.isLooping := false;
     AudioPlaybackService.isPlaying := false;
     AudioPlaybackService.isMuted := false;
     AudioPlaybackService.positionMillis := 0%Q;
     AudioPlaybackService.rate := 1%Q;
     AudioPlaybackService.volume := 1%Q;
     AudioPlaybackService.shouldPlay := false |}.

Definition load_ok (uri : string) : AudioPlaybackService.op :=
  AudioPlaybackService.Load uri (Resolves tt) (Resolves tt)
    (Resolves (AudioPlaybackService.Loaded loaded_sound)).

(** A player with one sound loaded and its poll timer running. *)
Definition loaded_player : AudioPlaybackService.t :=
  AudioPlaybackService.run [load_ok "a.mp3"] fresh_player.

(** The same player after [setLooping(true)]. *)
Definition looping_player : AudioPlaybackService.t :=
  AudioPlaybackService.run
    [load_ok "a.mp3"; AudioPlaybackService.SetLooping true (Resolves tt)] fresh_player.

(** [load()] twice in a row. *)
Definition load_twice_trace : list AudioPlaybackService.op :=
  [load_ok "a.mp3"; load_ok "b.mp3"].

(** [load()], then [setPlaybackRate(3)] accepted by the native setter. *)
Definition fast_rate_trace : list AudioPlaybackService.op :=
  [load_ok "a.mp3"; AudioPlaybackService.SetPlaybackRate 3%Q false (Resolves tt)].

(** [load()], then both numeric setters with arguments inside their ranges. *)
Definition in_range_trace : list AudioPlaybackService.op :=
  [load_ok "a.mp3";
   AudioPlaybackService.SetVolume (1 # 2)%Q (Resolves tt);
   AudioPlaybackService.SetPlaybackRate (3 # 2)%Q true (Resolves tt)].

(** * Properties *)

(** ** The playback entity *)

Local Open Scope Q_scope.

(** The clamp [Math.max(0, Math.min(x, d))] on finite numbers. *)
Lemma Math_clamp_finite (x d : Q) :
  Math_max 0 (Math_min x d) = Finite (Qmax 0 (Qmin x d)).
Proof. reflexivity. Qed.

Lemma Math_clamp_NaN (x d : number) :
  x = NaN \/ d = NaN -> Math_max 0 (Math_min x d) = NaN.
Proof.
  intros [H | H]; subst; [reflexivity |]. destruct x; reflexivity.
Qed.

Lemma Qclamp_nonneg (x d : Q) : 0 <= Qmax 0 (Qmin x d).
Proof. apply Q.le_max_l. Qed.

Lemma Qclamp_upper (x d : Q) : 0 <= d -> Qmax 0 (Qmin x d) <= d.
Proof.
  intros Hd. apply Q.max_lub; [exact Hd | apply Q.le_min_r].
Qed.

Lemma Qclamp_below (x d : Q) : x < 0 -> Qmax 0 (Qmin x d) = 0.
Proof.
  intros Hx. unfold Qmax, GenericMinMax.gmax.
  assert (Hm : Qmin x d < 0).
  { apply Qle_lt_trans with x; [apply Q.le_min_l | exact Hx]. }
  destruct (0 ?= Qmin x d) eqn:E; try reflexivity.
  apply Qlt_alt in E. exfalso. apply (Qlt_irrefl 0).
  apply Qlt_trans with (Qmin x d); assumption.
Qed.

Lemma Qclamp_above (x d : Q) : 0 <= d -> d < x -> Qmax 0 (Qmin x d) == d.
Proof.
  intros Hd Hx.
  rewrite Q.min_r by (apply Qlt_le_weak; exact Hx).
  apply Q.max_r. exact Hd.
Qed.

Lemma Qclamp_inside (x d : Q) : 0 <= x -> x <= d -> Qmax 0 (Qmin x d) == x.
Proof.
  intros H0 Hd.
  rewrite Q.min_l by exact Hd.
  apply Q.max_r. exact H0.
Qed.

(** C6 as stated fails: NaN is a numeric argument, and with a duration of
    10000 [setPosition(NaN)] stores NaN, which is neither at least 0 nor at
    most the duration. *)
Lemma setPosition_stores_NaN :
  let p := AudioPlayback.setPosition NaN
             (AudioPlayback.setDuration 10000
                (AudioPlayback.new AudioConstants.DEFAULT_PLAYBACK_OPTIONS)) in
  AudioPlayback.duration p = 10000
  /\ AudioPlayback.position p = NaN
  /\ ~ Number_le 0 (AudioPlayback.position p)
  /\ ~ Number_le (AudioPlayback.position p) (AudioPlayback.duration p).
Proof.
  cbv zeta. split; [reflexivity |]. split; [reflexivity |].
  split; intros H; exact H.
Qed.

(** C6, amended: [setPosition(p)] stores [Math.max(0, Math.min(p,
    durationMillis))] and changes nothing else.  For a finite argument and a
    finite duration that is the clamp of the argument: never negative, [0]
    for a negative argument and, when the duration is not negative, at most
    the duration, equal to the duration for an argument above it and equal
    to the argument for one inside [0, durationMillis].  When the argument
    or the duration is NaN, NaN is stored.  With a duration of 10000 the
    arguments -5, 15000 and 3000 store 0, 10000 and 3000. *)
Theorem setPosition_clamps :
  forall (p : AudioPlayback.t) (pos : number),
    let p' := AudioPlayback.setPosition pos p in
    AudioPlayback.position p' = Math_max 0 (Math_min pos (AudioPlayback.duration p))
    /\ (forall x d : Q, pos = x -> AudioPlayback.duration p = d ->
          AudioPlayback.position p' = Qmax 0 (Qmin x d)
          /\ Number_le 0 (AudioPlayback.position p')
          /\ (0 <= d -> Number_le (AudioPlayback.position p') d)
          /\ (x < 0 -> AudioPlayback.position p' = 0)
          /\ (0 <= d -> d < x -> Number_eq (AudioPlayback.position p') d)
          /\ (0 <= x -> x <= d -> Number_eq (AudioPlayback.position p') x))
    /\ (pos = NaN \/ AudioPlayback.duration p = NaN ->
        AudioPlayback.position p' = NaN)
    /\ (AudioPlayback.state p' = AudioPlayback.state p
        /\ AudioPlayback.uri p' = AudioPlayback.uri p
        /\ AudioPlayback.options p' = AudioPlayback.options p
        /\ AudioPlayback.duration p' = AudioPlayback.duration p
        /\ AudioPlayback.error p' = AudioPlayback.error p
        /\ AudioPlayback.status p' = AudioPlayback.status p)
    /\ AudioPlayback.position
         (AudioPlayback.setPosition (-5) (AudioPlayback.setDuration 10000 p)) = 0
    /\ AudioPlayback.position
         (AudioPlayback.setPosition 15000 (AudioPlayback.setDuration 10000 p)) = 10000
    /\ AudioPlayback.position
         (AudioPlayback.setPosition 3000 (AudioPlayback.setDuration 10000 p)) = 3000.
Proof.
  intros p pos. cbv zeta.
  unfold AudioPlayback.position, AudioPlayback.duration, AudioPlayback.setPosition.
  cbn [AudioPlayback._position AudioPlayback._duration].
  split; [reflexivity |].
  split.
  { intros x d Hx Hd. rewrite Hx, Hd, Math_clamp_finite. cbn [Number_le Number_eq].
    split; [reflexivity |].
    split; [apply Qclamp_nonneg |].
    split; [apply Qclamp_upper |].
    split; [intros H; rewrite (Qclamp_below x d H); reflexivity |].
    split; [apply Qclamp_above | apply Qclamp_inside]. }
  split; [apply Math_clamp_NaN |].
  split; [repeat split |].
  repeat split; reflexivity.
Qed.

(** C7: [progress] is 0 when the duration is 0 and the quotient
    [positionMillis / durationMillis] otherwise; for a position between 0 and
    the duration it lies between 0 and 1.  (With NaN as duration, or as
    position over a duration other than 0, the quotient is NaN.) *)
Theorem progress_spec :
  forall p : AudioPlayback.t,
    (Number_eq (AudioPlayback.duration p) 0 -> AudioPlayback.progress p = 0)
    /\ (forall x d : Q,
          AudioPlayback.position p = x -> AudioPlayback.duration p = d -> ~ d == 0 ->
          AudioPlayback.progress p = (x / d)%Q)
    /\ (AudioPlayback.duration p = NaN -> AudioPlayback.progress p = NaN)
    /\ (AudioPlayback.position p = NaN -> ~ Number_eq (AudioPlayback.duration p) 0 ->
        AudioPlayback.progress p = NaN)
    /\ (Number_le 0 (AudioPlayback.position p) ->
        Number_le (AudioPlayback.position p) (AudioPlayback.duration p) ->
        Number_le 0 (AudioPlayback.progress p)
        /\ Number_le (AudioPlayback.progress p) 1).
Proof.
  intros p.
  unfold AudioPlayback.progress, AudioPlayback.duration, AudioPlayback.position.
  destruct (AudioPlayback._duration p) as [| d]; cbn [Number_eqb Number_eq Number_le].
  { split; [intros H; contradiction |].
    split; [intros x d _ H; discriminate |].
    split; [reflexivity |].
    split; [reflexivity |].
    destruct (AudioPlayback._position p); intros _ H; contradiction. }
  destruct (Qeq_bool d 0) eqn:E.
  - apply Qeq_bool_iff in E.
    split; [reflexivity |].
    split; [intros x d' _ H; injection H as <-; intros N; contradiction |].
    split; [intros H; discriminate |].
    split; [intros _ N; contradiction |].
    intros _ _. split; [apply Qle_refl | discriminate].
  - apply Qeq_bool_neq in E.
    split; [intros H; contradiction |].
    split; [intros x d' Hx H _; injection H as <-; rewrite Hx; reflexivity |].
    split; [intros H; discriminate |].
    split; [intros Hx _; rewrite Hx; reflexivity |].
    destruct (AudioPlayback._position p) as [| x]; cbn [divided_by Number_le];
      [intros H; contradiction |].
    intros H0 Hd.
    assert (Hpos : 0 < d).
    { apply Qle_lt_or_eq in Hd. apply Qle_lt_or_eq in H0.
      destruct Hd as [Hd | Hd]; destruct H0 as [H0 | H0].
      - apply Qlt_trans with x; assumption.
      - rewrite H0. exact Hd.
      - rewrite <- Hd. exact H0.
      - exfalso. apply E. rewrite <- Hd, <- H0. reflexivity. }
    split.
    + apply Qle_shift_div_l; [exact Hpos |]. rewrite Qmult_0_l. exact H0.
    + apply Qle_shift_div_r; [exact Hpos |]. rewrite Qmult_1_l. exact Hd.
Qed.

(** ** The recording entity *)

Lemma truthy_string_false (s : string) : truthy_string s = false <-> s = "".
Proof.
  unfold truthy_string. destruct (String.eqb_spec s ""); simpl; split; intros H;
    try reflexivity; try assumption; try discriminate; contradiction.
Qed.

Lemma truthy_string_true (s : string) : truthy_string s = true <-> s <> "".
Proof.
  unfold truthy_string. destruct (String.eqb_spec s ""); simpl; split; intros H;
    try reflexivity; try assumption; try discriminate; contradiction.
Qed.

(** C10 as stated fails: with the empty string as uri the uri is not null,
    and [toResult()] and [toMetadata()] throw all the same. *)
Lemma toResult_throws_on_empty_uri :
  AudioRecording.uri empty_uri_recording = Some ""
  /\ AudioRecording.uri empty_uri_recording <> None
  /\ result AudioRecording.toResult empty_uri_recording
     = Throws (ThrownError (mkError "No recording URI available"))
  /\ result (AudioRecording.toMetadata 0%Z 0%Z) empty_uri_recording
     = Throws (ThrownError (mkError "No recording URI available")).
Proof.
  repeat split; try reflexivity. discriminate.
Qed.

(** C10, amended: [toResult()] and [toMetadata()] throw 'No recording URI
    available' exactly when the uri is null or the empty string; for any
    other uri [toResult()] returns [{uri, duration, status = state}] and
    [toMetadata()] the metadata built from uri, duration, the configured
    format and the two dates; neither changes the session. *)
Theorem toResult_toMetadata_spec :
  forall (r : AudioRecording.t) (createdAt modifiedAt : Date),
    (result AudioRecording.toResult r
       = Throws (ThrownError (mkError "No recording URI available"))
     <-> (AudioRecording.uri r = None \/ AudioRecording.uri r = Some ""))
    /\ (result (AudioRecording.toMetadata createdAt modifiedAt) r
          = Throws (ThrownError (mkError "No recording URI available"))
        <-> (AudioRecording.uri r = None \/ AudioRecording.uri r = Some ""))
    /\ (forall u, AudioRecording.uri r = Some u -> u <> "" ->
          result AudioRecording.toResult r
            = Returns {| rr_uri := u;
                         rr_duration := AudioRecording.duration r;
                         rr_status := AudioRecording.state r |}
          /\ result (AudioRecording.toMetadata createdAt modifiedAt) r
            = Returns {| md_uri := u;
                         md_duration := AudioRecording.duration r;
                         md_format := Some (format (AudioRecording.config r));
                         md_createdAt := Some createdAt;
                         md_modifiedAt := Some modifiedAt |})
    /\ exec AudioRecording.toResult r = r
    /\ exec (AudioRecording.toMetadata createdAt modifiedAt) r = r.
Proof.
  intros r createdAt modifiedAt.
  unfold result, exec, AudioRecording.toResult, AudioRecording.toMetadata,
    AudioRecording.uri, AudioRecording.duration, AudioRecording.state,
    AudioRecording.config, AudioRecording.no_uri, bind, gets, ret, throw.
  cbn [fst snd].
  destruct (AudioRecording._uri r) as [u |] eqn:Hu.
  - destruct (truthy_string u) eqn:Ht; cbn [negb fst snd].
    + apply truthy_string_true in Ht.
      repeat split; try reflexivity.
      * intros H; discriminate.
      * intros [H | H]; [discriminate | congruence].
      * intros H; discriminate.
      * intros [H | H]; [discriminate | congruence].
      * injection H as <-. reflexivity.
      * injection H as <-. reflexivity.
    + apply truthy_string_false in Ht. subst u.
      repeat split; try reflexivity.
      * intros _. right. reflexivity.
      * intros _. right. reflexivity.
      * exfalso. injection H as <-. apply H0. reflexivity.
      * exfalso. injection H as <-. apply H0. reflexivity.
  - repeat split; try reflexivity.
    + intros _. left. reflexivity.
    + intros _. left. reflexivity.
    + discriminate.
    + discriminate.
Qed.

(** ** The passive queries of the static services *)

(** C8: [getStatus()] and [getPermissionStatus()] of the static services
    always return and never throw, whatever the held sound and whatever the
    native promise does; when the native call rejects, [getStatus()] returns
    [null] and [getPermissionStatus()] returns 'denied'; when it resolves they
    return the mapped status; neither changes the static fields. *)
Theorem passive_queries_never_throw :
  forall (s : Static.AudioPlaybackService.t)
         (r_status : native AudioPlaybackService.AVPlaybackStatus)
         (s' : Static.AudioRecordingService.t)
         (r_permission : native string),
    (exists v, result (Static.AudioPlaybackService.getStatus r_status) s = Returns v)
    /\ (forall e, result (Static.AudioPlaybackService.getStatus (Rejects e)) s = Returns None)
    /\ (forall sound status,
          Static.AudioPlaybackService.sound s = Some sound ->
          result (Static.AudioPlaybackService.getStatus (Resolves status)) s
            = Returns (Static.AudioPlaybackService.mapStatusToState status))
    /\ exec (Static.AudioPlaybackService.getStatus r_status) s = s
    /\ (exists v,
          result (Static.AudioRecordingService.getPermissionStatus r_permission) s' = Returns v)
    /\ (forall e,
          result (Static.AudioRecordingService.getPermissionStatus (Rejects e)) s'
            = Returns Static.DENIED)
    /\ (forall status,
          result (Static.AudioRecordingService.getPermissionStatus (Resolves status)) s'
            = Returns (Static.AudioRecordingService.mapPermissionStatus status))
    /\ exec (Static.AudioRecordingService.getPermissionStatus r_permission) s' = s'.
Proof.
  intros s r_status s' r_permission.
  unfold result, exec, Static.AudioPlaybackService.getStatus,
    Static.AudioRecordingService.getPermissionStatus,
    try_catch, bind, gets, ret, await, throw.
  repeat split.
  - destruct (Static.AudioPlaybackService.sound s), r_status; cbn; eexists; reflexivity.
  - intros e. destruct (Static.AudioPlaybackService.sound s); reflexivity.
  - intros sound status Hs. rewrite Hs. reflexivity.
  - destruct (Static.AudioPlaybackService.sound s), r_status; reflexivity.
  - destruct r_permission; cbn; eexists; reflexivity.
  - destruct r_permission; reflexivity.
Qed.

(** ** The duration formatters *)

Local Open Scope Z_scope.

(** The string primitives on samples. *)
Example toString_padStart_samples :
  AudioUtils.toString 0 = "0"
  /\ AudioUtils.toString 125 = "125"
  /\ AudioUtils.toString (-7) = "-7"
  /\ AudioUtils.padStart 2 "0" "5" = "05"
  /\ AudioUtils.padStart 2 "0" "125" = "125"
  /\ AudioUtils.padStart 5 "ab" "x" = "ababx"
  /\ AudioUtils.formatDuration 6000000%Q = "100:00"
  /\ AudioUtils.formatDurationLong 3599999%Q = "59:59".
Proof. repeat split; vm_compute; reflexivity. Qed.

Lemma pad2_agrees_below_100 : forallb pad2_agrees (seq 0 100) = true.
Proof. vm_compute. reflexivity. Qed.

(** Below 100 the padded decimal rendering is the two-digit one. *)
Lemma pad2_two_digits (n : Z) : 0 <= n < 100 -> pad2 n = AudioUtils.two_digits n.
Proof.
  intros Hn.
  pose proof pad2_agrees_below_100 as H.
  rewrite forallb_forall in H.
  specialize (H (Z.to_nat n)).
  unfold pad2_agrees in H. rewrite Z2Nat.id in H by lia.
  apply String.eqb_eq. apply H. apply in_seq. lia.
Qed.

Lemma totalSeconds_nonneg (ms : Q) : (0 <= ms)%Q -> 0 <= Qfloor (ms / 1000).
Proof.
  intros H.
  change 0 with (Qfloor 0). apply Qfloor_resp_le.
  apply Qle_shift_div_l; [reflexivity |]. rewrite Qmult_0_l. exact H.
Qed.

Lemma totalSeconds_below (ms : Q) (k : Z) :
  (ms < inject_Z (k * 1000))%Q -> Qfloor (ms / 1000) < k.
Proof.
  intros H.
  rewrite Zlt_Qlt.
  apply Qle_lt_trans with (ms / 1000)%Q; [apply Qfloor_le |].
  apply Qlt_shift_div_r; [reflexivity |].
  rewrite inject_Z_mult in H. exact H.
Qed.

Lemma totalSeconds_at_least (ms : Q) (k : Z) :
  (inject_Z (k * 1000) <= ms)%Q -> k <= Qfloor (ms / 1000).
Proof.
  intros H.
  rewrite <- (Qfloor_Z k). apply Qfloor_resp_le.
  apply Qle_shift_div_l; [reflexivity |].
  rewrite inject_Z_mult in H. exact H.
Qed.

(** [formatDuration] on the whole seconds of a non-negative duration. *)
Lemma formatDuration_seconds (ms : Q) :
  (0 <= ms)%Q ->
  AudioUtils.formatDuration ms
  = pad2 (Qfloor (ms / 1000) / 60) ++ ":" ++ AudioUtils.two_digits (Qfloor (ms / 1000) mod 60).
Proof.
  intros H. apply totalSeconds_nonneg in H.
  unfold AudioUtils.formatDuration. cbv zeta.
  cbn [divided_by Math_floor floor_quotient remainder option_map
         AudioUtils.integer_toString].
  rewrite Z.rem_mod_nonneg by lia.
  fold (pad2 (Qfloor (ms / 1000) / 60)). fold (pad2 (Qfloor (ms / 1000) mod 60)).
  rewrite (pad2_two_digits (Qfloor (ms / 1000) mod 60)).
  - reflexivity.
  - pose proof (Z.mod_pos_bound (Qfloor (ms / 1000)) 60). lia.
Qed.

(** [formatDurationLong] from one hour on. *)
Lemma formatDurationLong_hours (ms : Q) :
  (3600000 <= ms)%Q ->
  AudioUtils.formatDurationLong ms
  = pad2 (Qfloor (ms / 1000) / 3600) ++ ":"
      ++ AudioUtils.two_digits ((Qfloor (ms / 1000) mod 3600) / 60) ++ ":"
      ++ AudioUtils.two_digits (Qfloor (ms / 1000) mod 60).
Proof.
  intros H.
  assert (Hts : 3600 <= Qfloor (ms / 1000)) by (apply totalSeconds_at_least; exact H).
  unfold AudioUtils.formatDurationLong. cbv zeta.
  cbn [divided_by Math_floor floor_quotient remainder option_map
         AudioUtils.integer_toString AudioUtils.positive].
  assert (Hh : 1 <= Qfloor (ms / 1000) / 3600).
  { apply Z.div_le_lower_bound; lia. }
  replace (0 <? Qfloor (ms / 1000) / 3600) with true by (symmetry; apply Z.ltb_lt; lia).
  rewrite !Z.rem_mod_nonneg by lia.
  fold (pad2 (Qfloor (ms / 1000) / 3600)).
  fold (pad2 (Qfloor (ms / 1000) mod 3600 / 60)).
  fold (pad2 (Qfloor (ms / 1000) mod 60)).
  pose proof (Z.mod_pos_bound (Qfloor (ms / 1000)) 60).
  pose proof (Z.mod_pos_bound (Qfloor (ms / 1000)) 3600).
  rewrite (pad2_two_digits (Qfloor (ms / 1000) mod 60)) by lia.
  rewrite (pad2_two_digits (Qfloor (ms / 1000) mod 3600 / 60)).
  - reflexivity.
  - split; [apply Z.div_pos; lia | apply Z.div_lt_upper_bound; lia].
Qed.

(** [formatDurationLong] below one hour is [formatDuration]. *)
Lemma formatDurationLong_short (ms : Q) :
  (0 <= ms)%Q -> (ms < 3600000)%Q ->
  AudioUtils.formatDurationLong ms = AudioUtils.formatDuration ms.
Proof.
  intros H0 H1.
  assert (Hlo : 0 <= Qfloor (ms / 1000)) by (apply totalSeconds_nonneg; exact H0).
  assert (Hhi : Qfloor (ms / 1000) < 3600) by (apply totalSeconds_below; exact H1).
  unfold AudioUtils.formatDurationLong, AudioUtils.formatDuration. cbv zeta.
  cbn [divided_by Math_floor floor_quotient remainder option_map
         AudioUtils.integer_toString AudioUtils.positive].
  rewrite (Z.div_small (Qfloor (ms / 1000)) 3600) by lia.
  cbn [Z.ltb Z.compare].
  rewrite (Z.rem_small (Qfloor (ms / 1000)) 3600) by lia.
  reflexivity.
Qed.

(** C9: [formatDuration(125000)] is "02:05" and [formatDurationLong(3725000)]
    is "01:02:05".  For a non-negative duration [formatDuration] renders the
    whole seconds as minutes, zero-padded to two digits, a colon and two
    digits of seconds (MM:SS below 100 minutes); [formatDurationLong] renders
    hours, minutes and seconds (HH:MM:SS below 100 hours) from one hour on,
    and agrees with [formatDuration] below one hour.  (Both render NaN as
    "NaN:NaN".) *)
Theorem formatDuration_spec :
  AudioUtils.formatDuration 125000%Q = "02:05"
  /\ AudioUtils.formatDurationLong 3725000%Q = "01:02:05"
  /\ (forall ms : Q, (0 <= ms)%Q ->
        AudioUtils.formatDuration ms
        = pad2 (Qfloor (ms / 1000) / 60) ++ ":"
            ++ AudioUtils.two_digits (Qfloor (ms / 1000) mod 60))
  /\ (forall ms : Q, (0 <= ms)%Q -> (ms < 6000000)%Q ->
        AudioUtils.formatDuration ms = AudioUtils.MM_SS (Qfloor (ms / 1000)))
  /\ (forall ms : Q, (3600000 <= ms)%Q ->
        AudioUtils.formatDurationLong ms
        = pad2 (Qfloor (ms / 1000) / 3600) ++ ":"
            ++ AudioUtils.two_digits ((Qfloor (ms / 1000) mod 3600) / 60) ++ ":"
            ++ AudioUtils.two_digits (Qfloor (ms / 1000) mod 60))
  /\ (forall ms : Q, (3600000 <= ms)%Q -> (ms < 360000000)%Q ->
        AudioUtils.formatDurationLong ms = AudioUtils.HH_MM_SS (Qfloor (ms / 1000)))
  /\ (forall ms : Q, (0 <= ms)%Q -> (ms < 3600000)%Q ->
        AudioUtils.formatDurationLong ms = AudioUtils.formatDuration ms
        /\ AudioUtils.formatDurationLong ms = AudioUtils.MM_SS (Qfloor (ms / 1000)))
  /\ AudioUtils.formatDuration NaN = "NaN:NaN"
  /\ AudioUtils.formatDurationLong NaN = "NaN:NaN".
Proof.
  split; [vm_compute; reflexivity |].
  split; [vm_compute; reflexivity |].
  split; [exact formatDuration_seconds |].
  assert (Hmmss : forall ms : Q, (0 <= ms)%Q -> (ms < 6000000)%Q ->
            AudioUtils.formatDuration ms = AudioUtils.MM_SS (Qfloor (ms / 1000))).
  { intros ms H0 H1.
    rewrite formatDuration_seconds by exact H0.
    unfold AudioUtils.MM_SS.
    rewrite pad2_two_digits; [reflexivity |].
    pose proof (totalSeconds_nonneg ms H0).
    pose proof (totalSeconds_below ms 6000 H1).
    split; [apply Z.div_pos; lia | apply Z.div_lt_upper_bound; lia]. }
  split; [exact Hmmss |].
  split; [exact formatDurationLong_hours |].
  split; [| split; [| split; reflexivity]].
  - intros ms H0 H1.
    rewrite formatDurationLong_hours by exact H0.
    unfold AudioUtils.HH_MM_SS.
    rewrite pad2_two_digits; [reflexivity |].
    pose proof (totalSeconds_at_least ms 3600 H0).
    pose proof (totalSeconds_below ms 360000 H1).
    split; [apply Z.div_pos; lia | apply Z.div_lt_upper_bound; lia].
  - intros ms H0 H1.
    rewrite formatDurationLong_short by assumption.
    split; [reflexivity |].
    apply Hmmss; [exact H0 |].
    apply Qlt_trans with 3600000%Q; [exact H1 | reflexivity].
Qed.

(** ** Interval timers *)

Lemma clearInterval_inactive (id : nat) (tm : Timers.t) :
  Timers.is_active id (Timers.clearInterval id tm) = false.
Proof.
  unfold Timers.is_active, Timers.clearInterval. cbn [Timers.active].
  induction (Timers.active tm) as [| i l IH]; [reflexivity |].
  cbn [filter]. destruct (Nat.eqb i id) eqn:E; cbn [negb].
  - exact IH.
  - cbn [existsb]. rewrite IH. rewrite Nat.eqb_sym, E. reflexivity.
Qed.

(** ** The playback coordinator: completion detection *)

(** C4: on a poll tick of the timer the coordinator records as its poll
    loop (the timer is active and a sound is held) whose native status is
    loaded and reports [didJustFinish = true]: when the session is not
    looping the state becomes Completed and the timer is cleared, so the
    poll loop stops; when the session is looping the state is unchanged and
    the timer stays recorded and active, so the poll loop keeps running.
    The tick itself returns normally. *)
Theorem tick_completion :
  forall (s : AudioPlaybackService.t) (sound : AudioPlaybackService.Sound)
         (interval : nat) (st : AudioPlaybackService.AVPlaybackStatusSuccess),
    AudioPlaybackService.soundInstance s = Some sound ->
    AudioPlaybackService.statusUpdateInterval s = Some interval ->
    Timers.is_active interval (AudioPlaybackService.timers s) = true ->
    AudioPlaybackService.didJustFinish st = true ->
    let poll := AudioPlaybackService.tick interval (Resolves (AudioPlaybackService.Loaded st)) in
    let s' := exec poll s in
    result poll s = Returns tt
    /\ (AudioPlayback.isLooping (AudioPlaybackService.playback s) = false ->
        AudioPlayback.state (AudioPlaybackService.playback s') = AudioPlaybackState.COMPLETED
        /\ AudioPlaybackService.statusUpdateInterval s' = None
        /\ Timers.is_active interval (AudioPlaybackService.timers s') = false)
    /\ (AudioPlayback.isLooping (AudioPlaybackService.playback s) = true ->
        AudioPlayback.state (AudioPlaybackService.playback s')
          = AudioPlayback.state (AudioPlaybackService.playback s)
        /\ AudioPlaybackService.statusUpdateInterval s' = Some interval
        /\ Timers.is_active interval (AudioPlaybackService.timers s') = true).
Proof.
  intros s sound interval st Hsound Hint Hact Hfin. cbv zeta.
  unfold result, exec, AudioPlaybackService.tick, AudioPlaybackService.call,
    AudioPlaybackService.stopStatusUpdate, try_catch, bind, gets, modify, ret, await,
    AudioPlayback.isLooping, AudioPlayback.state.
  cbn [fst snd]. rewrite Hact. cbn [negb fst snd]. rewrite Hsound.
  cbn -[Timers.clearInterval Timers.is_active or_zero Math_max Math_min].
  rewrite Hfin.
  destruct (isLooping (AudioPlayback._options (AudioPlaybackService.playback s))) eqn:Hloop;
    cbn -[Timers.clearInterval Timers.is_active or_zero Math_max Math_min].
  - split; [reflexivity |].
    split; [intros H; discriminate |].
    intros _. repeat split; assumption.
  - rewrite Hint.
    cbn -[Timers.clearInterval Timers.is_active or_zero Math_max Math_min].
    split; [reflexivity |].
    split; [| intros H; discriminate].
    intros _. repeat split. apply clearInterval_inactive.
Qed.

(** ** The recording coordinator *)

Ltac js_unfold :=
  unfold result, exec, try_catch, bind, gets, modify, ret, await, throw, when in *.

Ltac split_match :=
  match goal with
  | |- context [match ?x with _ => _ end] =>
      lazymatch x with
      | context [match _ with _ => _ end] => fail
      | _ => destruct x eqn:?
      end
  end.

(** C1, amended: [pause()] returns normally exactly when a native handle is
    held, the session state is Recording and the native pause call resolves,
    and the state is then Paused.  Without a handle or in any other state it
    throws 'Cannot pause recording' and the session state becomes Error, with
    that error recorded; a rejected native pause call is rethrown as an
    Error and forces the state to Error as well. *)
Theorem pause_spec :
  forall (s : AudioRecordingService.t) (r_pause : native unit),
    let s' := exec (AudioRecordingService.pause r_pause) s in
    let refusal := mkError "Cannot pause recording" in
    (result (AudioRecordingService.pause r_pause) s = Returns tt
     <-> (AudioRecordingService.recordingInstance s <> None
          /\ AudioRecording.state (AudioRecordingService.recording s)
             = AudioRecordingState.RECORDING
          /\ r_pause = Resolves tt))
    /\ (result (AudioRecordingService.pause r_pause) s = Returns tt ->
        AudioRecording.state (AudioRecordingService.recording s')
          = AudioRecordingState.PAUSED)
    /\ (AudioRecordingService.recordingInstance s = None
        \/ AudioRecording.state (AudioRecordingService.recording s)
           <> AudioRecordingState.RECORDING ->
        result (AudioRecordingService.pause r_pause) s = Throws (ThrownError refusal)
        /\ AudioRecording.state (AudioRecordingService.recording s')
           = AudioRecordingState.ERROR
        /\ AudioRecording.error (AudioRecordingService.recording s') = Some refusal)
    /\ (forall v,
          AudioRecordingService.recordingInstance s <> None ->
          AudioRecording.state (AudioRecordingService.recording s)
            = AudioRecordingState.RECORDING ->
          r_pause = Rejects v ->
          let err := instanceof_Error_or "Failed to pause recording" v in
          result (AudioRecordingService.pause r_pause) s = Throws (ThrownError err)
          /\ AudioRecording.state (AudioRecordingService.recording s')
             = AudioRecordingState.ERROR
          /\ AudioRecording.error (AudioRecordingService.recording s') = Some err).
Proof.
  intros s r_pause. cbv zeta.
  unfold AudioRecordingService.pause, AudioRecordingService.capture,
    AudioRecordingService.call, AudioRecording.canPause, AudioRecording.state,
    AudioRecording.error.
  js_unfold.
  destruct (AudioRecordingService.recordingInstance s) as [obj |] eqn:Hinst;
    destruct (AudioRecording._state (AudioRecordingService.recording s)) eqn:Hstate;
    destruct r_pause as [[] | v]; cbn;
    repeat split; intros; try reflexivity; try discriminate; try congruence;
    repeat match goal with
           | H : _ /\ _ |- _ => destruct H
           | H : _ \/ _ |- _ => destruct H
           end;
    try discriminate; try congruence.
Qed.

(** C1 as stated fails: a prepared recorder is Idle; [pause()] on it throws
    and the session state does not stay Idle, it becomes Error. *)
Lemma pause_refused_forces_error :
  AudioRecordingService.recordingInstance prepared_recorder <> None
  /\ AudioRecording.state (AudioRecordingService.recording prepared_recorder)
     = AudioRecordingState.IDLE
  /\ result (AudioRecordingService.pause (Resolves tt)) prepared_recorder
     = Throws (ThrownError (mkError "Cannot pause recording"))
  /\ AudioRecording.state
       (AudioRecordingService.recording
          (exec (AudioRecordingService.pause (Resolves tt)) prepared_recorder))
     = AudioRecordingState.ERROR
  /\ AudioRecording.state
       (AudioRecordingService.recording
          (exec (AudioRecordingService.pause (Resolves tt)) prepared_recorder))
     <> AudioRecording.state (AudioRecordingService.recording prepared_recorder).
Proof.
  repeat split; try reflexivity; cbv; discriminate.
Qed.


(** A later [prepare()] keeps the uri as well, in state Idle. *)
Lemma uri_kept_after_second_prepare :
  AudioRecording.uri
    (AudioRecordingService.recording (AudioRecordingService.run prepare_twice_trace fresh_recorder))
  = Some "file:///rec.m4a"
  /\ AudioRecording.state
       (AudioRecordingService.recording (AudioRecordingService.run prepare_twice_trace fresh_recorder))
     = AudioRecordingState.IDLE.
Proof. split; reflexivity. Qed.

Ltac recorder_unfold :=
  unfold AudioRecordingService.prepare, AudioRecordingService.start,
    AudioRecordingService.pause, AudioRecordingService.stop,
    AudioRecordingService.cancel, AudioRecordingService.dispose,
    AudioRecordingService.tick, AudioRecordingService.capture,
    AudioRecordingService.call, AudioRecordingService.construct_Recording,
    AudioRecordingService.startStatusUpdate, AudioRecordingService.stopStatusUpdate;
  js_unfold.

Ltac recorder_simpl :=
  cbn -[Timers.clearInterval Timers.is_active Timers.setInterval or_zero truthy_string
        instanceof_Error_or].

Ltac recorder_simpl_all :=
  cbn -[Timers.clearInterval Timers.is_active Timers.setInterval or_zero truthy_string
        instanceof_Error_or] in *.









(** C3, on the recording coordinator: a second [prepare()] while a handle is
    held makes no [stopAndUnloadAsync] call on the prior handle.  After
    [prepare()], [start()], [prepare()] the native calls are those below, the
    coordinator holds the second object, and the poll timer started for the
    first one is still active.  On the playback coordinator a second [load()]
    calls [unloadAsync] on the prior sound before [createAsync]. *)
Theorem second_prepare_keeps_prior_handle :
  let s := AudioRecordingService.run prepare_twice_trace fresh_recorder in
  let p := AudioPlaybackService.run load_twice_trace fresh_player in
  AudioRecordingService.calls s
  = [ AudioRecordingService.new_Recording 0;
      AudioRecordingService.prepareToRecordAsync 0;
      AudioRecordingService.startAsync 0;
      AudioRecordingService.getStatusAsync 0;
      AudioRecordingService.new_Recording 1;
      AudioRecordingService.prepareToRecordAsync 1 ]
  /\ ~ In (AudioRecordingService.stopAndUnloadAsync 0) (AudioRecordingService.calls s)
  /\ AudioRecordingService.recordingInstance s
     = Some {| AudioRecordingService.object_id := 1;
               AudioRecordingService._statusUpdateInterval := None |}
  /\ Timers.active (AudioRecordingService.timers s) = [1%nat]
  /\ AudioPlaybackService.calls p
     = [ AudioPlaybackService.createAsync 0 "a.mp3" AudioConstants.DEFAULT_PLAYBACK_OPTIONS;
         AudioPlaybackService.getStatusAsync 0;
         AudioPlaybackService.unloadAsync 0;
         AudioPlaybackService.createAsync 1 "b.mp3" AudioConstants.DEFAULT_PLAYBACK_OPTIONS;
         AudioPlaybackService.getStatusAsync 1 ]
  /\ AudioPlaybackService.soundInstance p = Some {| AudioPlaybackService.object_id := 1 |}
  /\ Timers.active (AudioPlaybackService.timers p) = [2%nat].
Proof.
  cbv zeta.
  split; [reflexivity |].
  split.
  { cbv. intros H. repeat (destruct H as [H | H]; [discriminate |]). exact H. }
  repeat split; reflexivity.
Qed.

(** Whatever the coordinator holds, [prepare()] makes exactly two native
    calls, both on the object it has just constructed. *)
Lemma prepare_calls (s : AudioRecordingService.t) (r_prepare : native unit) :
  AudioRecordingService.calls (exec (AudioRecordingService.prepare r_prepare) s)
  = (AudioRecordingService.calls s
      ++ [ AudioRecordingService.new_Recording (AudioRecordingService.next_object s);
           AudioRecordingService.prepareToRecordAsync (AudioRecordingService.next_object s) ])%list
  /\ AudioRecordingService.timers (exec (AudioRecordingService.prepare r_prepare) s)
     = AudioRecordingService.timers s.
Proof.
  unfold AudioRecordingService.prepare, AudioRecordingService.capture,
    AudioRecordingService.call, AudioRecordingService.construct_Recording.
  js_unfold.
  destruct r_prepare as [[] | v]; cbn; rewrite <- app_assoc; split; reflexivity.
Qed.

(** With a sound held, the first native call of [load()] is [unloadAsync]
    on that sound; [createAsync] can only follow it. *)
Lemma load_unloads_prior_sound
    (s : AudioPlaybackService.t) (sound : AudioPlaybackService.Sound) (uri : string)
    (r_unload r_create : native unit)
    (r_status : native AudioPlaybackService.AVPlaybackStatus) :
  AudioPlaybackService.soundInstance s = Some sound ->
  exists rest,
    AudioPlaybackService.calls
      (exec (AudioPlaybackService.load uri r_unload r_create r_status) s)
    = (AudioPlaybackService.calls s
        ++ AudioPlaybackService.unloadAsync (AudioPlaybackService.object_id sound) :: rest)%list.
Proof.
  intros Hs.
  destruct s as [inst pb timer tm next cl]. cbn in Hs. subst inst.
  unfold AudioPlaybackService.load, AudioPlaybackService.unload,
    AudioPlaybackService.capture, AudioPlaybackService.call,
    AudioPlaybackService.Sound_createAsync, AudioPlaybackService.startStatusUpdate,
    AudioPlaybackService.stopStatusUpdate.
  js_unfold.
  destruct r_unload as [[] | v1]; [| exists []; reflexivity].
  destruct timer as [interval |];
    destruct r_create as [[] | v2];
    try (destruct r_status as [[e | st] | v3]);
    cbn -[Timers.clearInterval Timers.setInterval or_zero Math_max Math_min];
    rewrite <- ?app_assoc; cbn [app]; eexists; reflexivity.
Qed.

(** ** The playback coordinator: the numeric options *)

Ltac playback_unfold :=
  unfold AudioPlaybackService.load, AudioPlaybackService.unload,
    AudioPlaybackService.play, AudioPlaybackService.pause, AudioPlaybackService.stop,
    AudioPlaybackService.seek, AudioPlaybackService.setVolume,
    AudioPlaybackService.setPlaybackRate, AudioPlaybackService.setLooping,
    AudioPlaybackService.setMuted, AudioPlaybackService.dispose,
    AudioPlaybackService.tick, AudioPlaybackService.guarded, AudioPlaybackService.loaded,
    AudioPlaybackService.capture, AudioPlaybackService.call,
    AudioPlaybackService.Sound_createAsync, AudioPlaybackService.startStatusUpdate,
    AudioPlaybackService.stopStatusUpdate;
  js_unfold.

Ltac playback_simpl :=
  cbn -[Timers.clearInterval Timers.is_active Timers.setInterval or_zero Math_max Math_min
        AudioPlayback.canPlay AudioPlayback.canPause AudioPlayback.canStop
        AudioPlayback.canSeek].

(** After one operation the volume and the playback rate are the ones the
    specification gives: the argument of a numeric setter that found a sound
    and whose native call resolved, the value held before otherwise. *)
Lemma step_numeric_options (s : AudioPlaybackService.t) (o : AudioPlaybackService.op) :
  AudioPlayback.volume (AudioPlaybackService.playback (AudioPlaybackService.step s o))
  = AudioPlaybackService.volume_after s o
  /\ AudioPlayback.playbackRate
       (AudioPlaybackService.playback (AudioPlaybackService.step s o))
     = AudioPlaybackService.rate_after s o.
Proof.
  unfold AudioPlaybackService.volume_after, AudioPlaybackService.rate_after,
    AudioPlayback.volume, AudioPlayback.playbackRate.
  destruct s as [inst pb timer tm next cl].
  destruct o; cbn [AudioPlaybackService.step]; playback_unfold; playback_simpl;
    repeat (split_match; playback_simpl);
    split; try reflexivity; try discriminate; try congruence.
Qed.

(** A numeric setter makes one native call, with its argument, when a sound
    is held, and none otherwise. *)
Lemma numeric_setter_calls (s : AudioPlaybackService.t) (o : AudioPlaybackService.op) :
  AudioPlaybackService.numeric_setter o = true ->
  AudioPlaybackService.calls (AudioPlaybackService.step s o)
  = (AudioPlaybackService.calls s ++ AudioPlaybackService.forwarded s o)%list.
Proof.
  unfold AudioPlaybackService.forwarded.
  destruct s as [inst pb timer tm next cl].
  destruct o; cbn [AudioPlaybackService.numeric_setter]; try discriminate; intros _;
    cbn [AudioPlaybackService.step]; playback_unfold; playback_simpl;
    repeat (split_match; playback_simpl);
    rewrite ?app_nil_r; try reflexivity; try discriminate; try congruence.
Qed.

(** A numeric setter returns exactly when a sound is held and the native
    call resolves. *)
Lemma numeric_setter_outcome (s : AudioPlaybackService.t) (o : AudioPlaybackService.op) :
  AudioPlaybackService.numeric_setter o = true ->
  (AudioPlaybackService.outcome s o = Returns tt
   <-> AudioPlaybackService.soundInstance s <> None
       /\ exists x c, o = AudioPlaybackService.SetVolume x (Resolves tt)
                      \/ o = AudioPlaybackService.SetPlaybackRate x c (Resolves tt)).
Proof.
  destruct s as [inst pb timer tm next cl].
  destruct o as [| | | | | v r | x c r | | | | |];
    cbn [AudioPlaybackService.numeric_setter]; try discriminate; intros _;
    cbn [AudioPlaybackService.outcome AudioPlaybackService.soundInstance];
    playback_unfold; playback_simpl;
    destruct inst as [sound |]; destruct r as [[] | e]; playback_simpl;
    (split; [intros H; first [discriminate | split; [discriminate |]]
            | intros [Hs [x' [c' [H | H]]]]; try discriminate; try congruence]).
  - exists v, false. left. reflexivity.
  - exists x, c. right. reflexivity.
Qed.

Lemma step_options_in_range (s : AudioPlaybackService.t) (o : AudioPlaybackService.op) :
  AudioPlaybackService.options_in_range s ->
  AudioPlaybackService.argument_in_range o ->
  AudioPlaybackService.options_in_range (AudioPlaybackService.step s o).
Proof.
  intros [Hv Hr] Ho.
  destruct (step_numeric_options s o) as [Sv Sr].
  unfold AudioPlaybackService.options_in_range. rewrite Sv, Sr.
  unfold AudioPlaybackService.volume_after, AudioPlaybackService.rate_after.
  split.
  - destruct o as [| | | | | v [[] | e] | | | | | |]; try exact Hv.
    destruct (AudioPlaybackService.soundInstance s); [exact Ho | exact Hv].
  - destruct o as [| | | | | | x c [[] | e] | | | | |]; try exact Hr.
    destruct (AudioPlaybackService.soundInstance s); [exact Ho | exact Hr].
Qed.

Lemma run_options_in_range (ops : list AudioPlaybackService.op) :
  forall s : AudioPlaybackService.t,
    AudioPlaybackService.options_in_range s ->
    Forall AudioPlaybackService.argument_in_range ops ->
    AudioPlaybackService.options_in_range (AudioPlaybackService.run ops s).
Proof.
  induction ops as [| o ops IH]; intros s Hs Hops.
  - exact Hs.
  - cbn [AudioPlaybackService.run fold_left].
    inversion Hops as [| o' ops' Ho Hrest]; subst.
    apply IH; [| exact Hrest].
    apply step_options_in_range; assumption.
Qed.

(** C5 as stated fails: from the default options, [load()] followed by
    [setPlaybackRate(3)], which the native setter accepts, leaves
    [options.playbackRate = 3], outside [0.5, 2.0]. *)
Lemma setPlaybackRate_stores_out_of_range :
  AudioPlaybackService.options_in_range fresh_player
  /\ AudioPlayback.playbackRate
       (AudioPlaybackService.playback (AudioPlaybackService.run fast_rate_trace fresh_player))
     = 3%Q
  /\ ~ AudioPlaybackService.rate_in_range
         (AudioPlayback.playbackRate
            (AudioPlaybackService.playback
               (AudioPlaybackService.run fast_rate_trace fresh_player)))
  /\ ~ AudioPlaybackService.options_in_range
         (AudioPlaybackService.run fast_rate_trace fresh_player).
Proof.
  assert (Hout : ~ AudioPlaybackService.rate_in_range
                     (AudioPlayback.playbackRate
                        (AudioPlaybackService.playback
                           (AudioPlaybackService.run fast_rate_trace fresh_player)))).
  { intros [_ H]. revert H. cbv. intros H. apply H. reflexivity. }
  split.
  { cbv. repeat split; discriminate. }
  split; [reflexivity |].
  split; [exact Hout |].
  intros [_ H]. exact (Hout H).
Qed.

(** C5, amended: [setVolume] and [setPlaybackRate] forward their argument
    unchanged to the native setter of the sound that is held and, when that
    call succeeds, store the argument unchanged in [options.volume] and
    [options.playbackRate]; without a sound they make no call, and without a
    sound or when the call fails they throw and store nothing.  No other
    operation changes [options.volume] or [options.playbackRate].  So an
    operation keeps options that are inside the documented ranges there when
    it is not a numeric setter with an argument outside its range, and from
    such options every sequence of operations whose [setVolume] arguments
    are in [0,1] and whose [setPlaybackRate] arguments are in [0.5,2.0]
    leaves [options.volume] in [0,1] and [options.playbackRate] in
    [0.5,2.0]. *)
Theorem options_ranges_preserved :
  forall (s : AudioPlaybackService.t) (ops : list AudioPlaybackService.op),
    (forall o : AudioPlaybackService.op,
        AudioPlayback.volume
          (AudioPlaybackService.playback (AudioPlaybackService.step s o))
        = AudioPlaybackService.volume_after s o
        /\ AudioPlayback.playbackRate
             (AudioPlaybackService.playback (AudioPlaybackService.step s o))
           = AudioPlaybackService.rate_after s o)
    /\ (forall o : AudioPlaybackService.op,
          AudioPlaybackService.numeric_setter o = true ->
          AudioPlaybackService.calls (AudioPlaybackService.step s o)
          = (AudioPlaybackService.calls s ++ AudioPlaybackService.forwarded s o)%list
          /\ (AudioPlaybackService.outcome s o = Returns tt
              <-> AudioPlaybackService.soundInstance s <> None
                  /\ exists x c, o = AudioPlaybackService.SetVolume x (Resolves tt)
                                 \/ o = AudioPlaybackService.SetPlaybackRate x c
                                          (Resolves tt)))
    /\ (forall o : AudioPlaybackService.op,
          AudioPlaybackService.options_in_range s ->
          AudioPlaybackService.argument_in_range o ->
          AudioPlaybackService.options_in_range (AudioPlaybackService.step s o))
    /\ (AudioPlaybackService.options_in_range s ->
        Forall AudioPlaybackService.argument_in_range ops ->
        AudioPlaybackService.options_in_range (AudioPlaybackService.run ops s)).
Proof.
  intros s ops.
  split; [intros o; apply step_numeric_options |].
  split; [intros o Ho; split;
          [apply numeric_setter_calls | apply numeric_setter_outcome]; exact Ho |].
  split; [intros o; apply step_options_in_range |].
  apply run_options_in_range.
Qed.

Lemma fresh_player_in_range : AudioPlaybackService.options_in_range fresh_player.
Proof. cbv. repeat split; discriminate. Defined.

Lemma in_range_trace_arguments :
  Forall AudioPlaybackService.argument_in_range in_range_trace.
Proof.
  repeat apply Forall_cons; try apply Forall_nil; try exact I;
    cbv; split; discriminate.
Defined.

Lemma options_ranges_preserved_witness :
  AudioPlaybackService.options_in_range (AudioPlaybackService.run in_range_trace fresh_player).
Proof.
  exact (proj2 (proj2 (proj2 (options_ranges_preserved fresh_player in_range_trace)))
           fresh_player_in_range in_range_trace_arguments).
Defined.

(** The two cases of completion detection, run on a loaded player. *)
Lemma tick_completion_runs :
  AudioPlayback.state
    (AudioPlaybackService.playback
       (exec (AudioPlaybackService.tick 1 (Resolves (AudioPlaybackService.Loaded finished_sound)))
          loaded_player))
  = AudioPlaybackState.COMPLETED
  /\ Timers.active
       (AudioPlaybackService.timers
          (exec (AudioPlaybackService.tick 1 (Resolves (AudioPlaybackService.Loaded finished_sound)))
             loaded_player))
     = []
  /\ AudioPlayback.state
       (AudioPlaybackService.playback
          (exec (AudioPlaybackService.tick 1 (Resolves (AudioPlaybackService.Loaded finished_sound)))
             looping_player))
     = AudioPlaybackState.READY
  /\ Timers.active
       (AudioPlaybackService.timers
          (exec (AudioPlaybackService.tick 1 (Resolves (AudioPlaybackService.Loaded finished_sound)))
             looping_player))
     = [1%nat].
Proof. repeat split; reflexivity. Qed.

Lemma tick_completion_witness :
  let poll := AudioPlaybackService.tick 1
                (Resolves (AudioPlaybackService.Loaded finished_sound)) in
  result poll loaded_player = Returns tt
  /\ (AudioPlayback.isLooping (AudioPlaybackService.playback loaded_player) = false ->
      AudioPlayback.state (AudioPlaybackService.playback (exec poll loaded_player))
        = AudioPlaybackState.COMPLETED
      /\ AudioPlaybackService.statusUpdateInterval (exec poll loaded_player) = None
      /\ Timers.is_active 1 (AudioPlaybackService.timers (exec poll loaded_player)) = false)
  /\ (AudioPlayback.isLooping (AudioPlaybackService.playback loaded_player) = true ->
      AudioPlayback.state (AudioPlaybackService.playback (exec poll loaded_player))
        = AudioPlayback.state (AudioPlaybackService.playback loaded_player)
      /\ AudioPlaybackService.statusUpdateInterval (exec poll loaded_player) = Some 1%nat
      /\ Timers.is_active 1 (AudioPlaybackService.timers (exec poll loaded_player)) = true).
Proof.
  exact (tick_completion loaded_player {| AudioPlaybackService.object_id := 0 |}
           1%nat finished_sound eq_refl eq_refl eq_refl eq_refl).
Defined.

(** * Further properties of the coordinators *)

Ltac split_hyp_match :=
  match goal with
  | H : context [match ?x with _ => _ end] |- _ =>
      lazymatch x with
      | context [match _ with _ => _ end] => fail
      | _ => destruct x eqn:?
      end
  end.

(** X1: an operation of the recording coordinator that throws always throws
    an [Error] object, leaves the session in state Error and records that
    same error on it. *)
Theorem recorder_failure_is_recorded :
  forall (s : AudioRecordingService.t) (o : AudioRecordingService.op) (v : thrown),
    AudioRecordingService.outcome s o = Throws v ->
    exists err : Error,
      v = ThrownError err
      /\ AudioRecording.state (AudioRecordingService.recording (AudioRecordingService.step s o))
         = AudioRecordingState.ERROR
      /\ AudioRecording.error (AudioRecordingService.recording (AudioRecordingService.step s o))
         = Some err
      /\ AudioRecording.hasError
           (AudioRecordingService.recording (AudioRecordingService.step s o)) = true.
Proof.
  intros s o v.
  unfold AudioRecording.state, AudioRecording.error, AudioRecording.hasError.
  destruct o; cbn [AudioRecordingService.outcome AudioRecordingService.step];
    recorder_unfold; recorder_simpl;
    repeat (split_match; recorder_simpl);
    intros H; try discriminate H;
    repeat (split_hyp_match; recorder_simpl_all);
    try discriminate H;
    injection H as <-; eexists; repeat split; reflexivity.
Qed.

Lemma recorder_failure_is_recorded_witness :
  exists err : Error,
    ThrownError (mkError "Cannot pause recording") = ThrownError err
    /\ AudioRecording.state
         (AudioRecordingService.recording
            (AudioRecordingService.step prepared_recorder
               (AudioRecordingService.Pause (Resolves tt))))
       = AudioRecordingState.ERROR
    /\ AudioRecording.error
         (AudioRecordingService.recording
            (AudioRecordingService.step prepared_recorder
               (AudioRecordingService.Pause (Resolves tt))))
       = Some err
    /\ AudioRecording.hasError
         (AudioRecordingService.recording
            (AudioRecordingService.step prepared_recorder
               (AudioRecordingService.Pause (Resolves tt)))) = true.
Proof.
  exact (recorder_failure_is_recorded prepared_recorder
           (AudioRecordingService.Pause (Resolves tt))
           (ThrownError (mkError "Cannot pause recording")) eq_refl).
Defined.

(** After an operation the session is never left in a transient state, and
    a session that can be stopped has a handle behind it. *)
Lemma recorder_rest_step (s : AudioRecordingService.t) (o : AudioRecordingService.op) :
  AudioRecordingService.at_rest
    (AudioRecording.state (AudioRecordingService.recording s)) = true
  /\ (AudioRecording.canStop (AudioRecordingService.recording s) = true ->
      AudioRecordingService.recordingInstance s <> None) ->
  AudioRecordingService.at_rest
    (AudioRecording.state
       (AudioRecordingService.recording (AudioRecordingService.step s o))) = true
  /\ (AudioRecording.canStop
        (AudioRecordingService.recording (AudioRecordingService.step s o)) = true ->
      AudioRecordingService.recordingInstance (AudioRecordingService.step s o) <> None).
Proof.
  unfold AudioRecording.state, AudioRecording.canStop.
  destruct s as [inst [st cfg u d e stt] tm nobj cl].
  cbn [AudioRecordingService.recording AudioRecordingService.recordingInstance
       AudioRecording._state].
  intros [Hrest Hheld].
  destruct o; cbn [AudioRecordingService.step]; recorder_unfold; recorder_simpl;
    repeat (split_match; recorder_simpl);
    (split; [try reflexivity; try exact Hrest
            | try (intros _; discriminate); try (intros H; discriminate H);
              try exact Hheld]).
Qed.

(** X2: in every state the recording coordinator reaches from a new session
    the state is Idle, Recording, Paused, Stopped or Error, never the
    transient Preparing or Stopping, and whenever the session can be stopped
    (state Recording or Paused) the coordinator holds a native handle. *)
Theorem recorder_rest_states :
  forall (config : AudioRecordingConfig) (ops : list AudioRecordingService.op),
    let s := AudioRecordingService.run ops
               (AudioRecordingService.new (AudioRecording.new config)) in
    AudioRecordingService.at_rest
      (AudioRecording.state (AudioRecordingService.recording s)) = true
    /\ (AudioRecording.canStop (AudioRecordingService.recording s) = true ->
        AudioRecordingService.recordingInstance s <> None).
Proof.
  intros config ops. cbv zeta.
  assert (G : forall s0,
             AudioRecordingService.at_rest
               (AudioRecording.state (AudioRecordingService.recording s0)) = true
             /\ (AudioRecording.canStop (AudioRecordingService.recording s0) = true ->
                 AudioRecordingService.recordingInstance s0 <> None) ->
             AudioRecordingService.at_rest
               (AudioRecording.state
                  (AudioRecordingService.recording (AudioRecordingService.run ops s0))) = true
             /\ (AudioRecording.canStop
                   (AudioRecordingService.recording (AudioRecordingService.run ops s0)) = true ->
                 AudioRecordingService.recordingInstance (AudioRecordingService.run ops s0)
                 <> None)).
  { induction ops as [| o ops IH]; intros s0 H0; [exact H0 |].
    cbn [AudioRecordingService.run fold_left].
    apply IH. apply recorder_rest_step. exact H0. }
  apply G. split; [reflexivity | intros H; discriminate H].
Qed.

(** X3: a [stop()] on a held handle in a stoppable state whose native call
    resolves returns normally, leaves the session Stopped with the final
    duration, takes the reported uri when it is non-empty (else keeps the
    old one), drops the handle and leaves the timers alone; a [start()]
    right after it makes no native call, throws 'Recording not prepared.
    Call prepare() first.' and moves the session to Error. *)
Theorem stop_releases_handle :
  forall (s : AudioRecordingService.t) (obj : AudioRecordingService.Recording)
         (status : AudioRecordingService.ExpoRecordingStatus),
    AudioRecordingService.recordingInstance s = Some obj ->
    AudioRecording.canStop (AudioRecordingService.recording s) = true ->
    let s' := exec (AudioRecordingService.stop (Resolves status)) s in
    result (AudioRecordingService.stop (Resolves status)) s = Returns tt
    /\ AudioRecording.state (AudioRecordingService.recording s') = AudioRecordingState.STOPPED
    /\ AudioRecording.duration (AudioRecordingService.recording s')
       = or_zero (AudioRecordingService.durationMillis status)
    /\ AudioRecording.uri (AudioRecordingService.recording s')
       = (if truthy_opt_string (AudioRecordingService.uri status)
          then AudioRecordingService.uri status
          else AudioRecording.uri (AudioRecordingService.recording s))
    /\ AudioRecordingService.recordingInstance s' = None
    /\ AudioRecordingService.timers s' = AudioRecordingService.timers s
    /\ AudioRecordingService.calls s'
       = (AudioRecordingService.calls s
            ++ [AudioRecordingService.stopAndUnloadAsync
                  (AudioRecordingService.object_id obj)])%list
    /\ (forall r_start r_status,
          result (AudioRecordingService.start r_start r_status) s'
          = Throws (ThrownError (mkError "Recording not prepared. Call prepare() first."))
          /\ AudioRecording.state
               (AudioRecordingService.recording
                  (exec (AudioRecordingService.start r_start r_status) s'))
             = AudioRecordingState.ERROR
          /\ AudioRecordingService.calls
               (exec (AudioRecordingService.start r_start r_status) s')
             = AudioRecordingService.calls s').
Proof.
  intros s obj status Hinst Hcan. cbv zeta.
  destruct s as [inst rec tm nobj cl].
  cbn in Hinst, Hcan. subst inst.
  unfold AudioRecording.state, AudioRecording.duration, AudioRecording.uri.
  recorder_unfold. recorder_simpl. rewrite Hcan. recorder_simpl.
  destruct (AudioRecordingService.uri status) as [u |] eqn:Hu; recorder_simpl;
    [destruct (truthy_string u) eqn:Ht |]; recorder_simpl;
    repeat split; reflexivity.
Qed.

Lemma stop_releases_handle_witness :
  let s := AudioRecordingService.run
             [AudioRecordingService.Prepare (Resolves tt);
              AudioRecordingService.Start (Resolves tt) (Resolves recording_to_file)]
             fresh_recorder in
  let s' := exec (AudioRecordingService.stop (Resolves recording_to_file)) s in
  result (AudioRecordingService.stop (Resolves recording_to_file)) s = Returns tt
  /\ AudioRecording.state (AudioRecordingService.recording s') = AudioRecordingState.STOPPED
  /\ AudioRecording.duration (AudioRecordingService.recording s')
     = or_zero (AudioRecordingService.durationMillis recording_to_file)
  /\ AudioRecording.uri (AudioRecordingService.recording s')
     = (if truthy_opt_string (AudioRecordingService.uri recording_to_file)
        then AudioRecordingService.uri recording_to_file
        else AudioRecording.uri (AudioRecordingService.recording s))
  /\ AudioRecordingService.recordingInstance s' = None
  /\ AudioRecordingService.timers s' = AudioRecordingService.timers s
  /\ AudioRecordingService.calls s'
     = (AudioRecordingService.calls s
          ++ [AudioRecordingService.stopAndUnloadAsync 0])%list
  /\ (forall r_start r_status,
        result (AudioRecordingService.start r_start r_status) s'
        = Throws (ThrownError (mkError "Recording not prepared. Call prepare() first."))
        /\ AudioRecording.state
             (AudioRecordingService.recording
                (exec (AudioRecordingService.start r_start r_status) s'))
           = AudioRecordingState.ERROR
        /\ AudioRecordingService.calls
             (exec (AudioRecordingService.start r_start r_status) s')
           = AudioRecordingService.calls s').
Proof.
  exact (stop_releases_handle
           (AudioRecordingService.run
              [AudioRecordingService.Prepare (Resolves tt);
               AudioRecordingService.Start (Resolves tt) (Resolves recording_to_file)]
              fresh_recorder)
           {| AudioRecordingService.object_id := 0;
              AudioRecordingService._statusUpdateInterval := Some 1%nat |}
           recording_to_file eq_refl eq_refl).
Defined.

(** X4: [dispose()] of the recording coordinator never throws and makes no
    native call; it drops the handle, clears the poll timer recorded on it
    and leaves the session as a new one with the same config (Idle, no uri,
    no error, duration 0).  Calling it twice is the same as calling it
    once. *)
Theorem recorder_dispose_spec :
  forall s : AudioRecordingService.t,
    let s' := exec AudioRecordingService.dispose s in
    result AudioRecordingService.dispose s = Returns tt
    /\ AudioRecordingService.recording s'
       = AudioRecording.new (AudioRecording.config (AudioRecordingService.recording s))
    /\ AudioRecordingService.recordingInstance s' = None
    /\ AudioRecordingService.calls s' = AudioRecordingService.calls s
    /\ (forall obj interval,
          AudioRecordingService.recordingInstance s = Some obj ->
          AudioRecordingService._statusUpdateInterval obj = Some interval ->
          Timers.is_active interval (AudioRecordingService.timers s') = false)
    /\ result AudioRecordingService.dispose s' = Returns tt
    /\ exec AudioRecordingService.dispose s' = s'.
Proof.
  intros s. cbv zeta.
  destruct s as [inst rec tm nobj cl].
  recorder_unfold.
  destruct inst as [[id [interval |]] |]; recorder_simpl; repeat split;
    try reflexivity;
    intros obj i H1 H2; try discriminate H1;
    injection H1 as <-; cbn in H2; try discriminate H2;
    injection H2 as <-; apply clearInterval_inactive.
Qed.

(** X5: [cancel()] resets the session only when nothing fails.  Without a
    handle it makes no native call, returns and leaves a new session with
    the same config.  With a handle whose [stopAndUnloadAsync] resolves it
    drops the handle and leaves a new session likewise.  With a handle whose
    [stopAndUnloadAsync] rejects it throws, keeps the handle, keeps the uri
    and leaves the session in state Error. *)
Theorem cancel_spec :
  forall (s : AudioRecordingService.t)
         (r_stop : native AudioRecordingService.ExpoRecordingStatus),
    let s' := exec (AudioRecordingService.cancel r_stop) s in
    let fresh :=
      AudioRecording.new (AudioRecording.config (AudioRecordingService.recording s)) in
    (AudioRecordingService.recordingInstance s = None ->
     result (AudioRecordingService.cancel r_stop) s = Returns tt
     /\ AudioRecordingService.recording s' = fresh
     /\ AudioRecordingService.calls s' = AudioRecordingService.calls s)
    /\ (forall obj status,
          AudioRecordingService.recordingInstance s = Some obj ->
          r_stop = Resolves status ->
          result (AudioRecordingService.cancel r_stop) s = Returns tt
          /\ AudioRecordingService.recording s' = fresh
          /\ AudioRecordingService.recordingInstance s' = None
          /\ AudioRecordingService.calls s'
             = (AudioRecordingService.calls s
                  ++ [AudioRecordingService.stopAndUnloadAsync
                        (AudioRecordingService.object_id obj)])%list)
    /\ (forall obj v,
          AudioRecordingService.recordingInstance s = Some obj ->
          r_stop = Rejects v ->
          result (AudioRecordingService.cancel r_stop) s
          = Throws (ThrownError (instanceof_Error_or "Failed to cancel recording" v))
          /\ AudioRecording.state (AudioRecordingService.recording s')
             = AudioRecordingState.ERROR
          /\ AudioRecording.uri (AudioRecordingService.recording s')
             = AudioRecording.uri (AudioRecordingService.recording s)
          /\ AudioRecordingService.recordingInstance s' = Some obj).
Proof.
  intros s r_stop. cbv zeta.
  destruct s as [inst rec tm nobj cl].
  unfold AudioRecording.state, AudioRecording.uri.
  recorder_unfold.
  destruct inst as [obj0 |]; destruct r_stop as [status0 | v0]; recorder_simpl;
    repeat split; intros; try discriminate; try reflexivity;
    repeat match goal with
           | H : Some _ = Some _ |- _ => injection H as <-
           | H : Resolves _ = Resolves _ |- _ => injection H as <-
           | H : Rejects _ = Rejects _ |- _ => injection H as <-
           end;
    reflexivity.
Qed.

(** X6: a poll tick of the recording coordinator never throws and never
    changes the session's state, uri or error, nor the held handle.  When
    its timer is active it clears that timer if no handle is held, if the
    native status call rejects, or if the status says recording has ended;
    while the status says recording goes on it leaves the timers alone and
    stores the reported duration. *)
Theorem recorder_tick_spec :
  forall (s : AudioRecordingService.t) (interval : nat)
         (r_status : native AudioRecordingService.ExpoRecordingStatus),
    let s' := exec (AudioRecordingService.tick interval r_status) s in
    result (AudioRecordingService.tick interval r_status) s = Returns tt
    /\ AudioRecording.state (AudioRecordingService.recording s')
       = AudioRecording.state (AudioRecordingService.recording s)
    /\ AudioRecording.uri (AudioRecordingService.recording s')
       = AudioRecording.uri (AudioRecordingService.recording s)
    /\ AudioRecording.error (AudioRecordingService.recording s')
       = AudioRecording.error (AudioRecordingService.recording s)
    /\ AudioRecordingService.recordingInstance s'
       = AudioRecordingService.recordingInstance s
    /\ (Timers.is_active interval (AudioRecordingService.timers s) = true ->
        (AudioRecordingService.recordingInstance s = None
         \/ (exists v, r_status = Rejects v)
         \/ (exists status, r_status = Resolves status
                            /\ AudioRecordingService.isRecording status = false)) ->
        Timers.is_active interval (AudioRecordingService.timers s') = false)
    /\ (forall obj status,
          Timers.is_active interval (AudioRecordingService.timers s) = true ->
          AudioRecordingService.recordingInstance s = Some obj ->
          r_status = Resolves status ->
          AudioRecordingService.isRecording status = true ->
          AudioRecordingService.timers s' = AudioRecordingService.timers s
          /\ AudioRecording.duration (AudioRecordingService.recording s')
             = or_zero (AudioRecordingService.durationMillis status)).
Proof.
  intros s interval r_status. cbv zeta.
  destruct s as [inst rec tm nobj cl].
  unfold AudioRecording.state, AudioRecording.uri, AudioRecording.error,
    AudioRecording.duration.
  recorder_unfold. recorder_simpl.
  destruct (Timers.is_active interval tm) eqn:Hact; recorder_simpl;
    [| repeat (split; [reflexivity |]); split; intros; discriminate].
  destruct inst as [obj0 |]; [destruct r_status as [st0 | v0] |]; recorder_simpl;
    [destruct (AudioRecordingService.isRecording st0) eqn:Hrec | |]; recorder_simpl;
    repeat (split; [reflexivity |]); (split; [intros _ Hwhy | intros obj st _ H1 H2 H3]).
  - destruct Hwhy as [H | [[v H] | [st [H Hr]]]]; try discriminate H.
    injection H as <-. rewrite Hr in Hrec. discriminate Hrec.
  - injection H2 as <-. split; reflexivity.
  - apply clearInterval_inactive.
  - injection H2 as <-. rewrite H3 in Hrec. discriminate Hrec.
  - apply clearInterval_inactive.
  - discriminate H2.
  - apply clearInterval_inactive.
  - discriminate H1.
Qed.

(** X7: from any state of the recording coordinator, also Error, a
    [prepare()] and a [start()] whose native calls resolve bring the session
    to Recording: [prepare()] leaves it Idle with the uri untouched,
    [start()] returns the reported uri or the empty string, holds the newly
    constructed object and has a poll timer running for it.  The error
    recorded earlier is not cleared on the way. *)
Theorem prepare_start_recovers :
  forall (s : AudioRecordingService.t)
         (status : AudioRecordingService.ExpoRecordingStatus),
    let s1 := exec (AudioRecordingService.prepare (Resolves tt)) s in
    let s2 := exec (AudioRecordingService.start (Resolves tt) (Resolves status)) s1 in
    result (AudioRecordingService.prepare (Resolves tt)) s = Returns tt
    /\ AudioRecording.state (AudioRecordingService.recording s1) = AudioRecordingState.IDLE
    /\ AudioRecording.uri (AudioRecordingService.recording s1)
       = AudioRecording.uri (AudioRecordingService.recording s)
    /\ result (AudioRecordingService.start (Resolves tt) (Resolves status)) s1
       = Returns (or_empty (AudioRecordingService.uri status))
    /\ AudioRecording.state (AudioRecordingService.recording s2)
       = AudioRecordingState.RECORDING
    /\ AudioRecording.hasError (AudioRecordingService.recording s2) = false
    /\ AudioRecording.error (AudioRecordingService.recording s2)
       = AudioRecording.error (AudioRecordingService.recording s)
    /\ AudioRecordingService.recordingInstance s2
       = Some {| AudioRecordingService.object_id := AudioRecordingService.next_object s;
                 AudioRecordingService._statusUpdateInterval :=
                   Some (Timers.next (AudioRecordingService.timers s)) |}
    /\ Timers.is_active (Timers.next (AudioRecordingService.timers s))
         (AudioRecordingService.timers s2) = true.
Proof.
  intros s status. cbv zeta.
  destruct s as [inst rec [act next] nobj cl].
  unfold AudioRecording.state, AudioRecording.uri, AudioRecording.error,
    AudioRecording.hasError.
  recorder_unfold. unfold Timers.setInterval, Timers.is_active, or_empty.
  destruct status as [cr ir idr dm [u |]]; cbn -[or_zero truthy_string];
    [destruct (truthy_string u) eqn:Ht |];
    cbn -[or_zero truthy_string]; rewrite ?Nat.eqb_refl; repeat split; reflexivity.
Qed.

(** ** The playback coordinator *)

Ltac playback_simpl_all :=
  cbn -[Timers.clearInterval Timers.is_active Timers.setInterval or_zero Math_max Math_min
        AudioPlayback.canPlay AudioPlayback.canPause AudioPlayback.canStop
        AudioPlayback.canSeek instanceof_Error_or] in *.

Ltac playback_simpl' :=
  cbn -[Timers.clearInterval Timers.is_active Timers.setInterval or_zero Math_max Math_min
        AudioPlayback.canPlay AudioPlayback.canPause AudioPlayback.canStop
        AudioPlayback.canSeek instanceof_Error_or].

(** X8: an operation of the playback coordinator that throws always throws
    an [Error] object, leaves the session in state Error and records that
    same error on it. *)
Theorem player_failure_is_recorded :
  forall (s : AudioPlaybackService.t) (o : AudioPlaybackService.op) (v : thrown),
    AudioPlaybackService.outcome s o = Throws v ->
    exists err : Error,
      v = ThrownError err
      /\ AudioPlayback.state (AudioPlaybackService.playback (AudioPlaybackService.step s o))
         = AudioPlaybackState.ERROR
      /\ AudioPlayback.error (AudioPlaybackService.playback (AudioPlaybackService.step s o))
         = Some err
      /\ AudioPlayback.hasError
           (AudioPlaybackService.playback (AudioPlaybackService.step s o)) = true.
Proof.
  intros s o v.
  unfold AudioPlayback.state, AudioPlayback.error, AudioPlayback.hasError.
  destruct s as [inst pb timer tm nobj cl].
  destruct o; cbn [AudioPlaybackService.outcome AudioPlaybackService.step];
    playback_unfold; playback_simpl';
    repeat (split_match; playback_simpl');
    intros H; try discriminate H;
    repeat (split_hyp_match; playback_simpl_all);
    try discriminate H;
    injection H as <-; eexists; repeat split; reflexivity.
Qed.

Lemma player_failure_is_recorded_witness :
  exists err : Error,
    ThrownError (mkError "Cannot pause audio") = ThrownError err
    /\ AudioPlayback.state
         (AudioPlaybackService.playback
            (AudioPlaybackService.step loaded_player (AudioPlaybackService.Pause (Resolves tt))))
       = AudioPlaybackState.ERROR
    /\ AudioPlayback.error
         (AudioPlaybackService.playback
            (AudioPlaybackService.step loaded_player (AudioPlaybackService.Pause (Resolves tt))))
       = Some err
    /\ AudioPlayback.hasError
         (AudioPlaybackService.playback
            (AudioPlaybackService.step loaded_player (AudioPlaybackService.Pause (Resolves tt))))
       = true.
Proof.
  exact (player_failure_is_recorded loaded_player
           (AudioPlaybackService.Pause (Resolves tt))
           (ThrownError (mkError "Cannot pause audio")) eq_refl).
Defined.

(** X11: [dispose()] of the playback coordinator never throws and makes no
    native call (the sound is dropped, not unloaded); it clears the recorded
    poll timer and leaves the session as a new one with the same options.
    Calling it twice is the same as calling it once. *)
Theorem player_dispose_spec :
  forall s : AudioPlaybackService.t,
    let s' := exec AudioPlaybackService.dispose s in
    result AudioPlaybackService.dispose s = Returns tt
    /\ AudioPlaybackService.playback s'
       = AudioPlayback.new (AudioPlayback.options (AudioPlaybackService.playback s))
    /\ AudioPlaybackService.soundInstance s' = None
    /\ AudioPlaybackService.statusUpdateInterval s' = None
    /\ AudioPlaybackService.calls s' = AudioPlaybackService.calls s
    /\ (forall interval,
          AudioPlaybackService.statusUpdateInterval s = Some interval ->
          Timers.is_active interval (AudioPlaybackService.timers s') = false)
    /\ result AudioPlaybackService.dispose s' = Returns tt
    /\ exec AudioPlaybackService.dispose s' = s'.
Proof.
  intros s. cbv zeta.
  destruct s as [inst pb timer tm nobj cl].
  playback_unfold.
  destruct timer as [i |]; playback_simpl';
    repeat (split; [reflexivity |]); (split; [| split; reflexivity]);
    intros interval H; [injection H as <-; apply clearInterval_inactive | discriminate H].
Qed.

(** X10: the outcomes of [load(uri)].  With no sound held and resolving
    native calls it returns, holds the newly created sound, sets the uri and
    starts a poll timer; the state is Ready when the native status is loaded
    and stays Loading when it is not.  With a sound held whose [unloadAsync]
    rejects it throws without creating anything and keeps the prior sound.
    With a sound held that is unloaded but whose replacement cannot be
    created it throws and the coordinator is left with no sound, no uri and
    no poll timer. *)
Theorem load_outcomes :
  forall (s : AudioPlaybackService.t) (uri : string),
    (forall status,
       AudioPlaybackService.soundInstance s = None ->
       let s' := exec (AudioPlaybackService.load uri (Resolves tt) (Resolves tt)
                         (Resolves status)) s in
       result (AudioPlaybackService.load uri (Resolves tt) (Resolves tt) (Resolves status)) s
       = Returns tt
       /\ AudioPlaybackService.soundInstance s'
          = Some {| AudioPlaybackService.object_id := AudioPlaybackService.next_object s |}
       /\ AudioPlayback.uri (AudioPlaybackService.playback s') = Some uri
       /\ AudioPlaybackService.statusUpdateInterval s'
          = Some (Timers.next (AudioPlaybackService.timers s))
       /\ AudioPlayback.state (AudioPlaybackService.playback s')
          = match status with
            | AudioPlaybackService.Loaded _ => AudioPlaybackState.READY
            | AudioPlaybackService.NotLoaded _ => AudioPlaybackState.LOADING
            end)
    /\ (forall sound v r_create r_status,
          AudioPlaybackService.soundInstance s = Some sound ->
          let s' := exec (AudioPlaybackService.load uri (Rejects v) r_create r_status) s in
          result (AudioPlaybackService.load uri (Rejects v) r_create r_status) s
          = Throws (ThrownError (instanceof_Error_or "Failed to unload audio" v))
          /\ AudioPlaybackService.soundInstance s' = Some sound
          /\ AudioPlaybackService.calls s'
             = (AudioPlaybackService.calls s
                  ++ [AudioPlaybackService.unloadAsync
                        (AudioPlaybackService.object_id sound)])%list
          /\ AudioPlayback.state (AudioPlaybackService.playback s')
             = AudioPlaybackState.ERROR)
    /\ (forall sound v r_status,
          AudioPlaybackService.soundInstance s = Some sound ->
          let s' := exec (AudioPlaybackService.load uri (Resolves tt) (Rejects v)
                            r_status) s in
          result (AudioPlaybackService.load uri (Resolves tt) (Rejects v) r_status) s
          = Throws (ThrownError (instanceof_Error_or "Failed to load audio" v))
          /\ AudioPlaybackService.soundInstance s' = None
          /\ AudioPlayback.uri (AudioPlaybackService.playback s') = None
          /\ AudioPlaybackService.statusUpdateInterval s' = None
          /\ AudioPlayback.state (AudioPlaybackService.playback s')
             = AudioPlaybackState.ERROR).
Proof.
  intros s uri.
  destruct s as [inst pb timer tm nobj cl].
  unfold AudioPlayback.uri, AudioPlayback.state.
  split; [| split].
  - intros status Hs. cbn in Hs. subst inst. cbv zeta.
    playback_unfold. destruct status as [e | st]; playback_simpl'; repeat split; reflexivity.
  - intros sound v r_create r_status Hs. cbn in Hs. subst inst. cbv zeta.
    playback_unfold. playback_simpl'.
    destruct v as [e |]; repeat split; reflexivity.
  - intros sound v r_status Hs. cbn in Hs. subst inst. cbv zeta.
    playback_unfold. destruct timer as [i |]; playback_simpl';
      destruct v as [e |]; repeat split; reflexivity.
Qed.

Lemma or_zero_number (o : option number) : or_zero o <> NaN.
Proof.
  destruct o as [[| q] |]; cbn; try discriminate.
  destruct (Qeq_bool q 0%Q); discriminate.
Qed.

(** A write of a finite position, in a session whose duration is finite,
    leaves the position inside the clip. *)
Lemma setPosition_in_clip (x : number) (p : AudioPlayback.t) :
  x <> NaN -> AudioPlayback._duration p <> NaN ->
  AudioPlaybackService.position_in_clip (AudioPlayback.setPosition x p).
Proof.
  unfold AudioPlaybackService.position_in_clip, AudioPlayback.position,
    AudioPlayback.duration, AudioPlayback.setPosition.
  cbn [AudioPlayback._position AudioPlayback._duration].
  destruct x as [| x]; [intros H; exfalso; apply H; reflexivity | intros _].
  destruct (AudioPlayback._duration p) as [| d];
    [intros H; exfalso; apply H; reflexivity | intros _].
  cbn [Math_max Math_min Number_le].
  split; [apply Qclamp_nonneg |].
  apply Q.max_le_compat_l. apply Q.le_min_r.
Qed.

Lemma reset_in_clip (p : AudioPlayback.t) :
  AudioPlaybackService.position_in_clip (AudioPlayback.reset p).
Proof.
  unfold AudioPlaybackService.position_in_clip. cbn. split; discriminate.
Qed.

Lemma in_clip_same (p q : AudioPlayback.t) :
  AudioPlayback._position q = AudioPlayback._position p ->
  AudioPlayback._duration q = AudioPlayback._duration p ->
  AudioPlaybackService.position_in_clip p ->
  AudioPlaybackService.position_in_clip q.
Proof.
  unfold AudioPlaybackService.position_in_clip, AudioPlayback.position,
    AudioPlayback.duration.
  intros -> ->. exact (fun H => H).
Qed.

Lemma in_clip_duration (p : AudioPlayback.t) :
  AudioPlaybackService.position_in_clip p -> AudioPlayback._duration p <> NaN.
Proof.
  unfold AudioPlaybackService.position_in_clip, AudioPlayback.position,
    AudioPlayback.duration.
  intros [_ H] E. rewrite E in H.
  destruct (AudioPlayback._position p); exact H.
Qed.

Lemma clip_step (s : AudioPlaybackService.t) (o : AudioPlaybackService.op) :
  AudioPlaybackService.seeks_a_number o ->
  AudioPlaybackService.position_in_clip (AudioPlaybackService.playback s) ->
  AudioPlaybackService.position_in_clip
    (AudioPlaybackService.playback (AudioPlaybackService.step s o)).
Proof.
  intros Ho H.
  destruct s as [inst pb timer tm nobj cl].
  cbn [AudioPlaybackService.playback] in H.
  pose proof (in_clip_duration pb H) as Hd.
  destruct o; cbn [AudioPlaybackService.step AudioPlaybackService.seeks_a_number] in *;
    playback_unfold;
    cbn -[Timers.clearInterval Timers.is_active Timers.setInterval or_zero Math_max Math_min
          AudioPlayback.canPlay AudioPlayback.canPause AudioPlayback.canStop
          AudioPlayback.canSeek instanceof_Error_or AudioPlayback.setPosition
          AudioPlayback.reset];
    repeat (split_match;
            cbn -[Timers.clearInterval Timers.is_active Timers.setInterval or_zero Math_max
                  Math_min AudioPlayback.canPlay AudioPlayback.canPause AudioPlayback.canStop
                  AudioPlayback.canSeek instanceof_Error_or AudioPlayback.setPosition
                  AudioPlayback.reset]);
    first
      [ exact H
      | apply reset_in_clip
      | apply setPosition_in_clip;
        first [apply or_zero_number | discriminate | exact Ho
              | cbn; first [apply or_zero_number | exact Hd]]
      | (eapply in_clip_same; [reflexivity | reflexivity |]);
        first [ exact H
              | apply reset_in_clip
              | apply setPosition_in_clip;
                first [apply or_zero_number | discriminate | exact Ho
                      | cbn; first [apply or_zero_number | exact Hd]] ] ].
Qed.

Lemma in_clip_progress (p : AudioPlayback.t) :
  AudioPlaybackService.position_in_clip p ->
  Number_le 0%Q (AudioPlayback.progress p) /\ Number_le (AudioPlayback.progress p) 1%Q.
Proof.
  unfold AudioPlaybackService.position_in_clip, AudioPlayback.progress,
    AudioPlayback.position, AudioPlayback.duration.
  destruct (AudioPlayback._position p) as [| x];
    destruct (AudioPlayback._duration p) as [| d];
    cbn [Math_max Number_le Number_eqb divided_by]; try tauto.
  intros [H0 H1].
  destruct (Qeq_bool d 0%Q) eqn:E; cbn [Number_le].
  - split; [apply Qle_refl | discriminate].
  - apply Qeq_bool_neq in E.
    destruct (Qlt_le_dec 0%Q d) as [Hpos | Hneg].
    + rewrite Q.max_r in H1 by (apply Qlt_le_weak; exact Hpos).
      split.
      * apply Qle_shift_div_l; [exact Hpos |]. rewrite Qmult_0_l. exact H0.
      * apply Qle_shift_div_r; [exact Hpos |]. rewrite Qmult_1_l. exact H1.
    + rewrite Q.max_l in H1 by exact Hneg.
      assert (Hz : (x == 0)%Q) by (apply Qle_antisym; assumption).
      rewrite Hz. unfold Qdiv. rewrite Qmult_0_l.
      split; [apply Qle_refl | discriminate].
Qed.

(** X12: an operation of the playback coordinator other than a [seek(NaN)]
    keeps the position inside the clip: between 0 and the duration, and at 0
    when the duration is not positive.  So in every state reached from a new
    session by operations whose [seek] arguments are finite the position is
    inside the clip and the derived progress is between 0 and 1.  A
    [seek(NaN)] that the guard and the native call accept stores NaN as the
    position. *)
Theorem player_position_in_clip :
  forall (options : AudioPlaybackOptions) (ops : list AudioPlaybackService.op),
    let p := AudioPlaybackService.playback
               (AudioPlaybackService.run ops
                  (AudioPlaybackService.new (AudioPlayback.new options))) in
    (forall (s : AudioPlaybackService.t) (o : AudioPlaybackService.op),
        AudioPlaybackService.seeks_a_number o ->
        AudioPlaybackService.position_in_clip (AudioPlaybackService.playback s) ->
        AudioPlaybackService.position_in_clip
          (AudioPlaybackService.playback (AudioPlaybackService.step s o)))
    /\ (Forall AudioPlaybackService.seeks_a_number ops ->
        Number_le 0%Q (AudioPlayback.position p)
        /\ Number_le (AudioPlayback.position p) (Math_max 0%Q (AudioPlayback.duration p))
        /\ Number_le 0%Q (AudioPlayback.progress p)
        /\ Number_le (AudioPlayback.progress p) 1%Q)
    /\ (forall s : AudioPlaybackService.t,
          AudioPlaybackService.soundInstance s <> None ->
          AudioPlayback.canSeek (AudioPlaybackService.playback s) = true ->
          AudioPlayback.position
            (AudioPlaybackService.playback
               (AudioPlaybackService.step s (AudioPlaybackService.Seek NaN (Resolves tt))))
          = NaN).
Proof.
  intros options ops. cbv zeta.
  split; [exact clip_step |].
  split.
  - intros Hops.
    assert (G : forall s0,
               AudioPlaybackService.position_in_clip (AudioPlaybackService.playback s0) ->
               AudioPlaybackService.position_in_clip
                 (AudioPlaybackService.playback (AudioPlaybackService.run ops s0))).
    { induction ops as [| o ops IH]; intros s0 H0; [exact H0 |].
      inversion Hops as [| o' ops' Ho Hrest]; subst.
      cbn [AudioPlaybackService.run fold_left]. apply IH; [exact Hrest |].
      apply clip_step; assumption. }
    specialize (G (AudioPlaybackService.new (AudioPlayback.new options))).
    assert (Hinit : AudioPlaybackService.position_in_clip
                      (AudioPlaybackService.playback
                         (AudioPlaybackService.new (AudioPlayback.new options)))).
    { unfold AudioPlaybackService.position_in_clip. cbn. split; discriminate. }
    specialize (G Hinit).
    pose proof (in_clip_progress _ G) as [P0 P1].
    destruct G as [G0 G1].
    repeat split; assumption.
  - intros s Hs Hseek.
    destruct s as [[sound |] pb timer tm nobj cl];
      [| exfalso; apply Hs; reflexivity].
    cbn [AudioPlaybackService.playback] in Hseek.
    cbn [AudioPlaybackService.step]. playback_unfold.
    cbn -[Timers.clearInterval Timers.is_active Timers.setInterval or_zero Math_max Math_min
          AudioPlayback.canPlay AudioPlayback.canPause AudioPlayback.canStop
          AudioPlayback.canSeek instanceof_Error_or].
    rewrite Hseek. reflexivity.
Qed.

(** A player after [load()], [seek(3000)]: the position is inside the clip. *)
Lemma player_position_in_clip_witness :
  let p := AudioPlaybackService.playback
             (AudioPlaybackService.run
                [load_ok "a.mp3"; AudioPlaybackService.Seek 3000%Q (Resolves tt)]
                (AudioPlaybackService.new
                   (AudioPlayback.new AudioConstants.DEFAULT_PLAYBACK_OPTIONS))) in
  Number_le 0%Q (AudioPlayback.position p)
  /\ Number_le (AudioPlayback.position p) (Math_max 0%Q (AudioPlayback.duration p))
  /\ Number_le 0%Q (AudioPlayback.progress p)
  /\ Number_le (AudioPlayback.progress p) 1%Q.
Proof.
  refine (proj1 (proj2 (player_position_in_clip AudioConstants.DEFAULT_PLAYBACK_OPTIONS
                          [load_ok "a.mp3"; AudioPlaybackService.Seek 3000%Q (Resolves tt)])) _).
  repeat apply Forall_cons; try apply Forall_nil; cbn; try exact I. discriminate.
Defined.

(** [stop()] writes the position 0, which a finite duration keeps. *)
Lemma Math_clamp_zero (d : number) : d <> NaN -> Math_max 0%Q (Math_min 0%Q d) = 0%Q.
Proof.
  destruct d as [| d]; [intros H; exfalso; apply H; reflexivity | intros _].
  cbn [Math_max Math_min]. f_equal.
  unfold Qmax, Qmin, GenericMinMax.gmax, GenericMinMax.gmin.
  destruct (0 ?= d)%Q eqn:E; try reflexivity.
  destruct (0 ?= d)%Q eqn:E'; try reflexivity; discriminate.
Qed.

(** X13: the guards of the playback transport.  Each of [play()], [pause()],
    [stop()] and [seek(p)] returns normally exactly when a sound is held,
    the matching [can*] getter holds and the native call resolves.  On
    success the state is Playing, Paused or Stopped (and unchanged by a
    seek); [stop()] puts the position at 0 (it stores
    [Math.max(0, Math.min(0, duration))], which is 0 unless the duration is
    NaN); [seek(p)] hands [p] itself to the native call and stores
    [Math.max(0, Math.min(p, duration))]. *)
Theorem playback_guards :
  forall (s : AudioPlaybackService.t) (r : native unit) (p : number),
    (result (AudioPlaybackService.play r) s = Returns tt
     <-> (AudioPlaybackService.soundInstance s <> None
          /\ AudioPlayback.canPlay (AudioPlaybackService.playback s) = true
          /\ r = Resolves tt))
    /\ (result (AudioPlaybackService.play r) s = Returns tt ->
        AudioPlayback.state
          (AudioPlaybackService.playback (exec (AudioPlaybackService.play r) s))
        = AudioPlaybackState.PLAYING)
    /\ (result (AudioPlaybackService.pause r) s = Returns tt
        <-> (AudioPlaybackService.soundInstance s <> None
             /\ AudioPlayback.canPause (AudioPlaybackService.playback s) = true
             /\ r = Resolves tt))
    /\ (result (AudioPlaybackService.pause r) s = Returns tt ->
        AudioPlayback.state
          (AudioPlaybackService.playback (exec (AudioPlaybackService.pause r) s))
        = AudioPlaybackState.PAUSED)
    /\ (result (AudioPlaybackService.stop r) s = Returns tt
        <-> (AudioPlaybackService.soundInstance s <> None
             /\ AudioPlayback.canStop (AudioPlaybackService.playback s) = true
             /\ r = Resolves tt))
    /\ (result (AudioPlaybackService.stop r) s = Returns tt ->
        AudioPlayback.state
          (AudioPlaybackService.playback (exec (AudioPlaybackService.stop r) s))
        = AudioPlaybackState.STOPPED
        /\ AudioPlayback.position
             (AudioPlaybackService.playback (exec (AudioPlaybackService.stop r) s))
           = Math_max 0%Q
               (Math_min 0%Q (AudioPlayback.duration (AudioPlaybackService.playback s)))
        /\ (AudioPlayback.duration (AudioPlaybackService.playback s) <> NaN ->
            AudioPlayback.position
              (AudioPlaybackService.playback (exec (AudioPlaybackService.stop r) s))
            = 0%Q))
    /\ (result (AudioPlaybackService.seek p r) s = Returns tt
        <-> (AudioPlaybackService.soundInstance s <> None
             /\ AudioPlayback.canSeek (AudioPlaybackService.playback s) = true
             /\ r = Resolves tt))
    /\ (forall sound,
          AudioPlaybackService.soundInstance s = Some sound ->
          result (AudioPlaybackService.seek p r) s = Returns tt ->
          let s' := exec (AudioPlaybackService.seek p r) s in
          AudioPlayback.state (AudioPlaybackService.playback s')
          = AudioPlayback.state (AudioPlaybackService.playback s)
          /\ AudioPlayback.position (AudioPlaybackService.playback s')
             = Math_max 0%Q (Math_min p (AudioPlayback.duration (AudioPlaybackService.playback s)))
          /\ AudioPlaybackService.calls s'
             = (AudioPlaybackService.calls s
                  ++ [AudioPlaybackService.setPositionAsync
                        (AudioPlaybackService.object_id sound) p])%list).
Proof.
  intros s r p.
  destruct s as [inst pb timer tm nobj cl].
  unfold AudioPlayback.state, AudioPlayback.position, AudioPlayback.duration.
  playback_unfold. playback_simpl'.
  destruct inst as [sound0 |]; destruct r as [[] | v];
    destruct (AudioPlayback.canPlay pb) eqn:Hplay;
    destruct (AudioPlayback.canPause pb) eqn:Hpause;
    destruct (AudioPlayback.canStop pb) eqn:Hstop;
    destruct (AudioPlayback.canSeek pb) eqn:Hseek;
    playback_simpl';
    repeat match goal with
           | |- _ /\ _ => split
           | |- _ <-> _ => split
           end;
    intros;
    repeat match goal with
           | H : _ /\ _ |- _ => destruct H
           | H : Some _ = Some _ |- _ => injection H as <-
           end;
    try discriminate; try congruence; try reflexivity;
    try (apply Math_clamp_zero; assumption);
    try (repeat split; try reflexivity; try discriminate;
         first [congruence | apply Math_clamp_zero; assumption]).
Qed.

(** * Further properties of the entities *)

(** X14: [AudioPlayback.toResult()] throws 'No playback URI available'
    exactly when the uri is null or the empty string, otherwise returns
    [{uri, duration, position, status = state}], and never changes the
    session.  [canPlay] and [canSeek] only test the uri against null, so a
    session they accept still has no result exactly when its uri is the
    empty string. *)
Theorem playback_toResult_spec :
  forall p : AudioPlayback.t,
    (result AudioPlayback.toResult p
       = Throws (ThrownError (mkError "No playback URI available"))
     <-> (AudioPlayback.uri p = None \/ AudioPlayback.uri p = Some ""))
    /\ (forall u, AudioPlayback.uri p = Some u -> u <> "" ->
          result AudioPlayback.toResult p
          = Returns {| pr_uri := u;
                       pr_duration := AudioPlayback.duration p;
                       pr_position := AudioPlayback.position p;
                       pr_status := AudioPlayback.state p |})
    /\ exec AudioPlayback.toResult p = p
    /\ (AudioPlayback.canPlay p = true \/ AudioPlayback.canSeek p = true ->
        (result AudioPlayback.toResult p
           = Throws (ThrownError (mkError "No playback URI available"))
         <-> AudioPlayback.uri p = Some "")).
Proof.
  intros p.
  unfold result, exec, AudioPlayback.toResult, AudioPlayback.canPlay,
    AudioPlayback.canSeek, AudioPlayback.has_uri, AudioPlayback.uri,
    AudioPlayback.duration, AudioPlayback.position, AudioPlayback.state,
    AudioPlayback.no_uri, bind, gets, ret, throw.
  cbn [fst snd].
  destruct (AudioPlayback._uri p) as [u |] eqn:Hu.
  - destruct (truthy_string u) eqn:Ht; cbn [negb fst snd].
    + apply truthy_string_true in Ht.
      split; [split; [discriminate | intros [H | H]; [discriminate | congruence]] |].
      split; [intros u' H _; injection H as <-; reflexivity |].
      split; [reflexivity |].
      intros _. split; [discriminate | congruence].
    + apply truthy_string_false in Ht. subst u.
      split; [split; [intros _; right; reflexivity | reflexivity] |].
      split; [intros u' H Hne; injection H as <-; exfalso; apply Hne; reflexivity |].
      split; [reflexivity |].
      intros _. split; reflexivity.
  - split; [split; [intros _; left; reflexivity | reflexivity] |].
    split; [discriminate |].
    split; [reflexivity |].
    cbn [andb]. intros [H | H]; discriminate H.
Qed.

(** X15: rebuilding a session from metadata.  [AudioRecording.fromMetadata]
    gives a Stopped session that may record again and cannot be stopped;
    [toMetadata()] on it gives back the uri and the duration of the
    metadata, with the format of the config and the dates of the call in
    place of the original ones, and throws when the metadata's uri is empty.
    [AudioPlayback.fromMetadata] gives a Ready session at position 0 that
    [canPlay] and [canSeek] accept whatever the uri. *)
Theorem fromMetadata_round_trip :
  forall (metadata : AudioMetadata) (config : AudioRecordingConfig)
         (options : AudioPlaybackOptions) (createdAt modifiedAt : Date),
    let r := AudioRecording.fromMetadata metadata config in
    let p := AudioPlayback.fromMetadata metadata options in
    AudioRecording.state r = AudioRecordingState.STOPPED
    /\ AudioRecording.canRecord r = true
    /\ AudioRecording.canStop r = false
    /\ (md_uri metadata <> "" ->
        result (AudioRecording.toMetadata createdAt modifiedAt) r
        = Returns {| md_uri := md_uri metadata;
                     md_duration := md_duration metadata;
                     md_format := Some (format config);
                     md_createdAt := Some createdAt;
                     md_modifiedAt := Some modifiedAt |}
        /\ result AudioRecording.toResult r
           = Returns {| rr_uri := md_uri metadata;
                        rr_duration := md_duration metadata;
                        rr_status := AudioRecordingState.STOPPED |}
        /\ result AudioPlayback.toResult p
           = Returns {| pr_uri := md_uri metadata;
                        pr_duration := md_duration metadata;
                        pr_position := 0%Q;
                        pr_status := AudioPlaybackState.READY |})
    /\ (md_uri metadata = "" ->
        result (AudioRecording.toMetadata createdAt modifiedAt) r
        = Throws (ThrownError (mkError "No recording URI available"))
        /\ result AudioPlayback.toResult p
           = Throws (ThrownError (mkError "No playback URI available")))
    /\ AudioPlayback.state p = AudioPlaybackState.READY
    /\ AudioPlayback.canPlay p = true
    /\ AudioPlayback.canSeek p = true
    /\ AudioPlayback.canPause p = false.
Proof.
  intros metadata config options createdAt modifiedAt. cbv zeta.
  unfold result, AudioRecording.toMetadata, AudioRecording.toResult,
    AudioPlayback.toResult, AudioRecording.fromMetadata, AudioPlayback.fromMetadata,
    bind, gets, ret, throw.
  cbn -[truthy_string].
  repeat (split; [reflexivity |]).
  split; [| split; [| repeat split; reflexivity]].
  - intros Hne. apply truthy_string_true in Hne. rewrite Hne. cbn.
    repeat split; reflexivity.
  - intros He. rewrite He. cbn. split; reflexivity.
Qed.

(** X16: how the [can*] getters of the two entities relate.  For a
    recording session: pausing or resuming being possible implies stopping
    is; recording anew and stopping are never both possible, nor are pausing
    and resuming; in state Error nothing is possible.  For a playback
    session: pausing implies stopping; playing and pausing are never both
    possible; a playable session is seekable unless it is Idle; in state
    Error nothing is possible. *)
Theorem can_getters_consistent :
  forall (r : AudioRecording.t) (p : AudioPlayback.t),
    (AudioRecording.canPause r = true -> AudioRecording.canStop r = true)
    /\ (AudioRecording.canResume r = true -> AudioRecording.canStop r = true)
    /\ AudioRecording.canRecord r && AudioRecording.canStop r = false
    /\ AudioRecording.canPause r && AudioRecording.canResume r = false
    /\ (AudioRecording.hasError r = true ->
        AudioRecording.canRecord r = false /\ AudioRecording.canPause r = false
        /\ AudioRecording.canStop r = false /\ AudioRecording.canResume r = false)
    /\ (AudioPlayback.canPause p = true -> AudioPlayback.canStop p = true)
    /\ AudioPlayback.canPlay p && AudioPlayback.canPause p = false
    /\ (AudioPlayback.canPlay p = true ->
        AudioPlayback.canSeek p = true
        \/ AudioPlayback.state p = AudioPlaybackState.IDLE)
    /\ (AudioPlayback.hasError p = true ->
        AudioPlayback.canPlay p = false /\ AudioPlayback.canPause p = false
        /\ AudioPlayback.canStop p = false /\ AudioPlayback.canSeek p = false).
Proof.
  intros r p.
  unfold AudioRecording.canPause, AudioRecording.canStop, AudioRecording.canResume,
    AudioRecording.canRecord, AudioRecording.hasError,
    AudioPlayback.canPause, AudioPlayback.canStop, AudioPlayback.canPlay,
    AudioPlayback.canSeek, AudioPlayback.hasError, AudioPlayback.has_uri,
    AudioPlayback.state.
  destruct (AudioRecording._state r); destruct (AudioPlayback._state p);
    destruct (AudioPlayback._uri p); cbn;
    repeat split; intros; try reflexivity; try discriminate;
    try (left; reflexivity); try (right; reflexivity).
Qed.

(** * Further properties of the helpers *)

Local Open Scope Q_scope.

(** [clamp] on finite numbers. *)
Lemma clamp_finite (v lo hi : Q) :
  AudioUtils.clamp v lo hi = Finite (Qmin (Qmax v lo) hi).
Proof. reflexivity. Qed.

Lemma clamp_NaN (v lo hi : number) :
  v = NaN \/ lo = NaN \/ hi = NaN -> AudioUtils.clamp v lo hi = NaN.
Proof.
  unfold AudioUtils.clamp.
  intros H. destruct v, lo, hi; try reflexivity.
  destruct H as [H | [H | H]]; discriminate H.
Qed.

Lemma clamp_upper (v lo hi : Q) : Qmin (Qmax v lo) hi <= hi.
Proof. apply Q.le_min_r. Qed.

Lemma clamp_lower (v lo hi : Q) : lo <= hi -> lo <= Qmin (Qmax v lo) hi.
Proof.
  intros H. apply Q.min_glb; [apply Q.le_max_r | exact H].
Qed.

Lemma clamp_inside (v lo hi : Q) :
  lo <= v -> v <= hi -> Qmin (Qmax v lo) hi == v.
Proof.
  intros H1 H2.
  assert (E : Qmax v lo == v) by (apply Q.max_l; exact H1).
  rewrite Q.min_l; [exact E |].
  rewrite E. exact H2.
Qed.

Lemma clamp_inverted (v lo hi : Q) : hi < lo -> Qmin (Qmax v lo) hi == hi.
Proof.
  intros H.
  apply Q.min_r. apply Qle_trans with lo; [apply Qlt_le_weak; exact H | apply Q.le_max_r].
Qed.

Lemma clamp_fixed_point (v lo hi : Q) :
  lo <= hi -> (Qmin (Qmax v lo) hi == v <-> lo <= v /\ v <= hi).
Proof.
  intros H. split.
  - intros E. split; rewrite <- E; [apply clamp_lower; exact H | apply clamp_upper].
  - intros [H1 H2]. apply clamp_inside; assumption.
Qed.

(** X17: for a finite value and finite bounds, [clamp(value, min, max)]
    never exceeds [max]; when [min <= max] it lies in [[min, max]], leaves a
    value of that range as it is and is idempotent; when the bounds are
    inverted it returns [max].  The range checks are its fixed points:
    [isValidVolume(v)] holds exactly when [clamp(v, 0, 1)] is [v], and
    [isValidPlaybackRate(r)] exactly when [clamp(r, 0.5, 2)] is [r].  When
    the value or a bound is NaN, [clamp] returns NaN; NaN is neither a valid
    volume nor a valid playback rate. *)
Theorem clamp_spec :
  forall v lo hi : Q,
    Number_le (AudioUtils.clamp v lo hi) hi
    /\ (lo <= hi -> Number_le lo (AudioUtils.clamp v lo hi))
    /\ (lo <= v -> v <= hi -> Number_eq (AudioUtils.clamp v lo hi) v)
    /\ (lo <= hi ->
        Number_eq (AudioUtils.clamp (AudioUtils.clamp v lo hi) lo hi)
          (AudioUtils.clamp v lo hi))
    /\ (hi < lo -> Number_eq (AudioUtils.clamp v lo hi) hi)
    /\ (AudioUtils.isValidVolume v = true <-> Number_eq (AudioUtils.clamp v 0 1) v)
    /\ (AudioUtils.isValidPlaybackRate v = true
        <-> Number_eq (AudioUtils.clamp v (1 # 2) 2) v)
    /\ (forall x a b : number,
          x = NaN \/ a = NaN \/ b = NaN -> AudioUtils.clamp x a b = NaN)
    /\ AudioUtils.isValidVolume NaN = false
    /\ AudioUtils.isValidPlaybackRate NaN = false.
Proof.
  intros v lo hi. rewrite !clamp_finite. cbn [Number_le Number_eq].
  split; [apply clamp_upper |].
  split; [apply clamp_lower |].
  split; [apply clamp_inside |].
  split; [intros H; apply clamp_inside; [apply clamp_lower; exact H | apply clamp_upper] |].
  split; [apply clamp_inverted |].
  unfold AudioUtils.isValidVolume, AudioUtils.isValidPlaybackRate.
  cbn [Number_leb].
  rewrite !andb_true_iff, !Qle_bool_iff.
  split; [rewrite clamp_fixed_point; [reflexivity | discriminate] |].
  split; [rewrite clamp_fixed_point; [reflexivity | discriminate] |].
  split; [exact clamp_NaN |].
  split; reflexivity.
Qed.

(** X18: the validators of the static [AudioUtils] class.  For a finite
    value, [validateVolume] returns a value in [[0, 1]] that
    [isValidVolume] accepts, and [validateRate] one in [[0.5, 2]] that
    [isValidPlaybackRate] accepts; both leave a value of the range as it is.
    In particular 1.5 and -0.2 become 1 and 0, and 3 and 0.1 become 2 and
    0.5.  Both return NaN for NaN, which the range checks reject. *)
Theorem validators_spec :
  forall v : Q,
    (Number_le 0 (Audio.AudioUtils.validateVolume v)
     /\ Number_le (Audio.AudioUtils.validateVolume v) 1)
    /\ AudioUtils.isValidVolume (Audio.AudioUtils.validateVolume v) = true
    /\ (AudioUtils.isValidVolume v = true ->
        Number_eq (Audio.AudioUtils.validateVolume v) v)
    /\ (Number_le (1 # 2) (Audio.AudioUtils.validateRate v)
        /\ Number_le (Audio.AudioUtils.validateRate v) 2)
    /\ AudioUtils.isValidPlaybackRate (Audio.AudioUtils.validateRate v) = true
    /\ (AudioUtils.isValidPlaybackRate v = true ->
        Number_eq (Audio.AudioUtils.validateRate v) v)
    /\ Audio.AudioUtils.validateVolume (3 # 2) = 1
    /\ Audio.AudioUtils.validateVolume (- (1 # 5)) = 0
    /\ Audio.AudioUtils.validateRate 3 = 2
    /\ Audio.AudioUtils.validateRate (1 # 10) = (1 # 2)
    /\ Audio.AudioUtils.validateVolume NaN = NaN
    /\ Audio.AudioUtils.validateRate NaN = NaN
    /\ AudioUtils.isValidVolume (Audio.AudioUtils.validateVolume NaN) = false
    /\ AudioUtils.isValidPlaybackRate (Audio.AudioUtils.validateRate NaN) = false.
Proof.
  intros v.
  change (Audio.AudioUtils.validateVolume v) with (Finite (Qmin (Qmax v 0) 1)).
  change (Audio.AudioUtils.validateRate v) with (Finite (Qmin (Qmax v (1 # 2)) 2)).
  assert (V0 : 0 <= Qmin (Qmax v 0) 1) by (apply clamp_lower; discriminate).
  assert (V1 : Qmin (Qmax v 0) 1 <= 1) by apply clamp_upper.
  assert (R0 : (1 # 2) <= Qmin (Qmax v (1 # 2)) 2) by (apply clamp_lower; discriminate).
  assert (R1 : Qmin (Qmax v (1 # 2)) 2 <= 2) by apply clamp_upper.
  unfold AudioUtils.isValidVolume, AudioUtils.isValidPlaybackRate.
  cbn [Number_leb Number_le Number_eq].
  rewrite !andb_true_iff, !Qle_bool_iff.
  repeat split; try assumption; try reflexivity.
  - intros [H1 H2]. apply clamp_inside; assumption.
  - intros [H1 H2]. apply clamp_inside; assumption.
Qed.

(** X19: what [toExpoRecordingConfig] sends to the platforms.  On Android
    the output format is always MPEG-4 (0x10000) and the encoder always AAC
    (0x8000), also for the formats whose table entry is 0x0, because the
    lookup falls back on the default for a zero entry; the iOS quality is
    always 192.  Both platforms get 2 channels for stereo and 1 otherwise,
    and the sample rate and bit rate of the config.  The Android maximum file
    size is absent when no maximum duration is configured or it is 0 (or
    NaN), and the duration times 1000000 otherwise.  The web MIME type is
    "audio/" followed by the format. *)
Theorem toExpoRecordingConfig_spec :
  forall config : AudioRecordingConfig,
    let o := AudioUtils.toExpoRecordingConfig config in
    AudioUtils.android_outputFormat (AudioUtils.android o) = 65536
    /\ AudioUtils.android_audioEncoder (AudioUtils.android o) = 32768
    /\ AudioUtils.ios_audioQuality (AudioUtils.ios o) = 192
    /\ AudioUtils.android_numberOfChannels (AudioUtils.android o)
       = match channel config with STEREO => 2 | MONO => 1 end
    /\ AudioUtils.ios_numberOfChannels (AudioUtils.ios o)
       = match channel config with STEREO => 2 | MONO => 1 end
    /\ AudioUtils.android_sampleRate (AudioUtils.android o) = sampleRate config
    /\ AudioUtils.ios_sampleRate (AudioUtils.ios o) = sampleRate config
    /\ AudioUtils.android_bitRate (AudioUtils.android o) = bitRate config
    /\ AudioUtils.ios_bitRate (AudioUtils.ios o) = bitRate config
    /\ AudioUtils.web_bitsPerSecond (AudioUtils.web o) = bitRate config
    /\ (AudioUtils.android_maxFileSize (AudioUtils.android o) = None
        <-> (maxDurationSeconds config = None
             \/ exists seconds,
                  maxDurationSeconds config = Some seconds
                  /\ (Number_eq seconds 0 \/ seconds = NaN)))
    /\ (forall seconds : Q,
          maxDurationSeconds config = Some (Finite seconds) -> ~ seconds == 0 ->
          AudioUtils.android_maxFileSize (AudioUtils.android o)
          = Some (Finite (seconds * 1000000)))
    /\ AudioUtils.ios_outputFormat (AudioUtils.ios o)
       = match format config with
         | AAC => ".aac" | MP3 => ".mp3" | WAV => ".wav" | MPEG4 => ".m4a"
         end
    /\ AudioUtils.web_mimeType (AudioUtils.web o)
       = ("audio/" ++ AudioFormat_value (format config))%string.
Proof.
  intros config. cbv zeta.
  unfold AudioUtils.toExpoRecordingConfig, AudioUtils.numberOfChannels.
  cbn [AudioUtils.android AudioUtils.ios AudioUtils.web
       AudioUtils.android_outputFormat AudioUtils.android_audioEncoder
       AudioUtils.ios_audioQuality AudioUtils.android_numberOfChannels
       AudioUtils.ios_numberOfChannels AudioUtils.android_sampleRate
       AudioUtils.ios_sampleRate AudioUtils.android_bitRate AudioUtils.ios_bitRate
       AudioUtils.web_bitsPerSecond AudioUtils.android_maxFileSize
       AudioUtils.ios_outputFormat AudioUtils.web_mimeType].
  split; [destruct (format config); reflexivity |].
  split; [destruct (format config); reflexivity |].
  split; [destruct (format config); reflexivity |].
  split; [destruct (channel config); reflexivity |].
  split; [destruct (channel config); reflexivity |].
  repeat (split; [reflexivity |]).
  split; [| split; [| split; [destruct (format config); reflexivity | reflexivity]]].
  - destruct (maxDurationSeconds config) as [[| seconds] |]; cbn [truthy_number].
    + split; [| reflexivity].
      intros _. right. exists NaN. split; [reflexivity | right; reflexivity].
    + destruct (Qeq_bool seconds 0) eqn:E; cbn [negb times].
      * apply Qeq_bool_iff in E. split; [| reflexivity].
        intros _. right. exists (Finite seconds). split; [reflexivity | left; exact E].
      * apply Qeq_bool_neq in E. split; [discriminate |].
        intros [H | [q [H [Hq | Hq]]]]; [discriminate H | |].
        -- injection H as <-. contradiction.
        -- subst q. discriminate H.
    + split; [intros _; left; reflexivity | reflexivity].
  - intros seconds H Hne. rewrite H. cbn [truthy_number].
    destruct (Qeq_bool seconds 0) eqn:E; [| reflexivity].
    apply Qeq_bool_iff in E. contradiction.
Qed.






(** * Properties of the permission helpers *)

(** X23: the permission queries never throw.  [getAudioPermissionStatus()]
    answers GRANTED when the native response says [granted], DENIED when it
    does not (also for a response whose status is 'undetermined'), and
    UNDETERMINED only when the native call rejects; [hasAudioPermission()]
    is true exactly for a resolved, granted response.  [isAudioModeSet()]
    returns whether [setAudioModeAsync] resolved, and it does call it, with
    recording allowed and playback in silent mode. *)
Theorem permission_queries_never_throw :
  forall (calls : PermissionUtils.t)
         (r_get : native PermissionUtils.PermissionResponse) (r_mode : native unit),
    result (PermissionUtils.getAudioPermissionStatus r_get) calls
    = Returns match r_get with
              | Resolves response =>
                  if PermissionUtils.granted response
                  then PermissionUtils.GRANTED else PermissionUtils.DENIED
              | Rejects _ => PermissionUtils.UNDETERMINED
              end
    /\ result (PermissionUtils.hasAudioPermission r_get) calls
       = Returns match r_get with
                 | Resolves response => PermissionUtils.granted response
                 | Rejects _ => false
                 end
    /\ exec (PermissionUtils.hasAudioPermission r_get) calls
       = (calls ++ [PermissionUtils.getPermissionsAsync])%list
    /\ result (PermissionUtils.isAudioModeSet r_mode) calls
       = Returns match r_mode with Resolves _ => true | Rejects _ => false end
    /\ exec (PermissionUtils.isAudioModeSet r_mode) calls
       = (calls ++ [PermissionUtils.setAudioModeAsync
                      {| PermissionUtils.allowsRecordingIOS := true;
                         PermissionUtils.playsInSilentModeIOS := true;
                         PermissionUtils.staysActiveInBackground := false;
                         PermissionUtils.playThroughEarpieceAndroid := false |}])%list.
Proof.
  intros calls r_get r_mode.
  unfold PermissionUtils.getAudioPermissionStatus, PermissionUtils.hasAudioPermission,
    PermissionUtils.isAudioModeSet, PermissionUtils.call.
  js_unfold.
  destruct r_get as [[st [|]] | v]; destruct r_mode as [[] | v']; cbn;
    repeat split; reflexivity.
Qed.

(** X24: [ensureAudioPermission()] returns normally exactly when the
    permission is already granted or the request that follows is answered
    with status 'granted'.  When it is already granted no request is made;
    otherwise exactly one request follows the query.  A request that rejects
    is rethrown as a PERMISSION_DENIED error carrying the cause, and one
    answered with another status as a PERMISSION_DENIED error 'Audio
    permission not granted'. *)
Theorem ensureAudioPermission_spec :
  forall (AudioErrorClass : string -> string -> option thrown -> thrown)
         (calls : PermissionUtils.t)
         (r_get r_request : native PermissionUtils.PermissionResponse),
    let ensure := PermissionUtils.ensureAudioPermission AudioErrorClass r_get r_request in
    let already :=
      match r_get with
      | Resolves response => PermissionUtils.granted response
      | Rejects _ => false
      end in
    (already = true ->
     result ensure calls = Returns tt
     /\ exec ensure calls = (calls ++ [PermissionUtils.getPermissionsAsync])%list)
    /\ (already = false ->
        exec ensure calls
        = (calls ++ [PermissionUtils.getPermissionsAsync;
                     PermissionUtils.requestPermissionsAsync])%list
        /\ result ensure calls
           = match r_request with
             | Resolves response =>
                 if String.eqb (PermissionUtils.status response) "granted"
                 then Returns tt
                 else Throws (AudioErrorClass "PERMISSION_DENIED"
                                "Audio permission not granted" None)
             | Rejects v =>
                 Throws (AudioErrorClass "PERMISSION_DENIED"
                           "Failed to request audio permission" (Some v))
             end).
Proof.
  intros E calls r_get r_request. cbv zeta.
  unfold PermissionUtils.ensureAudioPermission, PermissionUtils.hasAudioPermission,
    PermissionUtils.getAudioPermissionStatus, PermissionUtils.requestAudioPermission,
    PermissionUtils.call, PermissionUtils.PERMISSION_DENIED.
  js_unfold.
  destruct r_get as [[st [|]] | v]; cbn;
    (split; intros H; try discriminate H);
    try (split; reflexivity);
    destruct r_request as [[st' g'] | v']; cbn;
    try destruct (String.eqb st' "granted"); cbn;
    rewrite <- ?app_assoc; split; reflexivity.
Qed.

(** * Properties of the static services *)

Ltac static_player_unfold :=
  unfold StaticServices.AudioPlaybackService.play, StaticServices.AudioPlaybackService.pause,
    StaticServices.AudioPlaybackService.stop, StaticServices.AudioPlaybackService.seekTo,
    StaticServices.AudioPlaybackService.setVolume,
    StaticServices.AudioPlaybackService.setRate,
    StaticServices.AudioPlaybackService.setMuted,
    StaticServices.AudioPlaybackService.setLooping,
    StaticServices.AudioPlaybackService.loadAudio,
    StaticServices.AudioPlaybackService.unloadAudio,
    StaticServices.AudioPlaybackService.with_sound,
    StaticServices.AudioPlaybackService.call,
    StaticServices.AudioPlaybackService.Sound_createAsync;
  js_unfold.

(** X25: the transport and the setters of the static playback service
    ([play], [pause], [stop], [seekTo], [setVolume], [setRate], [setMuted],
    [setLooping]) never throw.  Without a loaded sound they return [false]
    and make no native call; with one they return [true] exactly when every
    native call they make resolves.  None of them changes which sound is
    held. *)
Theorem static_player_never_throws :
  forall (s : StaticServices.AudioPlaybackService.t)
         (o : StaticServices.AudioPlaybackService.op),
    let run := StaticServices.AudioPlaybackService.perform o in
    (exists b, result run s = Returns b)
    /\ (StaticServices.AudioPlaybackService.sound s = None ->
        result run s = Returns false /\ exec run s = s)
    /\ (StaticServices.AudioPlaybackService.sound s <> None ->
        result run s = Returns (StaticServices.AudioPlaybackService.natives_resolve o))
    /\ StaticServices.AudioPlaybackService.sound (exec run s)
       = StaticServices.AudioPlaybackService.sound s.
Proof.
  intros s o. cbv zeta.
  destruct s as [[snd |] nobj cl];
    destruct o as [r | r | r1 r2 | p r | v r | x r | b r | b r];
    cbn [StaticServices.AudioPlaybackService.perform
         StaticServices.AudioPlaybackService.natives_resolve];
    static_player_unfold;
    try destruct r as [[] | e]; try destruct r1 as [[] | e1]; try destruct r2 as [[] | e2];
    cbn -[Math_max Math_min];
    (split; [eexists; reflexivity |]);
    (split; [intros H; try discriminate H; split; reflexivity |]);
    (split; [intros H; try reflexivity; exfalso; apply H; reflexivity | reflexivity]).
Qed.

(** X26: the static service clamps before it calls the native setters.
    With a sound loaded, [setVolume(v)] makes exactly one native call,
    [setVolumeAsync] with [Math.min(Math.max(v, 0), 1)], and [setRate(r)]
    makes exactly one, [setRateAsync] with [Math.min(Math.max(r, 0.5), 2)]
    and with pitch correction on.  For a finite argument the value handed
    over is in [[0, 1]], respectively in [[0.5, 2]]; for NaN it is NaN. *)
Theorem static_setters_clamp :
  forall (s : StaticServices.AudioPlaybackService.t) (snd : AudioPlaybackService.Sound)
         (x : number) (r : native unit),
    StaticServices.AudioPlaybackService.sound s = Some snd ->
    StaticServices.AudioPlaybackService.calls
      (exec (StaticServices.AudioPlaybackService.setVolume x r) s)
    = (StaticServices.AudioPlaybackService.calls s
         ++ [StaticServices.AudioPlaybackService.setVolumeAsync
               (AudioPlaybackService.object_id snd)
               (Math_min (Math_max x 0) 1)])%list
    /\ StaticServices.AudioPlaybackService.calls
         (exec (StaticServices.AudioPlaybackService.setRate x r) s)
       = (StaticServices.AudioPlaybackService.calls s
            ++ [StaticServices.AudioPlaybackService.setRateAsync
                  (AudioPlaybackService.object_id snd)
                  (Math_min (Math_max x (1 # 2)) 2) true])%list
    /\ (x <> NaN ->
        (Number_le 0 (Math_min (Math_max x 0) 1)
         /\ Number_le (Math_min (Math_max x 0) 1) 1)
        /\ (Number_le (1 # 2) (Math_min (Math_max x (1 # 2)) 2)
            /\ Number_le (Math_min (Math_max x (1 # 2)) 2) 2))
    /\ (x = NaN ->
        Math_min (Math_max x 0) 1 = NaN /\ Math_min (Math_max x (1 # 2)) 2 = NaN).
Proof.
  intros s snd x r Hs.
  destruct s as [held nobj cl]. cbn in Hs. subst held.
  static_player_unfold.
  split; [destruct r as [[] | e]; reflexivity |].
  split; [destruct r as [[] | e]; reflexivity |].
  split.
  - destruct x as [| q]; [intros H; exfalso; apply H; reflexivity | intros _].
    cbn [Math_max Math_min Number_le].
    split; (split; [apply clamp_lower; discriminate | apply clamp_upper]).
  - intros ->. split; reflexivity.
Qed.

Lemma static_setters_clamp_witness :
  let s := exec (StaticServices.AudioPlaybackService.loadAudio "a.mp3" None
                   (Resolves tt) (Resolves tt))
             StaticServices.AudioPlaybackService.init in
  StaticServices.AudioPlaybackService.calls
    (exec (StaticServices.AudioPlaybackService.setVolume (3 # 2) (Resolves tt)) s)
  = (StaticServices.AudioPlaybackService.calls s
       ++ [StaticServices.AudioPlaybackService.setVolumeAsync 0 1])%list
  /\ StaticServices.AudioPlaybackService.calls
       (exec (StaticServices.AudioPlaybackService.setRate (3 # 2) (Resolves tt)) s)
     = (StaticServices.AudioPlaybackService.calls s
          ++ [StaticServices.AudioPlaybackService.setRateAsync 0 (3 # 2) true])%list.
Proof.
  pose proof (static_setters_clamp
                (exec (StaticServices.AudioPlaybackService.loadAudio "a.mp3" None
                         (Resolves tt) (Resolves tt))
                   StaticServices.AudioPlaybackService.init)
                {| AudioPlaybackService.object_id := 0 |} (3 # 2) (Resolves tt) eq_refl)
    as [H1 [H2 _]].
  split; [exact H1 | exact H2].
Defined.

(** X27: loading and unloading in the static playback service.
    [unloadAudio()] never throws: it returns [true] when nothing is loaded
    or the native unload resolves (nothing is held afterwards), and [false]
    when the native unload rejects, the sound staying held.  [loadAudio()]
    never throws and ignores how the unload went: it returns whether
    [createAsync] resolved.  When it resolves the new sound is held, also
    over a prior sound whose unload was rejected; when it rejects what the
    unload left stays.  With the options omitted the initial status is
    not playing, rate 1, volume 1, not muted, not looping, interval 500. *)
Theorem static_load_unload_spec :
  forall (s : StaticServices.AudioPlaybackService.t) (uri : string)
         (options : option Audio.AudioPlaybackOptions) (r_unload r_create : native unit),
    let unloaded := exec (StaticServices.AudioPlaybackService.unloadAudio r_unload) s in
    let loaded :=
      exec (StaticServices.AudioPlaybackService.loadAudio uri options r_unload r_create) s in
    result (StaticServices.AudioPlaybackService.unloadAudio r_unload) s
    = Returns match StaticServices.AudioPlaybackService.sound s, r_unload with
              | Some _, Rejects _ => false
              | _, _ => true
              end
    /\ StaticServices.AudioPlaybackService.sound unloaded
       = match r_unload with
         | Resolves _ => None
         | Rejects _ => StaticServices.AudioPlaybackService.sound s
         end
    /\ result (StaticServices.AudioPlaybackService.loadAudio uri options r_unload r_create) s
       = Returns match r_create with Resolves _ => true | Rejects _ => false end
    /\ StaticServices.AudioPlaybackService.sound loaded
       = match r_create with
         | Resolves _ =>
             Some {| AudioPlaybackService.object_id :=
                       StaticServices.AudioPlaybackService.next_object s |}
         | Rejects _ => StaticServices.AudioPlaybackService.sound unloaded
         end
    /\ (options = None ->
        exists before,
          StaticServices.AudioPlaybackService.calls loaded
          = (before
               ++ [StaticServices.AudioPlaybackService.createAsync
                     (StaticServices.AudioPlaybackService.next_object s) uri
                     {| StaticServices.AudioPlaybackService.shouldPlay := false;
                        StaticServices.AudioPlaybackService.rate := 1;
                        StaticServices.AudioPlaybackService.volume := 1;
                        StaticServices.AudioPlaybackService.isMuted := false;
                        StaticServices.AudioPlaybackService.isLooping := false;
                        StaticServices.AudioPlaybackService.progressUpdateIntervalMillis :=
                          500 |}])%list).
Proof.
  intros s uri options r_unload r_create. cbv zeta.
  destruct s as [[snd |] nobj cl];
    destruct r_unload as [[] | e1]; destruct r_create as [[] | e2];
    static_player_unfold; cbn;
    repeat (split; [reflexivity |]);
    intros ->; cbn; eexists; reflexivity.
Qed.

Ltac static_recorder_unfold :=
  unfold StaticServices.AudioRecordingService.startRecording,
    StaticServices.AudioRecordingService.stopRecording,
    StaticServices.AudioRecordingService.pauseRecording,
    StaticServices.AudioRecordingService.resumeRecording,
    StaticServices.AudioRecordingService.getRecordingStatus,
    StaticServices.AudioRecordingService.requestPermission,
    StaticServices.AudioRecordingService.Recording_create,
    StaticServices.AudioRecordingService.call;
  js_unfold.

(** X28: [stopRecording()] of the static recording service never throws
    and always leaves the static handle cleared.  Without a recording it
    returns [null] and makes no native call.  With one it returns the
    recording info exactly when stopping, switching the audio mode back and
    reading the status all resolve; the info carries the uri read from the
    recording (or the empty string) and the reported duration (or 0).  When
    stopping itself rejects, the audio mode is not switched back. *)
Theorem static_stopRecording_spec :
  forall (s : StaticServices.AudioRecordingService.t) (r_stop r_mode : native unit)
         (r_uri : option string)
         (r_status : native AudioRecordingService.ExpoRecordingStatus),
    let stop := StaticServices.AudioRecordingService.stopRecording
                  r_stop r_mode r_uri r_status in
    (exists v, result stop s = Returns v)
    /\ StaticServices.AudioRecordingService.recording (exec stop s) = None
    /\ (StaticServices.AudioRecordingService.recording s = None ->
        result stop s = Returns None /\ exec stop s = s)
    /\ (forall rec status,
          StaticServices.AudioRecordingService.recording s = Some rec ->
          r_stop = Resolves tt -> r_mode = Resolves tt -> r_status = Resolves status ->
          result stop s
          = Returns (Some {| Audio.uri := or_empty r_uri;
                             Audio.duration :=
                               or_zero (AudioRecordingService.durationMillis status);
                             Audio.canRecord := AudioRecordingService.canRecord status;
                             Audio.isRecording := AudioRecordingService.isRecording status;
                             Audio.isDoneRecording :=
                               AudioRecordingService.isDoneRecording status |}))
    /\ (forall rec,
          StaticServices.AudioRecordingService.recording s = Some rec ->
          (exists v, r_stop = Rejects v) \/ (exists v, r_mode = Rejects v)
          \/ (exists v, r_status = Rejects v) ->
          result stop s = Returns None)
    /\ (forall rec v,
          StaticServices.AudioRecordingService.recording s = Some rec ->
          r_stop = Rejects v ->
          StaticServices.AudioRecordingService.calls (exec stop s)
          = (StaticServices.AudioRecordingService.calls s
               ++ [StaticServices.AudioRecordingService.stopAndUnloadAsync rec])%list).
Proof.
  intros s r_stop r_mode r_uri r_status. cbv zeta.
  destruct s as [[rec0 |] nobj cl];
    destruct r_stop as [[] | e1]; destruct r_mode as [[] | e2];
    destruct r_status as [st | e3];
    static_recorder_unfold; cbn -[or_zero or_empty];
    (split; [eexists; reflexivity |]);
    (split; [reflexivity |]);
    (split; [intros H; try discriminate H; split; reflexivity |]);
    (split; [intros rec status H1 H2 H3 H4; try discriminate;
             injection H4 as <-; reflexivity |]);
    (split; [intros rec H1 [[v H] | [[v H] | [v H]]]; try discriminate; reflexivity |]);
    intros rec v H1 H2; try discriminate; injection H1 as <-; reflexivity.
Qed.

(** X29: [startRecording()] of the static recording service never throws.
    It returns [true] exactly when the permission request is answered
    'granted' and both setting the audio mode and creating the recording
    resolve; the created recording is then held.  When the permission is
    not granted (or the request rejects) the request is its only native
    call and the held recording is left as it was.  It never stops a
    recording that is already held.  The preset is high quality when the
    options are omitted or ask for HIGH, and low quality otherwise, also
    when the options leave the quality out. *)
Theorem static_startRecording_spec :
  forall (s : StaticServices.AudioRecordingService.t)
         (options : option Audio.AudioRecordingOptions)
         (r_permission : native string) (r_mode r_create : native unit),
    let start := StaticServices.AudioRecordingService.startRecording
                   options r_permission r_mode r_create in
    let granted :=
      match r_permission with
      | Resolves status => String.eqb status "granted"
      | Rejects _ => false
      end in
    let resolved (r : native unit) :=
      match r with Resolves _ => true | Rejects _ => false end in
    result start s = Returns (granted && resolved r_mode && resolved r_create)
    /\ (granted && resolved r_mode && resolved r_create = true ->
        StaticServices.AudioRecordingService.recording (exec start s)
        = Some (StaticServices.AudioRecordingService.next_object s))
    /\ (granted = false ->
        StaticServices.AudioRecordingService.calls (exec start s)
        = (StaticServices.AudioRecordingService.calls s
             ++ [StaticServices.AudioRecordingService.requestPermissionsAsync])%list
        /\ StaticServices.AudioRecordingService.recording (exec start s)
           = StaticServices.AudioRecordingService.recording s)
    /\ (forall rec,
          ~ In (StaticServices.AudioRecordingService.stopAndUnloadAsync rec)
               (StaticServices.AudioRecordingService.calls s) ->
          ~ In (StaticServices.AudioRecordingService.stopAndUnloadAsync rec)
               (StaticServices.AudioRecordingService.calls (exec start s)))
    /\ StaticServices.AudioRecordingService.mapRecordingOptions None
       = StaticServices.AudioRecordingService.HIGH_QUALITY
    /\ StaticServices.AudioRecordingService.mapRecordingOptions
         (Some {| Audio.quality := Some Audio.HIGH |})
       = StaticServices.AudioRecordingService.HIGH_QUALITY
    /\ StaticServices.AudioRecordingService.mapRecordingOptions
         (Some {| Audio.quality := Some Audio.LOW |})
       = StaticServices.AudioRecordingService.LOW_QUALITY
    /\ StaticServices.AudioRecordingService.mapRecordingOptions
         (Some {| Audio.quality := None |})
       = StaticServices.AudioRecordingService.LOW_QUALITY.
Proof.
  intros s options r_permission r_mode r_create. cbv zeta.
  destruct s as [held nobj cl].
  static_recorder_unfold. unfold Static.AudioRecordingService.mapPermissionStatus.
  destruct r_permission as [status | e0]; cbn;
    [destruct (String.eqb status "granted") eqn:Eg; cbn;
     [| destruct (String.eqb status "denied"); cbn] |];
    destruct r_mode as [[] | e1]; destruct r_create as [[] | e2]; cbn;
    (split; [reflexivity |]);
    (split; [intros H; try discriminate H; reflexivity |]);
    (split; [intros H; try discriminate H; split; reflexivity |]);
    (split; [| repeat split; reflexivity]);
    intros rec Hnot Hin;
    repeat (apply in_app_or in Hin; destruct Hin as [Hin | Hin]);
    try (apply Hnot; exact Hin);
    repeat (destruct Hin as [Hin | Hin]; [discriminate Hin |]);
    try contradiction.
Qed.

(** X30: a poll tick of the playback coordinator never throws and never
    changes the held sound, the uri, the recorded error or the options.  A
    tick whose timer is no longer active does nothing at all.  A tick of an
    active timer that finds no sound, whose status call rejects, or whose
    status is not loaded keeps the session state and stops polling: the
    recorded timer is forgotten and cleared. *)
Theorem player_tick_spec :
  forall (s : AudioPlaybackService.t) (interval : nat)
         (r_status : native AudioPlaybackService.AVPlaybackStatus),
    let s' := exec (AudioPlaybackService.tick interval r_status) s in
    result (AudioPlaybackService.tick interval r_status) s = Returns tt
    /\ AudioPlaybackService.soundInstance s' = AudioPlaybackService.soundInstance s
    /\ AudioPlayback.uri (AudioPlaybackService.playback s')
       = AudioPlayback.uri (AudioPlaybackService.playback s)
    /\ AudioPlayback.error (AudioPlaybackService.playback s')
       = AudioPlayback.error (AudioPlaybackService.playback s)
    /\ AudioPlayback.options (AudioPlaybackService.playback s')
       = AudioPlayback.options (AudioPlaybackService.playback s)
    /\ (Timers.is_active interval (AudioPlaybackService.timers s) = false -> s' = s)
    /\ (Timers.is_active interval (AudioPlaybackService.timers s) = true ->
        (AudioPlaybackService.soundInstance s = None
         \/ (exists v, r_status = Rejects v)
         \/ (exists e, r_status = Resolves (AudioPlaybackService.NotLoaded e))) ->
        AudioPlayback.state (AudioPlaybackService.playback s')
        = AudioPlayback.state (AudioPlaybackService.playback s)
        /\ AudioPlaybackService.statusUpdateInterval s' = None
        /\ (AudioPlaybackService.statusUpdateInterval s = Some interval ->
            Timers.is_active interval (AudioPlaybackService.timers s') = false)).
Proof.
  intros s interval r_status. cbv zeta.
  destruct s as [inst [pst puri [o1 o2 looping o4 o5 o6 o7] pdur ppos perr pstat]
                   timer tm nobj cl].
  unfold AudioPlayback.uri, AudioPlayback.error, AudioPlayback.options,
    AudioPlayback.state.
  playback_unfold. unfold AudioPlayback.isLooping. playback_simpl'.
  destruct (Timers.is_active interval tm) eqn:Hact; playback_simpl';
    [| do 5 (split; [reflexivity |]); split; [reflexivity | intros H; discriminate H]].
  destruct inst as [sound |];
    [destruct r_status as [[e | [[|] a2 a3 a4 a5 a6 a7 a8 a9 a10]] | v];
     try destruct looping |];
    destruct timer as [recorded |]; playback_simpl';
    do 5 (split; [reflexivity |]);
    (split; [intros H; discriminate H |]);
    intros _ Hwhy;
    try (destruct Hwhy as [H | [[v' H] | [e' H]]]; discriminate H);
    (split; [reflexivity |]); (split; [reflexivity |]);
    intros H; try discriminate H; injection H as <-; apply clearInterval_inactive.
Qed.
